(** * The session-storage shopping cart ([ShoppingCart]) as a state machine

    A shallow embedding of the [ShoppingCart] class: the item mapping, the
    observer set, the sessionStorage entry and the JavaScript semantics the
    class relies on (own-property order, inherited properties, truthiness,
    JSON text), followed by the properties of its public methods.

    Conventions of the embedding.
    - A finite JavaScript number is an integer ([Fin z]), and sums and
      products of integers are exact; [NaN] and the two infinities are
      separate values. A double holds every integer up to 2^53 in magnitude
      and the code computes without rounding as long as operands and results
      stay in that range ([exact]): the properties whose conclusion depends
      on the value of a sum, a difference or a product, or on the text of a
      number, assume it. Numbers with a fraction, negative zero, and what the
      code does beyond that range (rounding, exponents in texts) are not
      represented.
    - A string is a sequence of code units below 256.
    - Objects live in a heap: [this.items] and every object built by a
      spread are entries of [objects]; every [{quantity, price}] record is an
      entry of [records]. A reference is an index into its heap.
    - Observers are external functions. One is known by an identity, by
      whether it throws on a given snapshot, and by the calls of [subscribe]
      and [unsubscribe] it makes while it is notified. It calls no other
      method of the cart and does not write to the heap. *)

From Stdlib Require Import ZArith NArith Lia Bool Ascii String List.
From Stdlib Require Import Decimal DecimalString DecimalN DecimalFacts.
From stdpp Require Import base tactics option list.
Import ListNotations.

Local Open Scope string_scope.
Local Open Scope Z_scope.

#[local] Instance string_eq_dec : EqDecision string := String.string_dec.

(** ** JavaScript values *)

Module JS.

(** The number type (see the conventions above). *)
Inductive number : Type :=
| Fin (z : Z)
| NaN
| PosInf
| NegInf.

(** The values a price can hold: a number or [null]. *)
Inductive value : Type :=
| VNull
| VNum (n : number).

(** [ToNumber]: [null] converts to [+0]. *)
Definition ToNumber (v : value) : number :=
  match v with
  | VNull => Fin 0
  | VNum n => n
  end.

(** [ToBoolean]: [null], [0] and [NaN] are falsy. *)
Definition ToBoolean (v : value) : bool :=
  match v with
  | VNull => false
  | VNum (Fin z) => negb (Z.eqb z 0)
  | VNum NaN => false
  | VNum _ => true
  end.

(** [a > 0] on numbers: false for [NaN]. *)
Definition gt0 (n : number) : bool :=
  match n with
  | Fin z => Z.ltb 0 z
  | PosInf => true
  | NaN | NegInf => false
  end.

Definition add (a b : number) : number :=
  match a, b with
  | NaN, _ | _, NaN => NaN
  | PosInf, NegInf | NegInf, PosInf => NaN
  | PosInf, _ | _, PosInf => PosInf
  | NegInf, _ | _, NegInf => NegInf
  | Fin x, Fin y => Fin (x + y)
  end.

Definition inf_of_sign (positive : bool) : number :=
  if positive then PosInf else NegInf.

Definition mul (a b : number) : number :=
  match a, b with
  | NaN, _ | _, NaN => NaN
  | Fin x, Fin y => Fin (x * y)
  | Fin x, PosInf | PosInf, Fin x =>
      if Z.eqb x 0 then NaN else inf_of_sign (Z.ltb 0 x)
  | Fin x, NegInf | NegInf, Fin x =>
      if Z.eqb x 0 then NaN else inf_of_sign (Z.ltb x 0)
  | PosInf, PosInf | NegInf, NegInf => PosInf
  | PosInf, NegInf | NegInf, PosInf => NegInf
  end.

(** [v || 0] where the result is used as a number. *)
Definition or_zero (v : value) : number :=
  if ToBoolean v then ToNumber v else Fin 0.

(** Decimal text of a natural number, most significant digit first. *)
Definition string_of_N (n : N) : string :=
  NilEmpty.string_of_uint (N.to_uint n).

(** [Number::toString] on an integer. *)
Definition string_of_Z (z : Z) : string :=
  match z with
  | Z0 => "0"
  | Zpos p => string_of_N (Npos p)
  | Zneg p => String "-" (string_of_N (Npos p))
  end.

Definition is_digit (c : ascii) : bool :=
  let n := N_of_ascii c in (N.leb 48 n && N.leb n 57)%bool.

(** Value of a run of decimal digits. *)
Definition digits_value (s : string) : N :=
  match NilEmpty.uint_of_string s with
  | Some d => N.of_uint d
  | None => 0%N
  end.

Fixpoint all_digits (s : string) : bool :=
  match s with
  | EmptyString => true
  | String c s' => is_digit c && all_digits s'
  end.

(** A property key is an array index when it is the canonical decimal text
    of an integer between 0 and 2^32 - 2. *)
Definition array_index (k : string) : option N :=
  match k with
  | EmptyString => None
  | String c rest =>
      if all_digits k then
        if (Ascii.eqb c "0" && negb (String.eqb rest EmptyString))%bool then None
        else
          let n := digits_value k in
          if (n <=? 4294967294)%N then Some n else None
      else None
  end.

End JS.

Export JS.

(** ** JSON text

    [JSON.stringify] and [JSON.parse] for the values the cart stores. The
    parser follows the JSON grammar. At a literal whose value the embedding
    does not represent (a number with a fraction or an exponent, negative
    zero, a [\u] escape of 256 or more) it stops building the value and
    answers [Unsupported]; [parse] then checks the whole text against the
    grammar, so that a text that is not JSON is an error wherever it goes
    wrong. *)

Module JSON.

#[warnings="-register-all"]
Inductive json : Type :=
| JNull
| JBool (b : bool)
| JNum (z : Z)
| JStr (s : string)
| JArr (l : list json)
| JObj (members : list (string * json)).

Definition dquote : ascii := "034"%char.
Definition backslash : ascii := "092"%char.

Definition hex_digit (n : N) : ascii :=
  if (n <? 10)%N then ascii_of_N (48 + n) else ascii_of_N (87 + n).

(** [QuoteJSONString], one code unit. *)
Definition escape_char (c : ascii) : string :=
  let n := N_of_ascii c in
  if (n =? 34)%N then String backslash (String dquote EmptyString)
  else if (n =? 92)%N then String backslash (String backslash EmptyString)
  else if (n =? 8)%N then String backslash "b"
  else if (n =? 9)%N then String backslash "t"
  else if (n =? 10)%N then String backslash "n"
  else if (n =? 12)%N then String backslash "f"
  else if (n =? 13)%N then String backslash "r"
  else if (n <? 32)%N then
    String backslash
      (String "u" (String "0" (String "0"
         (String (hex_digit (n / 16)) (String (hex_digit (n mod 16)) EmptyString)))))
  else String c EmptyString.

Fixpoint escape (s : string) : string :=
  match s with
  | EmptyString => EmptyString
  | String c s' => escape_char c ++ escape s'
  end.

Definition quote (s : string) : string :=
  String dquote (escape s ++ String dquote EmptyString).

Fixpoint join (sep : string) (l : list string) : string :=
  match l with
  | [] => EmptyString
  | [x] => x
  | x :: l' => x ++ sep ++ join sep l'
  end.

(** [JSON.stringify] without indentation. *)
Fixpoint print (j : json) : string :=
  match j with
  | JNull => "null"
  | JBool true => "true"
  | JBool false => "false"
  | JNum z => string_of_Z z
  | JStr s => quote s
  | JArr l => "[" ++ join "," (List.map print l) ++ "]"
  | JObj members =>
      "{" ++ join "," (List.map (fun m => quote (fst m) ++ ":" ++ print (snd m)) members)
          ++ "}"
  end.

(** *** Parsing *)

Inductive result (A : Type) : Type :=
| Ok (a : A) (rest : string)
| SyntaxError
| Unsupported.
Arguments Ok {A} a rest.
Arguments SyntaxError {A}.
Arguments Unsupported {A}.

Definition bind {A B} (r : result A) (k : A -> string -> result B) : result B :=
  match r with
  | Ok a rest => k a rest
  | SyntaxError => SyntaxError
  | Unsupported => Unsupported
  end.

Definition is_ws (c : ascii) : bool :=
  let n := N_of_ascii c in
  ((n =? 32) || (n =? 9) || (n =? 10) || (n =? 13))%N%bool.

Fixpoint skip_ws (s : string) : string :=
  match s with
  | String c s' => if is_ws c then skip_ws s' else s
  | EmptyString => s
  end.

Definition hex_value (c : ascii) : option N :=
  let n := N_of_ascii c in
  if (48 <=? n)%N && (n <=? 57)%N then Some (n - 48)%N
  else if (65 <=? n)%N && (n <=? 70)%N then Some (n - 55)%N
  else if (97 <=? n)%N && (n <=? 102)%N then Some (n - 87)%N
  else None.

(** The code unit of a [\uXXXX] escape from its four hexadecimal digits. *)
Definition hex4 (a b c d : ascii) : option N :=
  match hex_value a, hex_value b, hex_value c, hex_value d with
  | Some x, Some y, Some z, Some w => Some (((x * 16 + y) * 16 + z) * 16 + w)%N
  | _, _, _, _ => None
  end.

Definition cons_char (c : ascii) (r : result string) : result string :=
  bind r (fun s rest => Ok (String c s) rest).

(** The characters of a string literal, after its opening quote. *)
Fixpoint parse_chars (s : string) : result string :=
  match s with
  | EmptyString => SyntaxError
  | String c s' =>
      if Ascii.eqb c dquote then Ok EmptyString s'
      else if Ascii.eqb c backslash then
        match s' with
        | EmptyString => SyntaxError
        | String e s'' =>
            if Ascii.eqb e dquote then cons_char dquote (parse_chars s'')
            else if Ascii.eqb e backslash then cons_char backslash (parse_chars s'')
            else if Ascii.eqb e "/" then cons_char "/" (parse_chars s'')
            else if Ascii.eqb e "b" then cons_char "008" (parse_chars s'')
            else if Ascii.eqb e "f" then cons_char "012" (parse_chars s'')
            else if Ascii.eqb e "n" then cons_char "010" (parse_chars s'')
            else if Ascii.eqb e "r" then cons_char "013" (parse_chars s'')
            else if Ascii.eqb e "t" then cons_char "009" (parse_chars s'')
            else if Ascii.eqb e "u" then
              match s'' with
              | String h1 (String h2 (String h3 (String h4 s4))) =>
                  match hex4 h1 h2 h3 h4 with
                  | None => SyntaxError
                  | Some n =>
                      if (n <? 256)%N then cons_char (ascii_of_N n) (parse_chars s4)
                      else Unsupported
                  end
              | _ => SyntaxError
              end
            else SyntaxError
        end
      else if (N_of_ascii c <? 32)%N then SyntaxError
      else cons_char c (parse_chars s')
  end.

(** The longest prefix of decimal digits, and what follows it. *)
Fixpoint span_digits (s : string) : string * string :=
  match s with
  | String c s' =>
      if is_digit c then
        let '(ds, rest) := span_digits s' in (String c ds, rest)
      else (EmptyString, s)
  | EmptyString => (EmptyString, EmptyString)
  end.

Definition starts_fraction_or_exponent (s : string) : bool :=
  match s with
  | String c _ => Ascii.eqb c "." || Ascii.eqb c "e" || Ascii.eqb c "E"
  | EmptyString => false
  end.

Definition parse_number (s : string) : result json :=
  let '(negative, s1) :=
    match s with
    | String c t => if Ascii.eqb c "-" then (true, t) else (false, s)
    | EmptyString => (false, s)
    end in
  let '(ds, rest) := span_digits s1 in
  match ds with
  | EmptyString => SyntaxError
  | String first others =>
      if Ascii.eqb first "0" && negb (String.eqb others EmptyString) then SyntaxError
      else if starts_fraction_or_exponent rest then Unsupported
      else
        let n := digits_value ds in
        if negative then
          if (n =? 0)%N then Unsupported else Ok (JNum (- Z.of_N n)) rest
        else Ok (JNum (Z.of_N n)) rest
  end.

(** What follows the literal [lit] at the head of [s]. *)
Fixpoint strip_prefix (lit s : string) : option string :=
  match lit with
  | EmptyString => Some s
  | String a lit' =>
      match s with
      | String b s' => if Ascii.eqb a b then strip_prefix lit' s' else None
      | EmptyString => None
      end
  end.

Definition expect_literal (lit : string) (j : json) (s : string) : result json :=
  match strip_prefix lit s with
  | Some rest => Ok j rest
  | None => SyntaxError
  end.

(** A value, and the members of an object after its opening brace. The
    natural number bounds the nesting and the number of members. *)
Fixpoint parse_value (fuel : nat) (s : string) : result json :=
  match fuel with
  | O => Unsupported
  | S fuel' =>
      match skip_ws s with
      | EmptyString => SyntaxError
      | String c s' =>
          if Ascii.eqb c "{" then
            match skip_ws s' with
            | String c' s'' =>
                if Ascii.eqb c' "}" then Ok (JObj []) s''
                else bind (parse_members fuel' s') (fun ms rest => Ok (JObj ms) rest)
            | EmptyString => SyntaxError
            end
          else if Ascii.eqb c "[" then
            match skip_ws s' with
            | String c' s'' =>
                if Ascii.eqb c' "]" then Ok (JArr []) s''
                else bind (parse_elements fuel' s') (fun js rest => Ok (JArr js) rest)
            | EmptyString => SyntaxError
            end
          else if Ascii.eqb c dquote then
            bind (parse_chars s') (fun str rest => Ok (JStr str) rest)
          else if Ascii.eqb c "-" || is_digit c then parse_number (String c s')
          else if Ascii.eqb c "t" then expect_literal "true" (JBool true) (String c s')
          else if Ascii.eqb c "f" then expect_literal "false" (JBool false) (String c s')
          else if Ascii.eqb c "n" then expect_literal "null" JNull (String c s')
          else SyntaxError
      end
  end
with parse_members (fuel : nat) (s : string) : result (list (string * json)) :=
  match fuel with
  | O => Unsupported
  | S fuel' =>
      match skip_ws s with
      | String c s1 =>
          if Ascii.eqb c dquote then
            bind (parse_chars s1) (fun key s2 =>
              match skip_ws s2 with
              | String c2 s3 =>
                  if Ascii.eqb c2 ":" then
                    bind (parse_value fuel' s3) (fun v s4 =>
                      match skip_ws s4 with
                      | String c4 s5 =>
                          if Ascii.eqb c4 "," then
                            bind (parse_members fuel' s5) (fun ms rest =>
                              Ok ((key, v) :: ms) rest)
                          else if Ascii.eqb c4 "}" then Ok [(key, v)] s5
                          else SyntaxError
                      | EmptyString => SyntaxError
                      end)
                  else SyntaxError
              | EmptyString => SyntaxError
              end)
          else SyntaxError
      | EmptyString => SyntaxError
      end
  end
with parse_elements (fuel : nat) (s : string) : result (list json) :=
  match fuel with
  | O => Unsupported
  | S fuel' =>
      bind (parse_value fuel' s) (fun v s1 =>
        match skip_ws s1 with
        | String c s2 =>
            if Ascii.eqb c "," then
              bind (parse_elements fuel' s2) (fun js rest => Ok (v :: js) rest)
            else if Ascii.eqb c "]" then Ok [v] s2
            else SyntaxError
        | EmptyString => SyntaxError
        end)
  end.

(** *** The grammar alone

    Whether a text is JSON at all, read one code unit at a time with the
    stack of the objects and arrays that are open. Numbers follow the whole
    grammar (fraction and exponent included) and every [\uXXXX] escape is
    accepted, since no value is built. *)

Inductive container : Type := InObject | InArray.

Inductive position : Type :=
| BeforeValue               (* a value must start *)
| BeforeValueOrClose        (* after [: a value, or ] *)
| BeforeKeyOrClose          (* after {: a key, or } *)
| BeforeKey                 (* after a comma in an object *)
| BeforeColon               (* after a key *)
| AfterValue                (* after a value: a comma, a closing bracket, the end *)
| InString (key : bool)     (* inside a string literal *)
| InEscape (key : bool)     (* after a backslash *)
| InHex (key : bool) (more : nat)  (* inside \uXXXX, [S more] digits to come *)
| InLiteral (rest : string) (* inside true, false or null *)
| AfterMinus
| AfterZero
| InInteger
| AfterPoint
| InFraction
| AfterE
| AfterExpSign
| InExponent.

Definition is_hex (c : ascii) : bool :=
  match hex_value c with
  | Some _ => true
  | None => false
  end.

(** The code unit [c] where a value may start. *)
Definition start_value (stack : list container) (c : ascii)
  : option (list container * position) :=
  if Ascii.eqb c "{" then Some (InObject :: stack, BeforeKeyOrClose)
  else if Ascii.eqb c "[" then Some (InArray :: stack, BeforeValueOrClose)
  else if Ascii.eqb c dquote then Some (stack, InString false)
  else if Ascii.eqb c "-" then Some (stack, AfterMinus)
  else if Ascii.eqb c "0" then Some (stack, AfterZero)
  else if is_digit c then Some (stack, InInteger)
  else if Ascii.eqb c "t" then Some (stack, InLiteral "rue")
  else if Ascii.eqb c "f" then Some (stack, InLiteral "alse")
  else if Ascii.eqb c "n" then Some (stack, InLiteral "ull")
  else None.

(** The code unit [c] after a complete value. *)
Definition after_value (stack : list container) (c : ascii)
  : option (list container * position) :=
  if is_ws c then Some (stack, AfterValue)
  else
    match stack with
    | InObject :: stack' =>
        if Ascii.eqb c "," then Some (stack, BeforeKey)
        else if Ascii.eqb c "}" then Some (stack', AfterValue)
        else None
    | InArray :: stack' =>
        if Ascii.eqb c "," then Some (stack, BeforeValue)
        else if Ascii.eqb c "]" then Some (stack', AfterValue)
        else None
    | [] => None
    end.

Definition read (stack : list container) (p : position) (c : ascii)
  : option (list container * position) :=
  match p with
  | BeforeValue => if is_ws c then Some (stack, p) else start_value stack c
  | BeforeValueOrClose =>
      if is_ws c then Some (stack, p)
      else if Ascii.eqb c "]" then
        match stack with
        | InArray :: stack' => Some (stack', AfterValue)
        | _ => None
        end
      else start_value stack c
  | BeforeKeyOrClose =>
      if is_ws c then Some (stack, p)
      else if Ascii.eqb c "}" then
        match stack with
        | InObject :: stack' => Some (stack', AfterValue)
        | _ => None
        end
      else if Ascii.eqb c dquote then Some (stack, InString true)
      else None
  | BeforeKey =>
      if is_ws c then Some (stack, p)
      else if Ascii.eqb c dquote then Some (stack, InString true)
      else None
  | BeforeColon =>
      if is_ws c then Some (stack, p)
      else if Ascii.eqb c ":" then Some (stack, BeforeValue)
      else None
  | AfterValue => after_value stack c
  | InString key =>
      if Ascii.eqb c dquote then Some (stack, if key then BeforeColon else AfterValue)
      else if Ascii.eqb c backslash then Some (stack, InEscape key)
      else if (N_of_ascii c <? 32)%N then None
      else Some (stack, p)
  | InEscape key =>
      if Ascii.eqb c dquote || Ascii.eqb c backslash || Ascii.eqb c "/"
         || Ascii.eqb c "b" || Ascii.eqb c "f" || Ascii.eqb c "n"
         || Ascii.eqb c "r" || Ascii.eqb c "t"
      then Some (stack, InString key)
      else if Ascii.eqb c "u" then Some (stack, InHex key 3)
      else None
  | InHex key more =>
      if is_hex c then
        match more with
        | O => Some (stack, InString key)
        | S more' => Some (stack, InHex key more')
        end
      else None
  | InLiteral rest =>
      match rest with
      | String a rest' =>
          if Ascii.eqb c a then
            Some (stack, match rest' with
                         | EmptyString => AfterValue
                         | _ => InLiteral rest'
                         end)
          else None
      | EmptyString => None
      end
  | AfterMinus =>
      if Ascii.eqb c "0" then Some (stack, AfterZero)
      else if is_digit c then Some (stack, InInteger)
      else None
  | AfterZero =>
      if Ascii.eqb c "." then Some (stack, AfterPoint)
      else if Ascii.eqb c "e" || Ascii.eqb c "E" then Some (stack, AfterE)
      else after_value stack c
  | InInteger =>
      if is_digit c then Some (stack, p)
      else if Ascii.eqb c "." then Some (stack, AfterPoint)
      else if Ascii.eqb c "e" || Ascii.eqb c "E" then Some (stack, AfterE)
      else after_value stack c
  | AfterPoint => if is_digit c then Some (stack, InFraction) else None
  | InFraction =>
      if is_digit c then Some (stack, p)
      else if Ascii.eqb c "e" || Ascii.eqb c "E" then Some (stack, AfterE)
      else after_value stack c
  | AfterE =>
      if Ascii.eqb c "+" || Ascii.eqb c "-" then Some (stack, AfterExpSign)
      else if is_digit c then Some (stack, InExponent)
      else None
  | AfterExpSign => if is_digit c then Some (stack, InExponent) else None
  | InExponent => if is_digit c then Some (stack, p) else after_value stack c
  end.

(** At the end of the text: nothing is open and a value is complete. *)
Definition complete (stack : list container) (p : position) : bool :=
  match stack, p with
  | [], (AfterValue | AfterZero | InInteger | InFraction | InExponent) => true
  | _, _ => false
  end.

Fixpoint conforms_from (stack : list container) (p : position) (s : string) : bool :=
  match s with
  | EmptyString => complete stack p
  | String c s' =>
      match read stack p c with
      | Some (stack', p') => conforms_from stack' p' s'
      | None => false
      end
  end.

(** The text is one JSON value between white space. *)
Definition conforms (s : string) : bool := conforms_from [] BeforeValue s.

Inductive parsed : Type :=
| Parsed (j : json)
| ParseError
| ParseUnsupported.

(** [JSON.parse]: one value, then nothing but white space. A text that
    holds a literal the embedding has no value for is a [ParseError] when it
    is not JSON, and [ParseUnsupported] when it is. *)
Definition parse (s : string) : parsed :=
  match parse_value (S (String.length s)) s with
  | Ok j rest =>
      match skip_ws rest with
      | EmptyString => Parsed j
      | String _ _ => ParseError
      end
  | SyntaxError => ParseError
  | Unsupported => if conforms s then ParseUnsupported else ParseError
  end.

End JSON.

(** ** Objects used as mappings *)

(** A reference to a [{quantity, price}] record, and to a mapping object. *)
Abbreviation loc := nat (only parsing).
Abbreviation oid := nat (only parsing).

Record LineItem : Type := { quantity : Z; price : value }.

Module Obj.

Section Properties.

(** What a property holds: a reference, or the record itself once
    dereferenced. *)
Context {A : Type}.

(** [O.[[GetOwnProperty]](k)]. *)
Fixpoint own (o : list (string * A)) (k : string) : option A :=
  match o with
  | [] => None
  | (k', l) :: o' => if String.eqb k' k then Some l else own o' k
  end.

(** [o[k] = l] on an own or absent key: an existing property keeps its
    place, a new one is created last. *)
Fixpoint define (o : list (string * A)) (k : string) (l : A) : list (string * A) :=
  match o with
  | [] => [(k, l)]
  | (k', l') :: o' =>
      if String.eqb k' k then (k, l) :: o' else (k', l') :: define o' k l
  end.

(** [delete o[k]]. *)
Fixpoint remove (o : list (string * A)) (k : string) : list (string * A) :=
  match o with
  | [] => []
  | (k', l) :: o' =>
      if String.eqb k' k then remove o' k else (k', l) :: remove o' k
  end.

Fixpoint insert_index (n : N) (e : string * A) (sorted : list (N * (string * A)))
  : list (N * (string * A)) :=
  match sorted with
  | [] => [(n, e)]
  | (m, e') :: rest =>
      if (n <=? m)%N then (n, e) :: sorted else (m, e') :: insert_index n e rest
  end.

(** The properties whose key is an array index, in ascending index order. *)
Fixpoint index_entries (o : list (string * A)) : list (N * (string * A)) :=
  match o with
  | [] => []
  | (k, l) :: o' =>
      match array_index k with
      | Some n => insert_index n (k, l) (index_entries o')
      | None => index_entries o'
      end
  end.

(** The other properties, in order of creation. *)
Fixpoint named_entries (o : list (string * A)) : list (string * A) :=
  match o with
  | [] => []
  | (k, l) :: o' =>
      match array_index k with
      | Some _ => named_entries o'
      | None => (k, l) :: named_entries o'
      end
  end.

(** [Object.entries(o)], in the order of [OrdinaryOwnPropertyKeys]: array
    indices ascending, then the other keys in order of creation. *)
Definition entries (o : list (string * A)) : list (string * A) :=
  List.map snd (index_entries o) ++ named_entries o.

Definition keys (o : list (string * A)) : list string := List.map fst (entries o).

(** [{ ...o }]: a new object holding the own properties of [o]. *)
Definition spread (o : list (string * A)) : list (string * A) := entries o.

End Properties.

End Obj.

(** ** The state of the page *)

(** The argument of an observer: [{ items, totalQuantity, totalPrice }]. *)
Record Snapshot : Type :=
  { snap_items : oid; totalQuantity : Z; totalPrice : number }.

(** What an observer does to the observer set while it is being called. *)
Inductive reaction (L : Type) : Type :=
| Subscribes (f : L)      (* cart.subscribe(f) *)
| Unsubscribes (f : L).   (* cart.unsubscribe(f) *)
Arguments Subscribes {L} f.
Arguments Unsubscribes {L} f.

(** An observer function: its identity, whether it throws given the entries
    of [cartData.items] and the two totals, and the calls of [subscribe] and
    [unsubscribe] it makes, in order, when it is called. *)
#[warnings="-register-all"]
Inductive Listener : Type := {
  lid : nat;
  throws : list (string * LineItem) -> Z -> number -> bool;
  during : list (reaction Listener)
}.

(** The [sessionStorage] entry under the cart's key. Access throws when the
    storage is not [available]; [setItem] throws when the text is longer
    than the [capacity]. *)
Record Storage : Type :=
  { available : bool; capacity : option nat; entry : option string }.

(** What [console.error] received. *)
Inductive log_entry : Type :=
| LoadError
| SaveError
| ObserverError (l : nat).

Record State : Type := {
  objects : list (list (string * nat));   (* heap of mapping objects *)
  records : list LineItem;                (* heap of item records *)
  items : oid;                            (* this.items *)
  observers : list Listener;              (* this.observers, in insertion order *)
  storage : Storage;
  setItem_calls : list string;            (* texts passed to setItem *)
  console : list log_entry;
  calls : list (nat * Snapshot);          (* observer invocations *)
  proto_price : bool                      (* Object.prototype.price holds a positive number *)
}.

Definition with_objects (v : list (list (string * nat))) (s : State) : State :=
  {| objects := v; records := records s; items := items s; observers := observers s;
     storage := storage s; setItem_calls := setItem_calls s; console := console s;
     calls := calls s; proto_price := proto_price s |}.

Definition with_records (v : list LineItem) (s : State) : State :=
  {| objects := objects s; records := v; items := items s; observers := observers s;
     storage := storage s; setItem_calls := setItem_calls s; console := console s;
     calls := calls s; proto_price := proto_price s |}.

Definition with_items (v : oid) (s : State) : State :=
  {| objects := objects s; records := records s; items := v; observers := observers s;
     storage := storage s; setItem_calls := setItem_calls s; console := console s;
     calls := calls s; proto_price := proto_price s |}.

Definition with_observers (v : list Listener) (s : State) : State :=
  {| objects := objects s; records := records s; items := items s; observers := v;
     storage := storage s; setItem_calls := setItem_calls s; console := console s;
     calls := calls s; proto_price := proto_price s |}.

Definition with_storage (v : Storage) (s : State) : State :=
  {| objects := objects s; records := records s; items := items s; observers := observers s;
     storage := v; setItem_calls := setItem_calls s; console := console s;
     calls := calls s; proto_price := proto_price s |}.

Definition with_setItem_calls (v : list string) (s : State) : State :=
  {| objects := objects s; records := records s; items := items s; observers := observers s;
     storage := storage s; setItem_calls := v; console := console s;
     calls := calls s; proto_price := proto_price s |}.

Definition with_console (v : list log_entry) (s : State) : State :=
  {| objects := objects s; records := records s; items := items s; observers := observers s;
     storage := storage s; setItem_calls := setItem_calls s; console := v;
     calls := calls s; proto_price := proto_price s |}.

Definition with_calls (v : list (nat * Snapshot)) (s : State) : State :=
  {| objects := objects s; records := records s; items := items s; observers := observers s;
     storage := storage s; setItem_calls := setItem_calls s; console := console s;
     calls := v; proto_price := proto_price s |}.

Definition with_proto_price (v : bool) (s : State) : State :=
  {| objects := objects s; records := records s; items := items s; observers := observers s;
     storage := storage s; setItem_calls := setItem_calls s; console := console s;
     calls := calls s; proto_price := v |}.

(** Exceptions, and the completion of a call. *)
Inductive exn : Type :=
| Error (message : string)
| TypeError
| DOMException.

Inductive completion (A : Type) : Type :=
| Normal (a : A)
| Throw (e : exn).
Arguments Normal {A} a.
Arguments Throw {A} e.

(** *** Heap access *)

Definition object_at (s : State) (o : oid) : list (string * nat) :=
  default [] (objects s !! o).

Definition record_at (s : State) (l : loc) : LineItem :=
  default {| quantity := 0; price := VNull |} (records s !! l).

(** The mapping object [this.items]. *)
Definition items_object (s : State) : list (string * nat) := object_at s (items s).

Definition new_object (o : list (string * nat)) (s : State) : oid * State :=
  (length (objects s), with_objects (objects s ++ [o]) s).

Definition new_record (r : LineItem) (s : State) : loc * State :=
  (length (records s), with_records (records s ++ [r]) s).

Definition set_items_object (o : list (string * nat)) (s : State) : State :=
  with_objects (<[items s := o]> (objects s)) s.

Definition set_quantity (l : loc) (q : Z) (s : State) : State :=
  with_records (<[l := {| quantity := q; price := price (record_at s l) |}]> (records s)) s.

Definition set_price (l : loc) (p : value) (s : State) : State :=
  with_records (<[l := {| quantity := quantity (record_at s l); price := p |}]> (records s)) s.

(** *** Property lookup through the prototype chain *)

(** The properties every object inherits from [Object.prototype]: the
    constructor, the methods and the [__proto__] accessor. Each holds an
    object (a function, or the prototype itself for [__proto__]). *)
Definition Object_prototype_keys : list string :=
  [ "constructor"; "__proto__"; "hasOwnProperty"; "isPrototypeOf";
    "propertyIsEnumerable"; "toLocaleString"; "toString"; "valueOf";
    "__defineGetter__"; "__defineSetter__"; "__lookupGetter__"; "__lookupSetter__" ].

Definition mem_string (k : string) (l : list string) : bool :=
  existsb (String.eqb k) l.

(** The result of [this.items[k]]. *)
Inductive property : Type :=
| Own (l : loc)          (* an item record of the mapping *)
| InheritedObject        (* a truthy object found on Object.prototype *)
| InheritedNumber        (* a positive number found on Object.prototype *)
| Undefined.             (* undefined, or an inherited falsy value *)

Definition Get (s : State) (k : string) : property :=
  match Obj.own (items_object s) k with
  | Some l => Own l
  | None =>
      if mem_string k Object_prototype_keys then InheritedObject
      else if String.eqb k "price" && proto_price s then InheritedNumber
      else Undefined
  end.

Definition truthy (p : property) : bool :=
  match p with
  | Undefined => false
  | _ => true
  end.

(** ** The class [ShoppingCart] *)

(** [Object.values(this.items)], dereferenced. *)
Definition item_values (s : State) : list LineItem :=
  List.map (fun e => record_at s (snd e)) (Obj.entries (items_object s)).

(** [Object.entries(this.items)], dereferenced. *)
Definition item_entries (s : State) : list (string * LineItem) :=
  List.map (fun e => (fst e, record_at s (snd e))) (Obj.entries (items_object s)).

(** The entries of any mapping object, dereferenced. *)
Definition entries_of (s : State) (o : oid) : list (string * LineItem) :=
  List.map (fun e => (fst e, record_at s (snd e))) (Obj.entries (object_at s o)).

(** *** Storage *)

Definition getItem (st : Storage) : completion (option string) :=
  if available st then Normal (entry st) else Throw DOMException.

Definition setItem (text : string) (st : Storage) : completion unit * Storage :=
  if available st then
    match capacity st with
    | Some n =>
        if (n <? String.length text)%nat then (Throw DOMException, st)
        else (Normal tt, {| available := true; capacity := Some n; entry := Some text |})
    | None => (Normal tt, {| available := true; capacity := None; entry := Some text |})
    end
  else (Throw DOMException, st).

(** [SerializeJSONProperty] on a price: a number that is not finite becomes
    [null]. *)
Definition json_of_value (v : value) : JSON.json :=
  match v with
  | VNum (Fin z) => JSON.JNum z
  | VNum _ => JSON.JNull
  | VNull => JSON.JNull
  end.

Definition json_of_record (r : LineItem) : JSON.json :=
  JSON.JObj [("quantity", JSON.JNum (quantity r)); ("price", json_of_value (price r))].

Definition json_of_items (s : State) : JSON.json :=
  JSON.JObj (List.map (fun e => (fst e, json_of_record (snd e))) (item_entries s)).

(** [JSON.stringify(this.items)]. *)
Definition stringify_items (s : State) : string := JSON.print (json_of_items s).

(** [saveToStorage()], lines 29-35. *)
Definition saveToStorage (s : State) : State :=
  let text := stringify_items s in
  let s1 := with_setItem_calls (setItem_calls s ++ [text]) s in
  match setItem text (storage s) with
  | (Normal _, st) => with_storage st s1
  | (Throw _, _) => with_console (console s1 ++ [SaveError]) s1
  end.

(** *** Totals *)

(** [getTotalQuantity()], lines 143-145. *)
Definition getTotalQuantity (s : State) : Z :=
  fold_left (fun total item => total + quantity item) (item_values s) 0.

(** [getTotalPrice()], lines 151-155. *)
Definition getTotalPrice (s : State) : number :=
  fold_left
    (fun total item => add total (mul (Fin (quantity item)) (or_zero (price item))))
    (item_values s) (Fin 0).

(** *** Observers *)

(** [subscribe(observer)], lines 41-45; [None] stands for an argument that
    is not a function. [Set.prototype.add] keeps a member already there. *)
Definition subscribe (observer : option Listener) (s : State) : State :=
  match observer with
  | Some f =>
      if existsb (fun g => Nat.eqb (lid g) (lid f)) (observers s) then s
      else with_observers (observers s ++ [f]) s
  | None => s
  end.

(** [unsubscribe(observer)], lines 51-53. *)
Definition unsubscribe (observer : Listener) (s : State) : State :=
  with_observers
    (List.filter (fun g => negb (Nat.eqb (lid g) (lid observer))) (observers s)) s.

(** One call an observer makes while [forEach] runs over the live set.
    [todo] holds the members the iteration has yet to visit, in order: a
    function added is visited in that same round, a function removed before
    its turn is not. *)
Definition react (st : State * list Listener) (r : reaction Listener)
  : State * list Listener :=
  let '(s, todo) := st in
  match r with
  | Subscribes f =>
      (subscribe (Some f) s,
       if existsb (fun g => Nat.eqb (lid g) (lid f)) (observers s) then todo
       else (todo ++ [f])%list)
  | Unsubscribes f =>
      (unsubscribe f s,
       List.filter (fun g => negb (Nat.eqb (lid g) (lid f))) todo)
  end.

(** One turn of the [forEach] of lines 65-71: the call, what the observer
    does during it, and the report of what it threw. *)
Definition call_observer (cartData : Snapshot) (st : State * list Listener)
    (f : Listener) : State * list Listener :=
  let '(s, todo) := st in
  let s1 := with_calls (calls s ++ [(lid f, cartData)]) s in
  let '(s2, todo') := fold_left react (during f) (s1, todo) in
  if throws f (entries_of s (snap_items cartData)) (totalQuantity cartData)
       (totalPrice cartData)
  then (with_console (console s2 ++ [ObserverError (lid f)]) s2, todo')
  else (s2, todo').

(** The number of calls an observer can give rise to in one round: itself
    and the functions it subscribes. *)
Fixpoint weight (f : Listener) : nat :=
  S ((fix subscribed (rs : list (reaction Listener)) : nat :=
        match rs with
        | [] => O
        | Subscribes g :: rs' => (weight g + subscribed rs')%nat
        | Unsubscribes _ :: rs' => subscribed rs'
        end) (during f)).

Definition weights (fs : list Listener) : nat :=
  fold_right (fun f n => (weight f + n)%nat) O fs.

(** [Set.prototype.forEach]: the members are visited in insertion order
    until none is left to visit. The natural number bounds the number of
    visits. *)
Fixpoint forEach (fuel : nat) (cartData : Snapshot) (todo : list Listener) (s : State)
  : State :=
  match fuel, todo with
  | S fuel', f :: rest =>
      let '(s', rest') := call_observer cartData (s, rest) f in
      forEach fuel' cartData rest' s'
  | _, _ => s
  end.

(** [notifyObservers()], lines 58-72. *)
Definition notifyObservers (s : State) : State :=
  let '(copy, s1) := new_object (Obj.spread (items_object s)) s in
  let cartData :=
    {| snap_items := copy;
       totalQuantity := getTotalQuantity s1;
       totalPrice := getTotalPrice s1 |} in
  forEach (weights (observers s1)) cartData (observers s1) s1.

(** *** Mutations *)

(** [!variantId] for an argument that is a string or absent. *)
Definition falsy_id (variantId : option string) : bool :=
  match variantId with
  | None => true
  | Some k => String.eqb k EmptyString
  end.

Definition key_of (variantId : option string) : string :=
  default EmptyString variantId.

(** [this.items[k] = { quantity: 0, price: price }], lines 86-89. *)
Definition create_item (k : string) (p : value) (s : State) : State :=
  let '(l, s') := new_record {| quantity := 0; price := p |} s in
  set_items_object (Obj.define (items_object s') k l) s'.

(** [addItem(variantId, price = 0)], lines 80-103. *)
Definition addItem (variantId : option string) (price_arg : option value) (s : State)
  : completion number * State :=
  let price := default (VNum (Fin 0)) price_arg in
  if falsy_id variantId then (Throw (Error "Variant ID is required"), s)
  else
    let k := key_of variantId in
    (* lines 85-90 *)
    let s1 := if truthy (Get s k) then s else create_item k price s in
    match Get s1 k with
    | Own l =>
        (* line 92 *)
        let s2 := set_quantity l (quantity (record_at s1 l) + 1) s1 in
        (* lines 95-97 *)
        let s3 := if gt0 (ToNumber price) then set_price l price s2 else s2 in
        let s4 := notifyObservers (saveToStorage s3) in
        (Normal (Fin (quantity (record_at s4 l))), s4)
    | InheritedObject =>
        (* the writes of lines 92 and 96 land on the inherited object: its
           quantity becomes NaN; on Object.prototype a price becomes visible
           to every lookup of that key *)
        let s3 :=
          if gt0 (ToNumber price) && String.eqb k "__proto__"
          then with_proto_price true s1 else s1 in
        let s4 := notifyObservers (saveToStorage s3) in
        (Normal NaN, s4)
    | InheritedNumber =>
        (* line 92 assigns a property of a primitive in strict code *)
        (Throw TypeError, s1)
    | Undefined =>
        (* line 92 reads a property of undefined *)
        (Throw TypeError, s1)
    end.

(** [removeItem(variantId)], lines 110-128. *)
Definition removeItem (variantId : option string) (s : State)
  : completion number * State :=
  let k := key_of variantId in
  if falsy_id variantId then (Normal (Fin 0), s)
  else
    match Get s k with
    | Undefined => (Normal (Fin 0), s)
    | Own l =>
        (* line 115 *)
        let s1 := set_quantity l (quantity (record_at s l) - 1) s in
        if (quantity (record_at s1 l) <=? 0) then
          (* lines 118-121 *)
          let s2 := set_items_object (Obj.remove (items_object s1) k) s1 in
          let s3 := notifyObservers (saveToStorage s2) in
          (Normal (Fin 0), s3)
        else
          let s3 := notifyObservers (saveToStorage s1) in
          (Normal (Fin (quantity (record_at s3 l))), s3)
    | InheritedObject =>
        (* line 115 leaves NaN in the quantity of the inherited object, and
           NaN <= 0 is false *)
        let s3 := notifyObservers (saveToStorage s) in
        (Normal NaN, s3)
    | InheritedNumber =>
        (* line 115 assigns a property of a primitive in strict code *)
        (Throw TypeError, s)
    end.

(** [clearCart()], lines 160-164. *)
Definition clearCart (s : State) : State :=
  let '(o, s1) := new_object [] s in
  notifyObservers (saveToStorage (with_items o s1)).

(** *** Queries *)

(** [getItemQuantity(variantId)], lines 135-137. *)
Definition getItemQuantity (variantId : string) (s : State) : number :=
  match Get s variantId with
  | Own l => Fin (quantity (record_at s l))
  | _ => Fin 0
  end.

(** [getAllItems()], lines 170-172: the reference to a new object. *)
Definition getAllItems (s : State) : oid * State :=
  new_object (Obj.spread (items_object s)) s.

(** [isEmpty()], lines 178-180. *)
Definition isEmpty (s : State) : bool :=
  Nat.eqb (length (Obj.keys (items_object s))) 0.

Definition checkout_base : string := "https://ployskanombuns.myshopify.com/cart".

(** [getCheckoutUrl()], lines 186-196. *)
Definition getCheckoutUrl (s : State) : string :=
  if isEmpty s then checkout_base
  else
    let cartItems :=
      JSON.join ","
        (List.map (fun e => fst e ++ ":" ++ string_of_Z (quantity (snd e)))
           (item_entries s)) in
    checkout_base ++ "/" ++ cartItems.

(** *** Construction *)

Definition record_of_json (j : JSON.json) : option LineItem :=
  match j with
  | JSON.JObj [(kq, JSON.JNum q); (kp, p)] =>
      if String.eqb kq "quantity" && String.eqb kp "price" then
        match p with
        | JSON.JNum z => Some {| quantity := q; price := VNum (Fin z) |}
        | JSON.JNull => Some {| quantity := q; price := VNull |}
        | _ => None
        end
      else None
  | _ => None
  end.

Fixpoint members_of_json (ms : list (string * JSON.json))
  : option (list (string * LineItem)) :=
  match ms with
  | [] => Some []
  | (k, j) :: ms' =>
      match record_of_json j, members_of_json ms' with
      | Some r, Some rest => Some ((k, r) :: rest)
      | _, _ => None
      end
  end.

(** The parsed values that are mappings from keys to item records. *)
Definition items_of_json (j : JSON.json) : option (list (string * LineItem)) :=
  match j with
  | JSON.JObj ms => members_of_json ms
  | _ => None
  end.

(** What [loadFromStorage] returns: a mapping of item records, or a value of
    another shape (which the embedding does not follow further). *)
Inductive loaded : Type :=
| Items (ms : list (string * LineItem))
| Foreign.

(** [loadFromStorage()], lines 16-24, with what it logs. *)
Definition loadFromStorage (st : Storage) : loaded * list log_entry :=
  match getItem st with
  | Throw _ => (Items [], [LoadError])
  | Normal None => (Items [], [])
  | Normal (Some stored) =>
      if String.eqb stored EmptyString then (Items [], [])
      else
        match JSON.parse stored with
        | JSON.ParseError => (Items [], [LoadError])
        | JSON.Parsed j =>
            match items_of_json j with
            | Some ms => (Items ms, [])
            | None => (Foreign, [])
            end
        | JSON.ParseUnsupported => (Foreign, [])
        end
  end.

(** The object and the records [JSON.parse] builds for a mapping: members
    are defined in textual order, a repeated key keeping its first place and
    its last value. *)
Definition build_items (ms : list (string * LineItem))
  : list (string * nat) * list LineItem :=
  fold_left
    (fun acc m =>
       (Obj.define (fst acc) (fst m) (length (snd acc)), (snd acc ++ [snd m])%list))
    ms ([], []).

(** [new ShoppingCart()] in a fresh page, lines 6-10. *)
Definition new_ShoppingCart (st : Storage) : option State :=
  match loadFromStorage st with
  | (Items ms, log) =>
      let '(o, rs) := build_items ms in
      Some {| objects := [o]; records := rs; items := 0%nat; observers := [];
              storage := st; setItem_calls := []; console := log; calls := [];
              proto_price := false |}
  | (Foreign, _) => None
  end.

Definition empty_storage : Storage :=
  {| available := true; capacity := None; entry := None |}.

(** The cart of a fresh page whose storage holds nothing. *)
Definition empty_cart : State :=
  {| objects := [[]]; records := []; items := 0%nat; observers := [];
     storage := empty_storage; setItem_calls := []; console := []; calls := [];
     proto_price := false |}.

(** *** Sequences of calls *)

Inductive call : Type :=
| AddItem (variantId : option string) (price : option value)
| RemoveItem (variantId : option string)
| ClearCart.

Definition step (s : State) (c : call) : State :=
  match c with
  | AddItem variantId price => snd (addItem variantId price s)
  | RemoveItem variantId => snd (removeItem variantId s)
  | ClearCart => clearCart s
  end.

Definition run (cs : list call) (s : State) : State := fold_left step cs s.

Definition num (z : Z) : option value := Some (VNum (Fin z)).

(** ** Vocabulary of the properties *)

(** *** States *)

(** The snapshot [notifyObservers] hands to every observer. *)
Definition cartData_of (s : State) : Snapshot :=
  {| snap_items := length (objects s);
     totalQuantity := getTotalQuantity s;
     totalPrice := getTotalPrice s |}.

(** [this.items] is an allocated object whose properties hold distinct
    allocated records. *)
Record wf (s : State) : Prop := {
  wf_items : (items s < length (objects s))%nat;
  wf_keys : NoDup (List.map fst (items_object s));
  wf_locs : NoDup (List.map snd (items_object s));
  wf_alloc : Forall (fun e => (snd e < length (records s))%nat) (items_object s)
}.

(** The record [this.items] holds for [k], if it owns the key. *)
Definition stored (s : State) (k : string) : option LineItem :=
  match Obj.own (items_object s) k with
  | Some l => Some (record_at s l)
  | None => None
  end.

(** The price an existing record holds after [addItem]. *)
Definition updated_price (p : value) (r : LineItem) : value :=
  if gt0 (ToNumber p) then p else price r.

(** Every identifier present in [this.items] has a quantity of at least 1. *)
Definition quantities_positive (s : State) : Prop :=
  forall k l, Obj.own (items_object s) k = Some l -> 1 <= quantity (record_at s l).


(** *** Notification *)

(** No observer of the state calls [subscribe] or [unsubscribe] while it is
    being notified. *)
Definition passive (s : State) : Prop :=
  Forall (fun f => during f = []) (observers s).

(** The turn of an observer that leaves the observer set alone: the call,
    and the report of what it threw. *)
Definition call_passive (cartData : Snapshot) (s : State) (f : Listener) : State :=
  let s1 := with_calls (calls s ++ [(lid f, cartData)]) s in
  if throws f (entries_of s (snap_items cartData)) (totalQuantity cartData)
       (totalPrice cartData)
  then with_console (console s1 ++ [ObserverError (lid f)]) s1
  else s1.

(** What a state keeps when only the observers, the calls they received and
    the console change. *)
Definition same_heap (s s' : State) : Prop :=
  objects s' = objects s /\ records s' = records s /\ items s' = items s /\
  storage s' = storage s /\ setItem_calls s' = setItem_calls s /\
  proto_price s' = proto_price s.


(** The number of invocations of the observer [n] among [cs]. *)
Definition invocations (n : nat) (cs : list (nat * Snapshot)) : nat :=
  length (List.filter (fun c => Nat.eqb (fst c) n) cs).


(** *** Storage *)

(** The part of the state that lives in memory: everything but the storage,
    the log of writes to it and the console. *)
Definition same_memory (s1 s2 : State) : Prop :=
  objects s1 = objects s2 /\ records s1 = records s2 /\ items s1 = items s2 /\
  observers s1 = observers s2 /\ calls s1 = calls s2 /\
  proto_price s1 = proto_price s2.

(** A call together with its completion; [clearCart] returns [undefined]. *)
Definition perform (c : call) (s : State) : completion (option number) * State :=
  match c with
  | AddItem variantId p =>
      match addItem variantId p s with
      | (Normal n, s') => (Normal (Some n), s')
      | (Throw e, s') => (Throw e, s')
      end
  | RemoveItem variantId =>
      match removeItem variantId s with
      | (Normal n, s') => (Normal (Some n), s')
      | (Throw e, s') => (Throw e, s')
      end
  | ClearCart => (Normal None, clearCart s)
  end.

(** The cart [new ShoppingCart()] falls back to: no item, no observer, and
    the given console log. *)
Definition fresh_cart (st : Storage) (log : list log_entry) : State :=
  {| objects := [[]]; records := []; items := 0%nat; observers := [];
     storage := st; setItem_calls := []; console := log; calls := [];
     proto_price := false |}.

(** Reading the entry throws, or the text read is not JSON. *)
Definition load_fails (st : Storage) : Prop :=
  available st = false \/
  exists text, entry st = Some text /\ text <> EmptyString /\
               JSON.parse text = JSON.ParseError.

(** A price that [JSON.stringify] writes as it is: [null] or a finite
    number. *)
Definition storable (v : value) : bool :=
  match v with
  | VNull => true
  | VNum (Fin _) => true
  | VNum _ => false
  end.

(** The storage after a successful save of [s], and the cart a new page
    constructs from it. *)
Definition saved_storage (s : State) : Storage :=
  {| available := true; capacity := None; entry := Some (stringify_items s) |}.

Definition reload (s : State) : option State := new_ShoppingCart (saved_storage s).

(** *** The checkout URL *)

(** One [identifier:quantity] pair of the URL. *)
Definition url_pair (e : string * LineItem) : string :=
  fst e ++ ":" ++ string_of_Z (quantity (snd e)).

(** The URL as the specification words it: the pairs follow the order in
    which the identifiers were inserted into [this.items]. *)
Definition insertion_order_url (s : State) : string :=
  match items_object s with
  | [] => checkout_base
  | o =>
      checkout_base ++ "/"
        ++ JSON.join "," (List.map (fun e => url_pair (fst e, record_at s (snd e))) o)
  end.

(** *** A caller holding the object returned by [getAllItems()] *)

(** What a caller can write through the reference it received. *)
Inductive client_write : Type :=
| SetProperty (k : string) (r : LineItem)  (* copy[k] = { quantity: .., price: .. } *)
| DeleteProperty (k : string)              (* delete copy[k] *)
| SetQuantity (k : string) (q : Z)         (* copy[k].quantity = q *)
| SetPrice (k : string) (p : value).       (* copy[k].price = p *)

(** The writes that reach into a record the object refers to. *)
Definition nested (w : client_write) : bool :=
  match w with
  | SetQuantity _ _ | SetPrice _ _ => true
  | SetProperty _ _ | DeleteProperty _ => false
  end.

(** The effect of a write on the heap. Assigning to the key "__proto__"
    replaces the prototype of the object and adds no property; a write
    through a key the object does not own throws and changes nothing. *)
Definition client_apply (copy : oid) (s : State) (w : client_write) : State :=
  let o := object_at s copy in
  match w with
  | SetProperty k r =>
      let '(l, s1) := new_record r s in
      if String.eqb k "__proto__" then s1
      else with_objects (<[copy := Obj.define o k l]> (objects s1)) s1
  | DeleteProperty k => with_objects (<[copy := Obj.remove o k]> (objects s)) s
  | SetQuantity k q =>
      match Obj.own o k with
      | Some l => set_quantity l q s
      | None => s
      end
  | SetPrice k p =>
      match Obj.own o k with
      | Some l => set_price l p s
      | None => s
      end
  end.

(** What the accessors without argument return. *)
Record observation : Type := {
  seen_entries : list (string * LineItem);
  seen_total_quantity : Z;
  seen_total_price : number;
  seen_empty : bool;
  seen_url : string
}.

Definition observe (s : State) : observation :=
  {| seen_entries := item_entries s;
     seen_total_quantity := getTotalQuantity s;
     seen_total_price := getTotalPrice s;
     seen_empty := isEmpty s;
     seen_url := getCheckoutUrl s |}.

(** [s'] holds the mapping and the records of [s], and maybe more. *)
Definition extends (s s' : State) : Prop :=
  items_object s' = items_object s /\ proto_price s' = proto_price s /\
  forall l, (l < length (records s))%nat -> records s' !! l = records s !! l.

(** *** The saved text and the order of entries *)

Definition ends_value (c : ascii) : Prop := c = ","%char \/ c = "}"%char.

Definition member_text (m : string * JSON.json) : string :=
  JSON.quote (fst m) ++ ":" ++ JSON.print (snd m).

(** A price as it is read back: a number that is not finite comes back as
    [null]. *)
Definition read_back_price (v : value) : value :=
  match v with
  | VNum (Fin z) => VNum (Fin z)
  | _ => VNull
  end.

Definition read_back (r : LineItem) : LineItem :=
  {| quantity := quantity r; price := read_back_price (price r) |}.

Definition json_members (es : list (string * LineItem))
  : list (string * JSON.json) :=
  List.map (fun e => (fst e, json_of_record (snd e))) es.

(** Relabelling what the properties hold does not move them. *)
Definition relabel {A B : Type} (g : A -> B) (e : string * A) : string * B := (fst e, g (snd e)).

(** The properties whose key is an array index. *)
Definition indexed {A : Type} (e : string * A) : bool :=
  match array_index (fst e) with
  | Some _ => true
  | None => false
  end.

(** Index entries carry the index of their key and ascend. *)
Definition tagged {A : Type} (I : list (N * (string * A))) : Prop :=
  Forall (fun x => array_index (fst (snd x)) = Some (fst x)) I.

Fixpoint ascending {A : Type} (I : list (N * (string * A))) : Prop :=
  match I with
  | [] => True
  | x :: rest =>
      match rest with
      | [] => True
      | y :: _ => (fst x <= fst y)%N
      end /\ ascending rest
  end.

(** *** Sample states *)

(** An observer that returns, and one that throws, whatever it is given. *)
Definition quiet (n : nat) : Listener :=
  {| lid := n; throws := fun _ _ _ => false; during := [] |}.
Definition noisy (n : nat) : Listener :=
  {| lid := n; throws := fun _ _ _ => true; during := [] |}.

(** A cart with a throwing observer subscribed before a quiet one, holding
    two units of "v1" at 10 and one of "v2" without a price. *)
Definition sample_cart : State :=
  run [AddItem (Some "v1") (num 10); AddItem (Some "v2") None; AddItem (Some "v1") None]
    (subscribe (Some (quiet 2)) (subscribe (Some (noisy 1)) empty_cart)).




(** A storage whose entry is not JSON, and one that refuses every access. *)
Definition corrupt_storage : Storage :=
  {| available := true; capacity := None; entry := Some "{oops" |}.
Definition disabled_storage : Storage :=
  {| available := false; capacity := None; entry := None |}.
Definition full_storage : Storage :=
  {| available := true; capacity := Some 0%nat; entry := None |}.

(** The text of a cart with a price of 4.99, cut before its last brace, and
    a storage that holds it. *)
Definition truncated_text : string :=
  "{" ++ JSON.quote "v1" ++ ":{" ++ JSON.quote "quantity" ++ ":1,"
      ++ JSON.quote "price" ++ ":4.99}".
Definition truncated_storage : Storage :=
  {| available := true; capacity := None; entry := Some truncated_text |}.

(** C6, as stated, at carts whose identifiers are array indices: after
    [addItem("2")] then [addItem("1")] the URL lists "1" before "2", which is
    not the order of insertion. *)
Definition cart_2_then_1 : State :=
  run [AddItem (Some "2") None; AddItem (Some "1") None] empty_cart.

Definition cart_v1_then_v2 : State :=
  run [AddItem (Some "v1") None; AddItem (Some "v2") None] empty_cart.

(** A cart holding one unit of "v1" at 10. *)
Definition cart_v1 : State := run [AddItem (Some "v1") (num 10)] empty_cart.

(** A cart holding one unit of "v1" whose price is [Infinity]. *)
Definition cart_infinite_price : State :=
  run [AddItem (Some "v1") (Some (VNum PosInf))] empty_cart.

(** ** Vocabulary of the further properties *)


(** The sum of [g] over a list of records. *)
Definition sum_over (g : LineItem -> Z) (rs : list LineItem) : Z :=
  fold_right (fun r a => g r + a) 0 rs.

(** The records of the entries of [this.items], in order of creation. *)
Definition item_records (s : State) : list LineItem :=
  List.map (fun e => record_at s (snd e)) (items_object s).

(** The integer a stored price counts for in the total: [null] counts for
    nothing. *)
Definition price_value (v : value) : Z :=
  match v with
  | VNum (Fin z) => z
  | _ => 0
  end.

(** [quantity * price] of one entry. *)
Definition line_total (r : LineItem) : Z := quantity r * price_value (price r).

(** Every price held by an entry of [this.items] is [null] or finite. *)
Definition prices_storable (s : State) : Prop :=
  Forall (fun r => storable (price r) = true) (item_records s).

(** The integers up to [2^53] in magnitude: a double holds every one of
    them, and sums, differences and products that stay among them are
    computed by the code without rounding, as the embedding computes them.
    Beyond, the code rounds ([2^53 + 1] is [2^53]) and prints with an
    exponent from [1e21] on, which the embedding does not follow. *)
Definition exact (z : Z) : Prop := - 2 ^ 53 <= z <= 2 ^ 53.

(** A record whose quantity and whose price, when it is finite, are such
    integers. *)
Definition exact_record (r : LineItem) : Prop :=
  exact (quantity r) /\
  match price r with
  | VNum (Fin z) => exact z
  | _ => True
  end.

(** The total price of the state involves no rounding: the records are
    exact, and so is every product and every partial sum, in whatever order
    the entries are added. *)
Definition exact_totals (s : State) : Prop :=
  Forall exact_record (item_records s) /\
  exact (sum_over (fun r => Z.abs (line_total r)) (item_records s)).



(** What the object and the records built so far satisfy, [pre] being the
    members already read. *)
Definition built (pre : list (string * LineItem))
    (acc : list (string * nat) * list LineItem) : Prop :=
  NoDup (List.map fst (fst acc)) /\
  NoDup (List.map snd (fst acc)) /\
  Forall (fun e => (snd e < length (snd acc))%nat) (fst acc) /\
  forall k, match Obj.own (fst acc) k with
            | Some l => snd acc !! l
            | None => None
            end = Obj.own (List.rev pre) k.

(** * Properties *)

(** ** The embedding at work *)

Example string_of_Z_12 : string_of_Z 12 = "12".
Proof. reflexivity. Qed.

Example string_of_Z_neg : string_of_Z (-305) = "-305".
Proof. reflexivity. Qed.

Example array_index_examples :
  array_index "0" = Some 0%N /\ array_index "42" = Some 42%N /\
  array_index "042" = None /\ array_index "v1" = None /\
  array_index "4294967295" = None /\ array_index "" = None.
Proof. repeat split; reflexivity. Qed.

Example JSON_print_sample :
  JSON.print (JSON.JObj [("v1", JSON.JObj [("quantity", JSON.JNum 2); ("price", JSON.JNull)])])
  = "{" ++ JSON.quote "v1" ++ ":{" ++ JSON.quote "quantity" ++ ":2,"
        ++ JSON.quote "price" ++ ":null}}".
Proof. reflexivity. Qed.

Example JSON_parse_sample :
  JSON.parse ("{" ++ JSON.quote "v1" ++ " : [1, -20, true, null], "
                  ++ JSON.quote "k" ++ ":{}}")
  = JSON.Parsed (JSON.JObj [("v1", JSON.JArr [JSON.JNum 1; JSON.JNum (-20);
                                               JSON.JBool true; JSON.JNull]);
                            ("k", JSON.JObj [])]).
Proof. reflexivity. Qed.

Example JSON_parse_errors :
  JSON.parse "{oops" = JSON.ParseError /\ JSON.parse "01" = JSON.ParseError /\
  JSON.parse "" = JSON.ParseError /\ JSON.parse "1.5" = JSON.ParseUnsupported /\
  JSON.parse "[1,]" = JSON.ParseError /\ JSON.parse "null x" = JSON.ParseError.
Proof. repeat split; reflexivity. Qed.

Example entries_order :
  Obj.keys [("b", 0%nat); ("10", 1%nat); ("a", 2%nat); ("9", 3%nat); ("007", 4%nat)]
  = ["9"; "10"; "b"; "a"; "007"].
Proof. reflexivity. Qed.

Example new_cart_is_empty : new_ShoppingCart empty_storage = Some empty_cart.
Proof. reflexivity. Qed.

Example add_twice_no_price :
  let s := run [AddItem (Some "v1") None; AddItem (Some "v1") None] empty_cart in
  getItemQuantity "v1" s = Fin 2 /\ getTotalQuantity s = 2 /\ getTotalPrice s = Fin 0.
Proof. repeat split; reflexivity. Qed.

Example add_remove_twice :
  let s1 := run [AddItem (Some "v1") (num 5); RemoveItem (Some "v1")] empty_cart in
  fst (removeItem (Some "v1") s1) = Normal (Fin 0) /\ item_entries s1 = [].
Proof. repeat split; reflexivity. Qed.

Example stored_text_after_add :
  entry (storage (run [AddItem (Some "v1") (num 10)] empty_cart))
  = Some ("{" ++ JSON.quote "v1" ++ ":{" ++ JSON.quote "quantity" ++ ":1,"
              ++ JSON.quote "price" ++ ":10}}").
Proof. reflexivity. Qed.

(** ** Frame lemmas: what each internal step leaves alone *)

Section Frames.

Lemma same_heap_refl s : same_heap s s.
Proof. repeat split. Qed.

Lemma same_heap_trans s1 s2 s3 : same_heap s1 s2 -> same_heap s2 s3 -> same_heap s1 s3.
Proof.
  intros (H1 & H2 & H3 & H4 & H5 & H6) (K1 & K2 & K3 & K4 & K5 & K6).
  repeat split; congruence.
Qed.

Lemma react_heap st r : same_heap (fst st) (fst (react st r)).
Proof.
  destruct st as [s todo]. destruct r as [f|f]; simpl.
  - destruct (existsb _ _); repeat split.
  - repeat split.
Qed.

Lemma reactions_heap rs : forall st, same_heap (fst st) (fst (fold_left react rs st)).
Proof.
  induction rs as [|r rs IH]; intros st; simpl; [apply same_heap_refl|].
  eapply same_heap_trans; [apply react_heap|apply IH].
Qed.

Lemma call_observer_heap d s todo f : same_heap s (fst (call_observer d (s, todo) f)).
Proof.
  unfold call_observer.
  pose proof (reactions_heap (during f)
                (with_calls (calls s ++ [(lid f, d)]) s, todo)) as H.
  destruct (fold_left react (during f) _) as [s2 todo']. simpl in H.
  destruct (throws f _ _ _); simpl; exact H.
Qed.

(** Whatever the observers do, the notification leaves the heap, the
    storage and the log of writes alone. *)
Lemma forEach_heap d fuel : forall todo s, same_heap s (forEach fuel d todo s).
Proof.
  induction fuel as [|fuel IH]; intros todo s; [apply same_heap_refl|].
  destruct todo as [|f rest]; [apply same_heap_refl|]. cbn [forEach].
  pose proof (call_observer_heap d s rest f) as H.
  destruct (call_observer d (s, rest) f) as [s' rest']. simpl in H.
  eapply same_heap_trans; [exact H|apply IH].
Qed.

(** The bound given to [forEach] is never reached: a round makes at most
    [weights todo] visits. *)
Lemma weights_app fs gs : weights (fs ++ gs) = (weights fs + weights gs)%nat.
Proof. induction fs as [|f fs IH]; simpl; [reflexivity|]. rewrite IH. lia. Qed.

Lemma weights_filter (P : Listener -> bool) fs :
  (weights (List.filter P fs) <= weights fs)%nat.
Proof.
  induction fs as [|f fs IH]; simpl; [lia|]. destruct (P f); simpl; lia.
Qed.

Lemma weight_positive f : (1 <= weight f)%nat.
Proof. destruct f. simpl. lia. Qed.

Lemma reactions_weights rs : forall s todo,
  (weights (snd (fold_left react rs (s, todo)))
   + 1 <= weights todo + weight {| lid := O; throws := fun _ _ _ => false; during := rs |})%nat.
Proof.
  induction rs as [|r rs IH]; intros s todo; simpl; [lia|].
  destruct r as [f|f]; simpl.
  - specialize (IH (subscribe (Some f) s)
                   (if existsb (fun g => Nat.eqb (lid g) (lid f)) (observers s)
                    then todo else (todo ++ [f])%list)).
    simpl in IH. destruct (existsb _ _).
    + lia.
    + rewrite weights_app in IH. simpl in IH. lia.
  - specialize (IH (unsubscribe f s)
                   (List.filter (fun g => negb (Nat.eqb (lid g) (lid f))) todo)).
    simpl in IH.
    pose proof (weights_filter (fun g => negb (Nat.eqb (lid g) (lid f))) todo). lia.
Qed.

Lemma call_observer_weights d s rest f :
  (weights (snd (call_observer d (s, rest) f)) + 1 <= weights (f :: rest))%nat.
Proof.
  unfold call_observer.
  pose proof (reactions_weights (during f)
                (with_calls (calls s ++ [(lid f, d)]) s) rest) as H.
  assert (Hw : weight {| lid := O; throws := fun _ _ _ => false; during := during f |}
               = weight f) by (destruct f; reflexivity).
  rewrite Hw in H.
  destruct (fold_left react (during f) _) as [s2 todo']. cbn [snd] in H.
  change (weights (f :: rest)) with (weight f + weights rest)%nat.
  destruct (throws f _ _ _); cbn [snd]; lia.
Qed.

Lemma forEach_fuel d fuel : forall fuel' todo s,
  (weights todo <= fuel)%nat -> (weights todo <= fuel')%nat ->
  forEach fuel d todo s = forEach fuel' d todo s.
Proof.
  induction fuel as [|fuel IH]; intros fuel' todo s Hf Hf'.
  - destruct todo as [|f rest].
    + destruct fuel'; reflexivity.
    + simpl in Hf. pose proof (weight_positive f). lia.
  - destruct todo as [|f rest]; [destruct fuel'; reflexivity|].
    destruct fuel' as [|fuel']; [simpl in Hf'; pose proof (weight_positive f); lia|].
    cbn [forEach]. pose proof (call_observer_weights d s rest f) as Hw.
    destruct (call_observer d (s, rest) f) as [s' rest']. cbn [snd] in Hw.
    change (weights (f :: rest)) with (weight f + weights rest)%nat in *.
    pose proof (weight_positive f). apply IH; lia.
Qed.

(** With observers that leave the set alone, the round is one call of each
    in order. *)
Lemma call_observer_passive d s todo f :
  during f = [] -> call_observer d (s, todo) f = (call_passive d s f, todo).
Proof.
  intros Hf. unfold call_observer, call_passive. rewrite Hf. simpl.
  destruct (throws f _ _ _); reflexivity.
Qed.

Lemma forEach_passive d todo : forall fuel s,
  Forall (fun f => during f = []) todo -> (length todo <= fuel)%nat ->
  forEach fuel d todo s = fold_left (call_passive d) todo s.
Proof.
  induction todo as [|f rest IH]; intros fuel s Hall Hlen.
  - destruct fuel; reflexivity.
  - apply Forall_cons in Hall as [Hf Hrest].
    destruct fuel as [|fuel]; [simpl in Hlen; lia|]. cbn [forEach fold_left].
    rewrite (call_observer_passive d s rest f Hf).
    apply IH; [exact Hrest|simpl in Hlen; lia].
Qed.

Lemma length_weights fs : (length fs <= weights fs)%nat.
Proof.
  induction fs as [|f fs IH]; simpl; [lia|]. pose proof (weight_positive f). lia.
Qed.

Lemma notifyObservers_passive s :
  passive s ->
  notifyObservers s
  = fold_left
      (call_passive
         {| snap_items := length (objects s);
            totalQuantity :=
              getTotalQuantity (with_objects (objects s ++ [Obj.spread (items_object s)]) s);
            totalPrice :=
              getTotalPrice (with_objects (objects s ++ [Obj.spread (items_object s)]) s) |})
      (observers s)
      (with_objects (objects s ++ [Obj.spread (items_object s)]) s).
Proof.
  intros Hp. unfold notifyObservers, new_object. simpl.
  apply forEach_passive; [exact Hp|apply length_weights].
Qed.

Lemma call_observers_frame d fs : forall s,
  let s' := fold_left (call_passive d) fs s in
  objects s' = objects s /\ records s' = records s /\ items s' = items s /\
  observers s' = observers s /\ storage s' = storage s /\
  setItem_calls s' = setItem_calls s /\ proto_price s' = proto_price s /\
  calls s' = (calls s ++ List.map (fun f => (lid f, d)) fs)%list.
Proof.
  induction fs as [|f fs IH]; intros s; simpl.
  - rewrite app_nil_r. repeat split.
  - destruct (IH (call_passive d s f)) as (Ho & Hr & Hi & Hob & Hst & Hsc & Hp & Hc).
    assert (Hf : objects (call_passive d s f) = objects s /\
                 records (call_passive d s f) = records s /\
                 items (call_passive d s f) = items s /\
                 observers (call_passive d s f) = observers s /\
                 storage (call_passive d s f) = storage s /\
                 setItem_calls (call_passive d s f) = setItem_calls s /\
                 proto_price (call_passive d s f) = proto_price s /\
                 calls (call_passive d s f) = (calls s ++ [(lid f, d)])%list).
    { unfold call_passive. destruct (throws f _ _ _); repeat split. }
    destruct Hf as (Ho' & Hr' & Hi' & Hob' & Hst' & Hsc' & Hp' & Hc').
    rewrite Ho, Hr, Hi, Hob, Hst, Hsc, Hp, Hc, Ho', Hr', Hi', Hob', Hst', Hsc', Hp', Hc'.
    rewrite <- app_assoc. repeat split.
Qed.

Lemma item_values_new_object o s :
  (items s < length (objects s))%nat ->
  item_values (with_objects (objects s ++ [o]) s) = item_values s.
Proof.
  intros Hlt. unfold item_values, items_object, object_at, record_at. simpl.
  rewrite lookup_app_l by exact Hlt. reflexivity.
Qed.

Lemma notifyObservers_frame s :
  let s' := notifyObservers s in
  objects s' = (objects s ++ [Obj.spread (items_object s)])%list /\
  records s' = records s /\ items s' = items s /\
  (passive s -> observers s' = observers s) /\ storage s' = storage s /\
  setItem_calls s' = setItem_calls s /\ proto_price s' = proto_price s.
Proof.
  assert (Hheap : same_heap (with_objects (objects s ++ [Obj.spread (items_object s)]) s)
                    (notifyObservers s)).
  { unfold notifyObservers, new_object. simpl. apply forEach_heap. }
  destruct Hheap as (Ho & Hr & Hi & Hst & Hsc & Hp). simpl in *.
  split; [exact Ho|]. split; [exact Hr|]. split; [exact Hi|].
  split; [|split; [exact Hst|split; [exact Hsc|exact Hp]]].
  intros Hpassive. rewrite (notifyObservers_passive s Hpassive).
  match goal with |- context [fold_left (call_passive ?d) ?fs ?s0] =>
    destruct (call_observers_frame d fs s0) as (_ & _ & _ & Hob & _)
  end.
  exact Hob.
Qed.

Lemma notifyObservers_calls s :
  (items s < length (objects s))%nat -> passive s ->
  calls (notifyObservers s)
  = (calls s ++ List.map (fun f => (lid f, cartData_of s)) (observers s))%list.
Proof.
  intros Hlt Hpassive. rewrite (notifyObservers_passive s Hpassive).
  match goal with |- context [fold_left (call_passive ?d) ?fs ?s0] =>
    destruct (call_observers_frame d fs s0) as (_ & _ & _ & _ & _ & _ & _ & Hc)
  end.
  rewrite Hc. unfold cartData_of, getTotalQuantity, getTotalPrice.
  rewrite (item_values_new_object _ s Hlt). reflexivity.
Qed.

Lemma saveToStorage_frame s :
  let s' := saveToStorage s in
  objects s' = objects s /\ records s' = records s /\ items s' = items s /\
  observers s' = observers s /\ calls s' = calls s /\
  proto_price s' = proto_price s /\
  setItem_calls s' = (setItem_calls s ++ [stringify_items s])%list.
Proof.
  unfold saveToStorage. destruct (setItem _ _) as [[u|e] st]; repeat split.
Qed.

End Frames.

(** ** The mapping object *)

Section Objects.

Context {A : Type}.
Implicit Types (o : list (string * A)) (k : string) (l : A).

Lemma own_define_eq o k l : Obj.own (Obj.define o k l) k = Some l.
Proof.
  induction o as [|[k' l'] o IH]; simpl.
  - rewrite String.eqb_refl. reflexivity.
  - destruct (String.eqb k' k) eqn:E; simpl.
    + rewrite String.eqb_refl. reflexivity.
    + rewrite E. exact IH.
Qed.

Lemma own_define_ne o k k' l :
  k <> k' -> Obj.own (Obj.define o k l) k' = Obj.own o k'.
Proof.
  intros Hne. induction o as [|[k0 l0] o IH]; simpl.
  - apply String.eqb_neq in Hne. rewrite Hne. reflexivity.
  - destruct (String.eqb k0 k) eqn:E; simpl.
    + apply String.eqb_eq in E. subst k0.
      apply String.eqb_neq in Hne. rewrite Hne. reflexivity.
    + rewrite IH. reflexivity.
Qed.

Lemma own_remove_eq o k : Obj.own (Obj.remove o k) k = None.
Proof.
  induction o as [|[k' l'] o IH]; simpl; auto.
  destruct (String.eqb k' k) eqn:E; simpl; auto. rewrite E. exact IH.
Qed.

Lemma own_remove_ne o k k' :
  k <> k' -> Obj.own (Obj.remove o k) k' = Obj.own o k'.
Proof.
  intros Hne. induction o as [|[k0 l0] o IH]; simpl; auto.
  destruct (String.eqb k0 k) eqn:E; simpl.
  - apply String.eqb_eq in E. subst k0.
    apply String.eqb_neq in Hne. rewrite Hne. exact IH.
  - rewrite IH. reflexivity.
Qed.

Lemma own_Some_In o k l : Obj.own o k = Some l -> In (k, l) o.
Proof.
  induction o as [|[k' l'] o IH]; simpl; [discriminate|].
  destruct (String.eqb k' k) eqn:E.
  - apply String.eqb_eq in E. intros [= ->]. subst. auto.
  - auto.
Qed.

Lemma own_None_notin o k : Obj.own o k = None -> ~ In k (List.map fst o).
Proof.
  induction o as [|[k' l'] o IH]; simpl; [tauto|].
  destruct (String.eqb k' k) eqn:E; [discriminate|].
  apply String.eqb_neq in E. intros H [Heq|Hin]; [congruence|]. exact (IH H Hin).
Qed.

Lemma In_own o k l :
  NoDup (List.map fst o) -> In (k, l) o -> Obj.own o k = Some l.
Proof.
  induction o as [|[k' l'] o IH]; simpl; [tauto|].
  intros Hnd [Heq|Hin].
  - inversion Heq; subst. rewrite String.eqb_refl. reflexivity.
  - apply NoDup_cons in Hnd as [Hnotin Hnd'].
    destruct (String.eqb k' k) eqn:E.
    + apply String.eqb_eq in E. subst k'. exfalso. apply Hnotin.
      apply list_elem_of_In. change k with (fst (k, l)). apply in_map. exact Hin.
    + apply IH; assumption.
Qed.

Lemma define_absent o k l :
  Obj.own o k = None -> Obj.define o k l = (o ++ [(k, l)])%list.
Proof.
  induction o as [|[k' l'] o IH]; simpl; auto.
  destruct (String.eqb k' k) eqn:E; [discriminate|].
  intros H. rewrite (IH H). reflexivity.
Qed.

Lemma remove_In o k e : In e (Obj.remove o k) -> In e o /\ fst e <> k.
Proof.
  induction o as [|[k' l'] o IH]; simpl; [tauto|].
  destruct (String.eqb k' k) eqn:E.
  - intros H. destruct (IH H). auto.
  - apply String.eqb_neq in E. intros [<-|H]; simpl; auto.
    destruct (IH H). auto.
Qed.

Lemma remove_keys_NoDup o k :
  NoDup (List.map fst o) -> NoDup (List.map fst (Obj.remove o k)).
Proof.
  induction o as [|[k' l'] o IH]; simpl; auto.
  intros Hnd. apply NoDup_cons in Hnd as [Hnotin Hnd'].
  destruct (String.eqb k' k); auto.
  simpl. apply NoDup_cons. split; auto.
  intros Hin. apply Hnotin. apply list_elem_of_In. apply list_elem_of_In in Hin.
  apply in_map_iff in Hin as [e [He Hin]].
  apply remove_In in Hin as [Hin _]. rewrite <- He. apply in_map. exact Hin.
Qed.

Lemma remove_locs_NoDup o k :
  NoDup (List.map snd o) -> NoDup (List.map snd (Obj.remove o k)).
Proof.
  induction o as [|[k' l'] o IH]; simpl; auto.
  intros Hnd. apply NoDup_cons in Hnd as [Hnotin Hnd'].
  destruct (String.eqb k' k); auto.
  simpl. apply NoDup_cons. split; auto.
  intros Hin. apply Hnotin. apply list_elem_of_In. apply list_elem_of_In in Hin.
  apply in_map_iff in Hin as [e [He Hin]].
  apply remove_In in Hin as [Hin _]. rewrite <- He. apply in_map. exact Hin.
Qed.

(** [Object.entries] lists every own property once. *)
Lemma insert_index_perm n (e : string * A) (sorted : list (N * (string * A))) :
  Permutation (Obj.insert_index n e sorted) ((n, e) :: sorted).
Proof.
  induction sorted as [|[m e'] rest IH]; simpl; auto.
  destruct (n <=? m)%N; auto.
  rewrite IH. apply perm_swap.
Qed.

Lemma entries_perm o : Permutation (Obj.entries o) o.
Proof.
  unfold Obj.entries. induction o as [|[k l] o IH]; simpl; auto.
  destruct (array_index k) as [n|].
  - rewrite insert_index_perm. simpl. constructor. exact IH.
  - rewrite <- Permutation_middle. constructor. exact IH.
Qed.

Lemma entries_In o e : In e (Obj.entries o) <-> In e o.
Proof.
  split; apply Permutation_in; [|symmetry]; apply entries_perm.
Qed.

(** Without array-index keys, [Object.entries] follows the order of
    creation. *)
Lemma entries_named o :
  Forall (fun e => array_index (fst e) = None) o -> Obj.entries o = o.
Proof.
  intros H.
  assert (Hboth : Obj.index_entries o = [] /\ Obj.named_entries o = o).
  { induction H as [|[k l] o Hk Ho [IH1 IH2]]; simpl; auto.
    simpl in Hk. rewrite Hk, IH2. auto. }
  unfold Obj.entries. destruct Hboth as [-> ->]. reflexivity.
Qed.

End Objects.

(** ** The order of [Object.entries] is stable *)

Section EntriesOrder.

Context {A B : Type}.

Lemma insert_index_relabel (g : A -> B) n e (sorted : list (N * (string * A))) :
  Obj.insert_index n (relabel g e) (List.map (fun x => (fst x, relabel g (snd x))) sorted)
  = List.map (fun x => (fst x, relabel g (snd x))) (Obj.insert_index n e sorted).
Proof.
  induction sorted as [|[m e'] rest IH]; simpl; [reflexivity|].
  destruct (n <=? m)%N; simpl; [reflexivity|]. rewrite IH. reflexivity.
Qed.

Lemma index_entries_relabel (g : A -> B) (o : list (string * A)) :
  Obj.index_entries (List.map (relabel g) o)
  = List.map (fun x => (fst x, relabel g (snd x))) (Obj.index_entries o).
Proof.
  induction o as [|[k l] o IH]; simpl; [reflexivity|].
  destruct (array_index k) as [n|]; [|exact IH].
  rewrite IH. apply (insert_index_relabel g n (k, l)).
Qed.

Lemma named_entries_relabel (g : A -> B) (o : list (string * A)) :
  Obj.named_entries (List.map (relabel g) o) = List.map (relabel g) (Obj.named_entries o).
Proof.
  induction o as [|[k l] o IH]; simpl; [reflexivity|].
  destruct (array_index k); simpl; rewrite IH; reflexivity.
Qed.

Lemma entries_relabel (g : A -> B) (o : list (string * A)) :
  Obj.entries (List.map (relabel g) o) = List.map (relabel g) (Obj.entries o).
Proof.
  unfold Obj.entries.
  rewrite index_entries_relabel, named_entries_relabel, List.map_app, !List.map_map.
  reflexivity.
Qed.

End EntriesOrder.

Section EntriesIdempotent.

Context {A : Type}.
Implicit Types (o : list (string * A)) (I : list (N * (string * A))).

Lemma insert_index_ascending n e I :
  ascending I -> ascending (Obj.insert_index n e I).
Proof.
  induction I as [|[m e'] rest IH]; simpl; [auto|].
  intros [Hhead Hrest]. destruct (n <=? m)%N eqn:E.
  - simpl. split; [apply N.leb_le, E|]. split; assumption.
  - apply N.leb_gt in E. specialize (IH Hrest).
    destruct rest as [|[m' e''] rest']; simpl in *.
    + split; [lia|auto].
    + destruct (n <=? m')%N eqn:E'; simpl in *.
      * split; [lia|]. exact IH.
      * split; [exact Hhead|]. exact IH.
Qed.

Lemma index_entries_ascending o : ascending (Obj.index_entries o).
Proof.
  induction o as [|[k l] o IH]; simpl; [exact I|].
  destruct (array_index k); [apply insert_index_ascending|]; exact IH.
Qed.

Lemma insert_index_tagged n k (l : A) I :
  array_index k = Some n -> tagged I -> tagged (Obj.insert_index n (k, l) I).
Proof.
  intros Hk. unfold tagged. induction I as [|[m e'] rest IH]; simpl; intros HI.
  - constructor; [exact Hk|constructor].
  - destruct (n <=? m)%N.
    + constructor; [exact Hk|exact HI].
    + apply Forall_cons in HI as [Hm Hrest]. constructor; [exact Hm|apply IH, Hrest].
Qed.

Lemma index_entries_tagged o : tagged (Obj.index_entries o).
Proof.
  induction o as [|[k l] o IH]; simpl; [constructor|].
  destruct (array_index k) eqn:E; [apply insert_index_tagged; assumption|exact IH].
Qed.

Lemma named_entries_named o :
  Forall (fun e => array_index (fst e) = None) (Obj.named_entries o).
Proof.
  induction o as [|[k l] o IH]; simpl; [constructor|].
  destruct (array_index k) eqn:E; [exact IH|constructor; assumption].
Qed.

Lemma index_entries_sorted I (named : list (string * A)) :
  tagged I -> ascending I ->
  Forall (fun e => array_index (fst e) = None) named ->
  Obj.index_entries (List.map snd I ++ named) = I /\
  Obj.named_entries (List.map snd I ++ named) = named.
Proof.
  intros Ht Ha Hn. induction I as [|[n [k l]] rest IH]; simpl.
  - clear Ht Ha. induction Hn as [|[k l] named Hk Hn [IH1 IH2]]; simpl; [auto|].
    simpl in Hk. rewrite Hk, IH1, IH2. auto.
  - apply Forall_cons in Ht as [Hk Ht]. simpl in Hk. destruct Ha as [Hhead Ha].
    destruct (IH Ht Ha) as [IH1 IH2]. rewrite Hk, IH1, IH2. split; [|reflexivity].
    destruct rest as [|[m e'] rest']; simpl in *; [reflexivity|].
    apply N.leb_le in Hhead. rewrite Hhead. reflexivity.
Qed.

(** The named entries are the properties whose key is no array index, in
    order of creation; the index entries are the others. *)
Lemma named_entries_filter o :
  Obj.named_entries o = List.filter (fun e => negb (indexed e)) o.
Proof.
  induction o as [|[k l] o IH]; simpl; [reflexivity|]. unfold indexed at 1. simpl.
  destruct (array_index k); simpl; rewrite IH; reflexivity.
Qed.

Lemma index_entries_perm o :
  Permutation (List.map snd (Obj.index_entries o)) (List.filter indexed o).
Proof.
  induction o as [|[k l] o IH]; simpl; [constructor|]. unfold indexed at 1. simpl.
  destruct (array_index k) as [n|]; [|exact IH].
  rewrite (Permutation_map snd (insert_index_perm n (k, l) (Obj.index_entries o))).
  simpl. constructor. exact IH.
Qed.

(** Listing the entries of an object built from the entries of another
    gives them back in the same order. *)
Lemma entries_idempotent o : Obj.entries (Obj.entries o) = Obj.entries o.
Proof.
  unfold Obj.entries at 1 3.
  destruct (index_entries_sorted (Obj.index_entries o) (Obj.named_entries o)
              (index_entries_tagged o) (index_entries_ascending o)
              (named_entries_named o)) as [H1 H2].
  unfold Obj.entries. rewrite H1, H2. reflexivity.
Qed.

End EntriesIdempotent.


(** ** Well-formed states *)

Section Steps.

Lemma items_object_ext s1 s2 :
  objects s1 !! items s1 = objects s2 !! items s2 -> items_object s1 = items_object s2.
Proof. unfold items_object, object_at. intros ->. reflexivity. Qed.

Lemma item_entries_ext s1 s2 :
  items_object s1 = items_object s2 -> records s1 = records s2 ->
  item_entries s1 = item_entries s2.
Proof. unfold item_entries, record_at. intros -> ->. reflexivity. Qed.

Lemma item_values_ext s1 s2 :
  items_object s1 = items_object s2 -> records s1 = records s2 ->
  item_values s1 = item_values s2.
Proof. unfold item_values, record_at. intros -> ->. reflexivity. Qed.

Lemma cartData_of_ext s1 s2 :
  objects s1 = objects s2 -> items s1 = items s2 -> records s1 = records s2 ->
  cartData_of s1 = cartData_of s2.
Proof.
  intros Ho Hi Hr. unfold cartData_of, getTotalQuantity, getTotalPrice.
  rewrite (item_values_ext s1 s2), Ho; auto.
  apply items_object_ext. rewrite Ho, Hi. reflexivity.
Qed.

(** The tail of every mutation: [saveToStorage()] then [notifyObservers()]. *)
Lemma publish_spec s :
  (items s < length (objects s))%nat ->
  let s' := notifyObservers (saveToStorage s) in
  objects s' = (objects s ++ [Obj.spread (items_object s)])%list /\
  records s' = records s /\ items s' = items s /\
  (passive s -> observers s' = observers s) /\ proto_price s' = proto_price s /\
  setItem_calls s' = (setItem_calls s ++ [stringify_items s])%list /\
  (passive s ->
   calls s' = (calls s ++ List.map (fun f => (lid f, cartData_of s)) (observers s))%list) /\
  items_object s' = items_object s.
Proof.
  intros Hlt.
  destruct (saveToStorage_frame s) as (Ho & Hr & Hi & Hob & Hc & Hp & Hsc).
  destruct (notifyObservers_frame (saveToStorage s))
    as (Ho' & Hr' & Hi' & Hob' & Hst' & Hsc' & Hp').
  assert (Hio : items_object (saveToStorage s) = items_object s)
    by (apply items_object_ext; rewrite Ho, Hi; reflexivity).
  assert (Hpassive : passive s -> passive (saveToStorage s))
    by (unfold passive; rewrite Hob; auto).
  simpl. rewrite Ho', Hr', Hi', Hp', Hsc', Ho, Hr, Hi, Hp, Hsc, Hio.
  split; [reflexivity|]. split; [reflexivity|]. split; [reflexivity|].
  split; [intros H; rewrite (Hob' (Hpassive H)); exact Hob|].
  split; [reflexivity|]. split; [reflexivity|]. split.
  - intros H. rewrite notifyObservers_calls by (rewrite ?Ho, ?Hi; auto).
    rewrite Hc, Hob, (cartData_of_ext (saveToStorage s) s) by assumption.
    reflexivity.
  - apply items_object_ext. rewrite Ho', Hi', Ho, Hi.
    rewrite lookup_app_l by exact Hlt. reflexivity.
Qed.

Lemma Get_own s k l : Obj.own (items_object s) k = Some l -> Get s k = Own l.
Proof. unfold Get. intros ->. reflexivity. Qed.

Lemma Get_Undefined_own s k : Get s k = Undefined -> Obj.own (items_object s) k = None.
Proof. unfold Get. destruct (Obj.own _ _); [discriminate|reflexivity]. Qed.

Lemma falsy_id_Some k : k <> EmptyString -> falsy_id (Some k) = false.
Proof. intros H. simpl. apply String.eqb_neq. exact H. Qed.

Lemma record_at_insert_eq s l r :
  (l < length (records s))%nat ->
  record_at (with_records (<[l := r]> (records s)) s) l = r.
Proof.
  intros H. unfold record_at. simpl. rewrite list_lookup_insert_eq by exact H.
  reflexivity.
Qed.

Lemma record_at_insert_ne s l l' r :
  l <> l' -> record_at (with_records (<[l := r]> (records s)) s) l' = record_at s l'.
Proof.
  intros H. unfold record_at. simpl. rewrite list_lookup_insert_ne by exact H.
  reflexivity.
Qed.

Lemma own_alloc s k l :
  wf s -> Obj.own (items_object s) k = Some l -> (l < length (records s))%nat.
Proof.
  intros Hwf Hown. apply own_Some_In in Hown.
  exact (proj1 (List.Forall_forall _ _) (wf_alloc s Hwf) _ Hown).
Qed.

Lemma set_quantity_records s l q :
  set_quantity l q s
  = with_records (<[l := {| quantity := q; price := price (record_at s l) |}]> (records s)) s.
Proof. reflexivity. Qed.

Lemma set_price_after_quantity s l q p :
  (l < length (records s))%nat ->
  set_price l p (set_quantity l q s)
  = with_records (<[l := {| quantity := q; price := p |}]> (records s)) s.
Proof.
  intros Hl. unfold set_price. rewrite set_quantity_records.
  rewrite record_at_insert_eq by exact Hl. unfold with_records; simpl.
  rewrite list_insert_insert_eq. reflexivity.
Qed.

Lemma record_at_published s l :
  (items s < length (objects s))%nat ->
  record_at (notifyObservers (saveToStorage s)) l = record_at s l.
Proof.
  intros H. destruct (publish_spec s H) as (_ & Hr & _).
  unfold record_at. rewrite Hr. reflexivity.
Qed.

(** [addItem] on a key the mapping owns. *)
Lemma addItem_present s k l price_arg :
  wf s -> k <> EmptyString -> Obj.own (items_object s) k = Some l ->
  let p := default (VNum (Fin 0)) price_arg in
  let r := record_at s l in
  let r' := {| quantity := quantity r + 1; price := updated_price p r |} in
  addItem (Some k) price_arg s
  = (Normal (Fin (quantity r + 1)),
     notifyObservers (saveToStorage (with_records (<[l := r']> (records s)) s))).
Proof.
  intros Hwf Hk Hown p r r'.
  pose proof (own_alloc s k l Hwf Hown) as Hl.
  unfold addItem. rewrite (falsy_id_Some k Hk). simpl key_of.
  rewrite (Get_own s k l Hown). simpl truthy. cbv iota. rewrite (Get_own s k l Hown).
  fold p. fold r.
  assert (Hs3 : (if gt0 (ToNumber p)
                 then set_price l p (set_quantity l (quantity r + 1) s)
                 else set_quantity l (quantity r + 1) s)
                = with_records (<[l := r']> (records s)) s).
  { unfold r', updated_price. destruct (gt0 (ToNumber p)).
    - apply set_price_after_quantity. exact Hl.
    - apply set_quantity_records. }
  rewrite Hs3. rewrite record_at_published by (exact (wf_items s Hwf)).
  rewrite record_at_insert_eq by exact Hl. reflexivity.
Qed.

Lemma insert_last {A} (xs : list A) (x y : A) :
  <[length xs := y]> (xs ++ [x])%list = (xs ++ [y])%list.
Proof.
  replace (length xs) with (length xs + 0)%nat by lia.
  rewrite insert_app_r. reflexivity.
Qed.

Lemma lookup_last {A} (xs : list A) (x : A) : (xs ++ [x])%list !! length xs = Some x.
Proof.
  rewrite lookup_app_r by lia. replace (length xs - length xs)%nat with 0%nat by lia.
  reflexivity.
Qed.

(** The state after lines 86-89. *)
Lemma create_item_spec s k p :
  wf s -> Obj.own (items_object s) k = None ->
  let l := length (records s) in
  let s1 := create_item k p s in
  s1 = with_objects (<[items s := (items_object s ++ [(k, l)])%list]> (objects s))
         (with_records (records s ++ [{| quantity := 0; price := p |}])%list s)
  /\ items_object s1 = (items_object s ++ [(k, l)])%list
  /\ Get s1 k = Own l
  /\ record_at s1 l = {| quantity := 0; price := p |}.
Proof.
  intros Hwf Hnone l s1.
  pose proof (wf_items s Hwf) as Hlt.
  assert (Hs1 : s1 = with_objects (<[items s := (items_object s ++ [(k, l)])%list]> (objects s))
         (with_records (records s ++ [{| quantity := 0; price := p |}])%list s)).
  { unfold s1, create_item, new_record, set_items_object. simpl.
    change (items_object (with_records _ s)) with (items_object s).
    rewrite (define_absent _ _ _ Hnone). reflexivity. }
  assert (Hio : items_object s1 = (items_object s ++ [(k, l)])%list).
  { rewrite Hs1. unfold items_object, object_at. simpl.
    rewrite list_lookup_insert_eq by exact Hlt. reflexivity. }
  repeat split; auto.
  - unfold Get. rewrite Hio.
    rewrite <- (define_absent _ _ l Hnone), own_define_eq. reflexivity.
  - rewrite Hs1. unfold record_at. simpl. fold l. unfold l.
    rewrite lookup_last. reflexivity.
Qed.

(** [addItem] on a key for which the lookup finds nothing. *)
Lemma addItem_absent s k price_arg :
  wf s -> k <> EmptyString -> Get s k = Undefined ->
  let p := default (VNum (Fin 0)) price_arg in
  let o' := (items_object s ++ [(k, length (records s))])%list in
  let s3 :=
    with_records (records s ++ [{| quantity := 1; price := p |}])%list
      (with_objects (<[items s := o']> (objects s)) s) in
  addItem (Some k) price_arg s = (Normal (Fin 1), notifyObservers (saveToStorage s3)).
Proof.
  intros Hwf Hk Hget p o' s3.
  pose proof (Get_Undefined_own s k Hget) as Hnone.
  destruct (create_item_spec s k p Hwf Hnone) as (Hs1 & Hio & Hget1 & Hrec).
  unfold addItem. rewrite (falsy_id_Some k Hk). simpl key_of.
  rewrite Hget. simpl truthy. cbv iota. fold p.
  rewrite Hget1, Hrec. simpl quantity. change (0 + 1) with 1.
  set (l := length (records s)) in *.
  assert (Hl : (l < length (records (create_item k p s)))%nat).
  { rewrite Hs1. simpl. rewrite length_app. simpl. lia. }
  assert (Hs3 : (if gt0 (ToNumber p)
                 then set_price l p (set_quantity l 1 (create_item k p s))
                 else set_quantity l 1 (create_item k p s)) = s3).
  { assert (Hq : set_quantity l 1 (create_item k p s) = s3).
    { rewrite set_quantity_records, Hrec, Hs1. unfold s3, with_records, with_objects.
      simpl. unfold l. rewrite insert_last. reflexivity. }
    destruct (gt0 (ToNumber p)); [|exact Hq].
    rewrite set_price_after_quantity by exact Hl.
    rewrite Hs1. unfold s3, with_records, with_objects.
    simpl. unfold l. rewrite insert_last. reflexivity. }
  rewrite Hs3.
  assert (Hlt3 : (items s3 < length (objects s3))%nat).
  { unfold s3. simpl. rewrite length_insert. exact (wf_items s Hwf). }
  rewrite record_at_published by exact Hlt3.
  unfold s3, record_at. simpl. unfold l. rewrite lookup_last. reflexivity.
Qed.

(** [addItem] on a key that resolves to an object of [Object.prototype]. *)
Lemma addItem_inherited s k price_arg :
  k <> EmptyString -> Get s k = InheritedObject ->
  let p := default (VNum (Fin 0)) price_arg in
  addItem (Some k) price_arg s
  = (Normal NaN,
     notifyObservers (saveToStorage
       (if gt0 (ToNumber p) && String.eqb k "__proto__"
        then with_proto_price true s else s))).
Proof.
  intros Hk Hget p. unfold addItem. rewrite (falsy_id_Some k Hk). simpl key_of.
  rewrite Hget. simpl truthy. cbv iota. rewrite Hget. reflexivity.
Qed.

(** [removeItem] on a key the mapping owns. *)
Lemma removeItem_present s k l :
  wf s -> k <> EmptyString -> Obj.own (items_object s) k = Some l ->
  let r := record_at s l in
  let s1 :=
    with_records (<[l := {| quantity := quantity r - 1; price := price r |}]> (records s)) s in
  removeItem (Some k) s
  = if quantity r - 1 <=? 0
    then (Normal (Fin 0),
          notifyObservers (saveToStorage
            (with_objects (<[items s := Obj.remove (items_object s) k]> (objects s)) s1)))
    else (Normal (Fin (quantity r - 1)), notifyObservers (saveToStorage s1)).
Proof.
  intros Hwf Hk Hown r s1.
  pose proof (own_alloc s k l Hwf Hown) as Hl.
  unfold removeItem. rewrite (falsy_id_Some k Hk). simpl key_of.
  rewrite (Get_own s k l Hown). rewrite set_quantity_records. fold r. fold s1.
  assert (Hr1 : record_at s1 l = {| quantity := quantity r - 1; price := price r |})
    by (apply record_at_insert_eq; exact Hl).
  rewrite Hr1. simpl quantity.
  destruct (quantity r - 1 <=? 0); [reflexivity|].
  rewrite record_at_published by (exact (wf_items s Hwf)).
  rewrite Hr1. reflexivity.
Qed.

Lemma removeItem_absent s k :
  Get s k = Undefined -> removeItem (Some k) s = (Normal (Fin 0), s).
Proof.
  intros Hget. unfold removeItem. simpl key_of. rewrite Hget.
  destruct (falsy_id (Some k)); reflexivity.
Qed.

Lemma removeItem_inherited s k :
  k <> EmptyString -> Get s k = InheritedObject ->
  removeItem (Some k) s = (Normal NaN, notifyObservers (saveToStorage s)).
Proof.
  intros Hk Hget. unfold removeItem. rewrite (falsy_id_Some k Hk). simpl key_of.
  rewrite Hget. reflexivity.
Qed.

(** *** Well-formedness is preserved *)

Lemma wf_publish s : wf s -> wf (notifyObservers (saveToStorage s)).
Proof.
  intros [Hi Hk Hl Ha].
  destruct (publish_spec s Hi) as (Ho & Hr & Hit & _ & _ & _ & _ & Hio).
  constructor.
  - rewrite Ho, Hit, length_app. simpl. lia.
  - rewrite Hio. exact Hk.
  - rewrite Hio. exact Hl.
  - rewrite Hio, Hr. exact Ha.
Qed.

Lemma wf_update_record s l r :
  wf s -> wf (with_records (<[l := r]> (records s)) s).
Proof.
  intros [Hi Hk Hl Ha]. constructor; try assumption.
  simpl. rewrite length_insert. exact Ha.
Qed.

Lemma wf_with_proto_price s b : wf s -> wf (with_proto_price b s).
Proof. intros [Hi Hk Hl Ha]. constructor; assumption. Qed.

Lemma wf_append s k r :
  wf s -> Obj.own (items_object s) k = None ->
  wf (with_records (records s ++ [r])%list
        (with_objects
           (<[items s := (items_object s ++ [(k, length (records s))])%list]> (objects s)) s)).
Proof.
  intros [Hi Hk Hl Ha] Hnone.
  set (s' := with_records _ _).
  assert (Hio : items_object s' = (items_object s ++ [(k, length (records s))])%list).
  { unfold items_object, object_at, s'. simpl.
    rewrite list_lookup_insert_eq by exact Hi. reflexivity. }
  constructor.
  - unfold s'. simpl. rewrite length_insert. exact Hi.
  - rewrite Hio, List.map_app. simpl. apply NoDup_app. repeat split; auto.
    + intros x Hx Hx'. apply list_elem_of_In in Hx, Hx'.
      destruct Hx' as [<-|[]]. exact (own_None_notin _ _ Hnone Hx).
    + apply NoDup_singleton.
  - rewrite Hio, List.map_app. simpl. apply NoDup_app. repeat split; auto.
    + intros x Hx Hx'. apply list_elem_of_In in Hx, Hx'.
      destruct Hx' as [<-|[]].
      apply in_map_iff in Hx as [e [He Hin]].
      pose proof (proj1 (List.Forall_forall _ _) Ha _ Hin) as Hlt. simpl in Hlt. lia.
    + apply NoDup_singleton.
  - rewrite Hio. unfold s'. simpl. rewrite length_app. simpl.
    apply Forall_app. split.
    + eapply Forall_impl; [exact Ha|]. simpl. intros; lia.
    + constructor; [simpl; lia|constructor].
Qed.

Lemma wf_remove s k :
  wf s -> wf (with_objects (<[items s := Obj.remove (items_object s) k]> (objects s)) s).
Proof.
  intros [Hi Hk Hl Ha].
  set (s' := with_objects _ _).
  assert (Hio : items_object s' = Obj.remove (items_object s) k).
  { unfold items_object, object_at, s'. simpl.
    rewrite list_lookup_insert_eq by exact Hi. reflexivity. }
  constructor.
  - unfold s'. simpl. rewrite length_insert. exact Hi.
  - rewrite Hio. apply remove_keys_NoDup. exact Hk.
  - rewrite Hio. apply remove_locs_NoDup. exact Hl.
  - rewrite Hio. apply List.Forall_forall. intros e He.
    apply remove_In in He as [He _].
    exact (proj1 (List.Forall_forall _ _) Ha _ He).
Qed.

Lemma clearCart_spec s :
  clearCart s
  = notifyObservers (saveToStorage
      (with_items (length (objects s)) (with_objects (objects s ++ [[]])%list s))).
Proof. reflexivity. Qed.

Lemma wf_cleared s :
  wf (with_items (length (objects s)) (with_objects (objects s ++ [[]])%list s))
  /\ items_object
       (with_items (length (objects s)) (with_objects (objects s ++ [[]])%list s)) = [].
Proof.
  assert (Hio : items_object
       (with_items (length (objects s)) (with_objects (objects s ++ [[]])%list s)) = []).
  { unfold items_object, object_at. simpl. rewrite lookup_last. reflexivity. }
  split; [|exact Hio].
  constructor; rewrite ?Hio; simpl; try constructor.
  rewrite length_app. simpl. lia.
Qed.

(** Every method leaves a well-formed state well-formed. *)
Lemma wf_addItem s variantId price_arg :
  wf s -> wf (snd (addItem variantId price_arg s)).
Proof.
  intros Hwf. destruct (falsy_id variantId) eqn:Hf.
  - unfold addItem. rewrite Hf. exact Hwf.
  - destruct variantId as [k|]; [|discriminate].
    assert (Hk : k <> EmptyString) by (simpl in Hf; apply String.eqb_neq; exact Hf).
    destruct (Get s k) eqn:Hget.
    + unfold Get in Hget. destruct (Obj.own (items_object s) k) as [l'|] eqn:Hown.
      * injection Hget as ->. rewrite (addItem_present s k l _ Hwf Hk Hown). simpl.
        apply wf_publish, wf_update_record, Hwf.
      * destruct (mem_string _ _); [discriminate|].
        destruct (_ && _); discriminate.
    + rewrite (addItem_inherited s k _ Hk Hget). simpl. apply wf_publish.
      destruct (_ && _); [apply wf_with_proto_price|]; exact Hwf.
    + unfold addItem. rewrite Hf. simpl key_of. rewrite Hget. simpl. rewrite Hget.
      exact Hwf.
    + rewrite (addItem_absent s k _ Hwf Hk Hget). simpl. apply wf_publish.
      pose proof (wf_append s k {| quantity := 1;
                                   price := default (VNum (Fin 0)) price_arg |} Hwf
                    (Get_Undefined_own s k Hget)) as H.
      exact H.
Qed.

Lemma Get_Own_inv s k l : Get s k = Own l -> Obj.own (items_object s) k = Some l.
Proof.
  unfold Get. destruct (Obj.own _ _); [congruence|].
  destruct (mem_string _ _); [discriminate|]. destruct (_ && _); discriminate.
Qed.

Lemma wf_removeItem s variantId : wf s -> wf (snd (removeItem variantId s)).
Proof.
  intros Hwf. destruct (falsy_id variantId) eqn:Hf.
  - unfold removeItem. rewrite Hf. exact Hwf.
  - destruct variantId as [k|]; [|discriminate].
    assert (Hk : k <> EmptyString) by (simpl in Hf; apply String.eqb_neq; exact Hf).
    destruct (Get s k) eqn:Hget.
    + apply Get_Own_inv in Hget. rewrite (removeItem_present s k l Hwf Hk Hget).
      destruct (_ <=? 0); simpl; apply wf_publish.
      * refine (wf_remove (with_records _ s) k _). apply wf_update_record. exact Hwf.
      * apply wf_update_record. exact Hwf.
    + rewrite (removeItem_inherited s k Hk Hget). simpl. apply wf_publish, Hwf.
    + unfold removeItem. rewrite Hf. simpl key_of. rewrite Hget. exact Hwf.
    + rewrite (removeItem_absent s k Hget). exact Hwf.
Qed.

Lemma wf_clearCart s : wf (clearCart s).
Proof. rewrite clearCart_spec. apply wf_publish, wf_cleared. Qed.

Lemma wf_empty_cart : wf empty_cart.
Proof. constructor; simpl; repeat constructor. Qed.

Lemma wf_step s c : wf s -> wf (step s c).
Proof.
  destruct c; simpl; intros Hwf.
  - apply wf_addItem, Hwf.
  - apply wf_removeItem, Hwf.
  - apply wf_clearCart.
Qed.

(** Every state reached from the empty cart is well-formed. *)
Lemma wf_run cs : forall s, wf s -> wf (run cs s).
Proof.
  unfold run. induction cs as [|c cs IH]; simpl; auto.
  intros s Hwf. apply IH, wf_step, Hwf.
Qed.

End Steps.

(** ** The quantity invariant *)

Section Invariant.

Lemma own_inj (o : list (string * nat)) k k' l :
  NoDup (List.map snd o) ->
  Obj.own o k = Some l -> Obj.own o k' = Some l -> k = k'.
Proof.
  induction o as [|[k0 l0] o IH]; simpl; [discriminate|].
  intros Hnd. apply NoDup_cons in Hnd as [Hnotin Hnd].
  assert (Hno : forall k1, Obj.own o k1 = Some l0 -> False).
  { intros k1 H1. apply Hnotin, list_elem_of_In.
    change l0 with (snd (k1, l0)). apply in_map, own_Some_In, H1. }
  destruct (String.eqb k0 k) eqn:E1; destruct (String.eqb k0 k') eqn:E2.
  - apply String.eqb_eq in E1, E2. congruence.
  - intros [= <-] H2. destruct (Hno _ H2).
  - intros H1 [= <-]. destruct (Hno _ H1).
  - apply IH, Hnd.
Qed.

Lemma quantities_positive_publish s :
  (items s < length (objects s))%nat ->
  quantities_positive s -> quantities_positive (notifyObservers (saveToStorage s)).
Proof.
  intros Hlt Hinv k l. destruct (publish_spec s Hlt) as (_ & Hr & _ & _ & _ & _ & _ & Hio).
  rewrite Hio. unfold record_at. rewrite Hr. apply Hinv.
Qed.

Lemma quantities_positive_addItem s variantId price_arg :
  wf s -> quantities_positive s ->
  quantities_positive (snd (addItem variantId price_arg s)).
Proof.
  intros Hwf Hinv. destruct (falsy_id variantId) eqn:Hf.
  { unfold addItem. rewrite Hf. exact Hinv. }
  destruct variantId as [k|]; [|discriminate].
  assert (Hk : k <> EmptyString) by (simpl in Hf; apply String.eqb_neq; exact Hf).
  destruct (Get s k) eqn:Hget.
  - apply Get_Own_inv in Hget. rewrite (addItem_present s k l _ Hwf Hk Hget). simpl.
    pose proof (own_alloc s k l Hwf Hget) as Hl.
    apply quantities_positive_publish; [exact (wf_items s Hwf)|].
    intros k0 l0 H0. change (items_object (with_records _ s)) with (items_object s) in H0.
    destruct (Nat.eq_dec l l0) as [<-|Hne].
    + rewrite record_at_insert_eq by exact Hl. simpl.
      pose proof (Hinv k l Hget). lia.
    + rewrite record_at_insert_ne by exact Hne. exact (Hinv k0 l0 H0).
  - rewrite (addItem_inherited s k _ Hk Hget). simpl.
    destruct (_ && _).
    + apply quantities_positive_publish; [exact (wf_items s Hwf)|exact Hinv].
    + apply quantities_positive_publish; [exact (wf_items s Hwf)|exact Hinv].
  - unfold addItem. rewrite Hf. simpl key_of. rewrite Hget. simpl. rewrite Hget.
    exact Hinv.
  - rewrite (addItem_absent s k _ Hwf Hk Hget). simpl.
    pose proof (Get_Undefined_own s k Hget) as Hnone.
    match goal with |- quantities_positive (notifyObservers (saveToStorage ?x)) =>
      set (s3 := x) end.
    assert (Hio : items_object s3 = Obj.define (items_object s) k (length (records s))).
    { rewrite (define_absent _ _ _ Hnone). unfold items_object, object_at, s3. simpl.
      rewrite list_lookup_insert_eq by exact (wf_items s Hwf). reflexivity. }
    apply quantities_positive_publish.
    { unfold s3. simpl. rewrite length_insert. exact (wf_items s Hwf). }
    intros k0 l0. rewrite Hio. destruct (String.eqb_spec k k0) as [<-|Hne].
    + rewrite own_define_eq. intros [= <-]. unfold record_at, s3. simpl.
      rewrite lookup_last. simpl. lia.
    + rewrite own_define_ne by exact Hne. intros H0.
      pose proof (own_alloc s k0 l0 Hwf H0) as Hl0.
      unfold record_at, s3. simpl. rewrite lookup_app_l by exact Hl0.
      exact (Hinv k0 l0 H0).
Qed.

Lemma quantities_positive_removeItem s variantId :
  wf s -> quantities_positive s -> quantities_positive (snd (removeItem variantId s)).
Proof.
  intros Hwf Hinv. destruct (falsy_id variantId) eqn:Hf.
  { unfold removeItem. rewrite Hf. exact Hinv. }
  destruct variantId as [k|]; [|discriminate].
  assert (Hk : k <> EmptyString) by (simpl in Hf; apply String.eqb_neq; exact Hf).
  destruct (Get s k) eqn:Hget.
  - apply Get_Own_inv in Hget. rewrite (removeItem_present s k l Hwf Hk Hget).
    pose proof (own_alloc s k l Hwf Hget) as Hl.
    destruct (quantity (record_at s l) - 1 <=? 0) eqn:Hq; simpl.
    + match goal with |- quantities_positive (notifyObservers (saveToStorage ?x)) =>
        set (s2 := x) end.
      assert (Hio : items_object s2 = Obj.remove (items_object s) k).
      { unfold items_object, object_at, s2. simpl.
        rewrite list_lookup_insert_eq by exact (wf_items s Hwf). reflexivity. }
      apply quantities_positive_publish.
      { unfold s2. simpl. rewrite length_insert. exact (wf_items s Hwf). }
      intros k0 l0. rewrite Hio. destruct (String.eqb_spec k k0) as [<-|Hne].
      * rewrite own_remove_eq. discriminate.
      * rewrite own_remove_ne by exact Hne. intros H0.
        assert (Hll : l <> l0).
        { intros <-. apply Hne. exact (own_inj _ _ _ _ (wf_locs s Hwf) Hget H0). }
        unfold record_at, s2. simpl. rewrite list_lookup_insert_ne by exact Hll.
        exact (Hinv k0 l0 H0).
    + apply quantities_positive_publish; [exact (wf_items s Hwf)|].
      intros k0 l0 H0. change (items_object (with_records _ s)) with (items_object s) in H0.
      destruct (Nat.eq_dec l l0) as [<-|Hne].
      * rewrite record_at_insert_eq by exact Hl. simpl. lia.
      * rewrite record_at_insert_ne by exact Hne. exact (Hinv k0 l0 H0).
  - rewrite (removeItem_inherited s k Hk Hget). simpl.
    apply quantities_positive_publish; [exact (wf_items s Hwf)|exact Hinv].
  - unfold removeItem. rewrite Hf. simpl key_of. rewrite Hget. exact Hinv.
  - rewrite (removeItem_absent s k Hget). exact Hinv.
Qed.

Lemma quantities_positive_clearCart s : quantities_positive (clearCart s).
Proof.
  rewrite clearCart_spec. destruct (wf_cleared s) as [Hwf Hio].
  apply quantities_positive_publish; [exact (wf_items _ Hwf)|].
  intros k l. rewrite Hio. discriminate.
Qed.

End Invariant.


(** ** Notification *)

Section Notification.




Lemma invocations_absent n d (fs : list Listener) :
  n ∉ List.map lid fs ->
  invocations n (List.map (fun f => (lid f, d)) fs) = 0%nat.
Proof.
  unfold invocations. induction fs as [|f fs IH]; simpl; auto.
  intros Hn. apply not_elem_of_cons in Hn as [Hne Hn].
  destruct (Nat.eqb_spec (lid f) n); [congruence|]. apply IH, Hn.
Qed.



End Notification.



Lemma wf_sample_cart : wf sample_cart.
Proof.
  constructor.
  - vm_compute. lia.
  - apply (bool_decide_unpack _). vm_compute. exact I.
  - apply (bool_decide_unpack _). vm_compute. exact I.
  - vm_compute. repeat constructor.
Defined.

Lemma quantities_positive_run cs : forall s,
  wf s -> quantities_positive s -> quantities_positive (run cs s).
Proof.
  unfold run. induction cs as [|c cs IH]; simpl; auto.
  intros s Hwf Hinv. apply IH; [apply wf_step, Hwf|].
  destruct c; simpl.
  - apply quantities_positive_addItem; assumption.
  - apply quantities_positive_removeItem; assumption.
  - apply quantities_positive_clearCart.
Qed.

Lemma quantities_positive_sample_cart : quantities_positive sample_cart.
Proof.
  apply quantities_positive_run.
  - constructor; simpl; repeat constructor.
  - intros k l. discriminate.
Defined.



Lemma passive_sample_cart : passive sample_cart.
Proof. unfold passive. vm_compute. repeat constructor. Defined.


Example sample_cart_calls_after_add :
  List.map fst (calls (snd (addItem (Some "v3") (num 4) sample_cart)))
  = [1; 2; 1; 2; 1; 2; 1; 2]%nat /\
  fst (addItem (Some "v3") (num 4) sample_cart) = Normal (Fin 1).
Proof. split; reflexivity. Qed.

(** ** Rejected identifiers *)

(** C9. When the identifier is empty or absent, [addItem] throws before any
    mutation: the whole state (the items and their records, the storage entry
    and the writes made to it, the observers and the calls they received) is
    the state before the call. *)
Theorem addItem_invalid_id_atomic (s : State) (variantId : option string)
    (price_arg : option value) :
  falsy_id variantId = true ->
  addItem variantId price_arg s = (Throw (Error "Variant ID is required"), s).
Proof. intros H. unfold addItem. rewrite H. reflexivity. Qed.

Lemma addItem_invalid_id_atomic_witness :
  falsy_id (Some EmptyString) = true /\
  addItem (Some EmptyString) (num 5) sample_cart
  = (Throw (Error "Variant ID is required"), sample_cart).
Proof.
  split; [reflexivity|].
  exact (addItem_invalid_id_atomic sample_cart (Some EmptyString) (num 5) eq_refl).
Defined.

Example addItem_absent_id_throws :
  addItem None (num 5) sample_cart = (Throw (Error "Variant ID is required"), sample_cart).
Proof. reflexivity. Qed.

(** ** The price of a new entry *)

Lemma add_zero_l n : add (Fin 0) n = n.
Proof. destruct n; reflexivity. Qed.

Lemma entries_singleton k (l : nat) : Obj.entries [(k, l)] = [(k, l)].
Proof. unfold Obj.entries. simpl. destruct (array_index k); reflexivity. Qed.

(** C10. When [addItem] creates the entry, the price it is given is stored
    as it is, whatever its sign: the test [price > 0] only guards the later
    overwrite. On a cart that was empty the total price is then
    [1 * (price || 0)], which is negative for a negative price. *)
Theorem addItem_stores_first_price (s : State) (k : string) (price_arg : option value) :
  wf s -> k <> EmptyString -> Get s k = Undefined ->
  let p := default (VNum (Fin 0)) price_arg in
  let s' := snd (addItem (Some k) price_arg s) in
  (exists l, Obj.own (items_object s') k = Some l /\
             record_at s' l = {| quantity := 1; price := p |}) /\
  (items_object s = [] -> getTotalPrice s' = mul (Fin 1) (or_zero p)) /\
  (items_object s = [] -> forall z, p = VNum (Fin z) -> z < 0 ->
     getTotalPrice s' = Fin z).
Proof.
  intros Hwf Hk Hget p s'.
  pose proof (Get_Undefined_own s k Hget) as Hnone.
  unfold s'. rewrite (addItem_absent s k _ Hwf Hk Hget). simpl. fold p.
  match goal with |- context [notifyObservers (saveToStorage ?x)] => set (s3 := x) end.
  assert (Hlt3 : (items s3 < length (objects s3))%nat)
    by (unfold s3; simpl; rewrite length_insert; exact (wf_items s Hwf)).
  destruct (publish_spec s3 Hlt3) as (_ & Hr & _ & _ & _ & _ & _ & Hio).
  assert (Hio3 : items_object s3 = (items_object s ++ [(k, length (records s))])%list).
  { unfold items_object, object_at, s3. simpl.
    rewrite list_lookup_insert_eq by exact (wf_items s Hwf). reflexivity. }
  assert (Hrec : record_at (notifyObservers (saveToStorage s3)) (length (records s))
                 = {| quantity := 1; price := p |}).
  { unfold record_at. rewrite Hr. unfold s3. simpl. rewrite lookup_last. reflexivity. }
  assert (Htotal : items_object s = [] ->
                   getTotalPrice (notifyObservers (saveToStorage s3))
                   = mul (Fin 1) (or_zero p)).
  { intros Hempty. unfold getTotalPrice, item_values.
    rewrite Hio, Hio3, Hempty. simpl app. rewrite entries_singleton. simpl.
    rewrite Hrec. simpl. apply add_zero_l. }
  split; [|split].
  - exists (length (records s)). split; [|exact Hrec].
    rewrite Hio, Hio3, <- (define_absent _ _ _ Hnone). apply own_define_eq.
  - exact Htotal.
  - intros Hempty z Hz Hneg. rewrite (Htotal Hempty), Hz. simpl.
    destruct z; try lia; reflexivity.
Qed.

Lemma addItem_stores_first_price_witness :
  wf empty_cart /\ "v1" <> EmptyString /\ Get empty_cart "v1" = Undefined /\
  item_entries (snd (addItem (Some "v1") (num (-5)) empty_cart))
  = [("v1", {| quantity := 1; price := VNum (Fin (-5)) |})] /\
  getTotalPrice (snd (addItem (Some "v1") (num (-5)) empty_cart)) = Fin (-5).
Proof.
  split; [exact wf_empty_cart|]. split; [discriminate|]. split; [reflexivity|].
  split; [reflexivity|].
  exact (proj2 (proj2 (addItem_stores_first_price empty_cart "v1" (num (-5))
                         wf_empty_cart ltac:(discriminate) eq_refl))
           eq_refl (-5) eq_refl eq_refl).
Defined.

(** ** Adding and removing *)

Section AddRemove.




End AddRemove.

Example add_with_price_then_without :
  let s := run [AddItem (Some "v1") (num 10); AddItem (Some "v1") (num 0)] empty_cart in
  getItemQuantity "v1" s = Fin 2 /\ getTotalPrice s = Fin 20 /\
  fst (addItem (Some "v1") None s) = Normal (Fin 3).
Proof. repeat split; reflexivity. Qed.

(** C1, at an identifier that names a property of [Object.prototype]: on the
    empty cart [addItem("constructor", 10)] finds the inherited constructor
    in place of an entry, creates nothing and returns [NaN]; the cart stays
    empty and the quantity of the identifier stays 0. *)
Theorem addItem_inherited_identifier :
  let result := addItem (Some "constructor") (num 10) empty_cart in
  fst result = Normal NaN /\
  item_entries (snd result) = [] /\
  stored (snd result) "constructor" = None /\
  getItemQuantity "constructor" (snd result) = Fin 0 /\
  getTotalQuantity (snd result) = 0.
Proof. repeat split; reflexivity. Qed.

(** C2, at an identifier that names a property of [Object.prototype]: on an
    empty cart with one observer, [removeItem("constructor")] is not the
    silent no-op of an absent identifier: it returns [NaN], writes the state
    to the storage and calls the observer. *)
Theorem removeItem_inherited_identifier :
  let s := subscribe (Some (quiet 1)) empty_cart in
  let result := removeItem (Some "constructor") s in
  stored s "constructor" = None /\
  fst result = Normal NaN /\
  setItem_calls s = [] /\ setItem_calls (snd result) = ["{}"] /\
  calls s = [] /\ List.map fst (calls (snd result)) = [1%nat].
Proof. repeat split; reflexivity. Qed.

(** ** Storage failures *)

Section StorageFailures.

Lemma same_memory_refl s : same_memory s s.
Proof. repeat split. Qed.

Lemma same_memory_trans s1 s2 s3 :
  same_memory s1 s2 -> same_memory s2 s3 -> same_memory s1 s3.
Proof.
  intros (?&?&?&?&?&?) (?&?&?&?&?&?). repeat split; congruence.
Qed.

Lemma same_memory_sym s1 s2 : same_memory s1 s2 -> same_memory s2 s1.
Proof. intros (?&?&?&?&?&?). repeat split; congruence. Qed.

Lemma entries_of_same_memory s1 s2 o :
  same_memory s1 s2 -> entries_of s1 o = entries_of s2 o.
Proof.
  intros (Ho & Hr & _). unfold entries_of, object_at, record_at. rewrite Ho, Hr.
  reflexivity.
Qed.

Lemma same_memory_saveToStorage s : same_memory (saveToStorage s) s.
Proof.
  destruct (saveToStorage_frame s) as (?&?&?&?&?&?&?). repeat split; assumption.
Qed.

Lemma react_same_memory s1 s2 todo r :
  same_memory s1 s2 ->
  same_memory (fst (react (s1, todo) r)) (fst (react (s2, todo) r)) /\
  snd (react (s1, todo) r) = snd (react (s2, todo) r).
Proof.
  intros (Ho & Hr & Hi & Hob & Hc & Hp). destruct r as [f|f]; simpl.
  - rewrite Hob. destruct (existsb _ _); (split; [|reflexivity]);
      repeat split; simpl; congruence.
  - split; [|reflexivity]. repeat split; simpl; congruence.
Qed.

Lemma reactions_same_memory rs : forall s1 s2 todo,
  same_memory s1 s2 ->
  same_memory (fst (fold_left react rs (s1, todo))) (fst (fold_left react rs (s2, todo))) /\
  snd (fold_left react rs (s1, todo)) = snd (fold_left react rs (s2, todo)).
Proof.
  induction rs as [|r rs IH]; intros s1 s2 todo H; cbn [fold_left].
  - split; [exact H|reflexivity].
  - destruct (react_same_memory s1 s2 todo r H) as [Hm Ht].
    destruct (react (s1, todo) r) as [s1' todo1].
    destruct (react (s2, todo) r) as [s2' todo2].
    cbn [fst snd] in Hm, Ht. subst todo2. apply IH, Hm.
Qed.

Lemma call_observer_same_memory d s1 s2 todo f :
  same_memory s1 s2 ->
  same_memory (fst (call_observer d (s1, todo) f)) (fst (call_observer d (s2, todo) f)) /\
  snd (call_observer d (s1, todo) f) = snd (call_observer d (s2, todo) f).
Proof.
  intros H. pose proof H as (Ho & Hr & Hi & Hob & Hc & Hp). unfold call_observer.
  assert (H1 : same_memory (with_calls (calls s1 ++ [(lid f, d)]) s1)
                 (with_calls (calls s2 ++ [(lid f, d)]) s2))
    by (repeat split; simpl; congruence).
  destruct (reactions_same_memory (during f) _ _ todo H1) as [Hm Ht].
  destruct (fold_left react (during f) (with_calls (calls s1 ++ [(lid f, d)]) s1, todo))
    as [s1' todo1].
  destruct (fold_left react (during f) (with_calls (calls s2 ++ [(lid f, d)]) s2, todo))
    as [s2' todo2].
  cbn [fst snd] in Hm, Ht. subst todo2.
  rewrite (entries_of_same_memory s1 s2 _ H).
  destruct (throws f _ _ _); cbn [fst snd]; (split; [|reflexivity]).
  - destruct Hm as (?&?&?&?&?&?). repeat split; assumption.
  - exact Hm.
Qed.

Lemma forEach_same_memory d fuel : forall todo s1 s2,
  same_memory s1 s2 -> same_memory (forEach fuel d todo s1) (forEach fuel d todo s2).
Proof.
  induction fuel as [|fuel IH]; intros todo s1 s2 H; [exact H|].
  destruct todo as [|f rest]; [exact H|]. cbn [forEach].
  destruct (call_observer_same_memory d s1 s2 rest f H) as [Hm Ht].
  destruct (call_observer d (s1, rest) f) as [s1' rest1].
  destruct (call_observer d (s2, rest) f) as [s2' rest2].
  cbn [fst snd] in Hm, Ht. subst rest2. apply IH, Hm.
Qed.

Lemma same_memory_notifyObservers s1 s2 :
  same_memory s1 s2 -> same_memory (notifyObservers s1) (notifyObservers s2).
Proof.
  intros H. pose proof H as (Ho & Hr & Hi & Hob & Hc & Hp).
  assert (Hio : items_object s1 = items_object s2)
    by (apply items_object_ext; rewrite Ho, Hi; reflexivity).
  unfold notifyObservers, new_object. simpl. rewrite Hob, Ho, Hio.
  assert (Hv : item_values (with_objects (objects s2 ++ [Obj.spread (items_object s2)]) s1)
               = item_values (with_objects (objects s2 ++ [Obj.spread (items_object s2)]) s2)).
  { apply item_values_ext; [|exact Hr].
    apply items_object_ext. simpl. rewrite Hi. reflexivity. }
  unfold getTotalQuantity, getTotalPrice. rewrite Hv.
  apply forEach_same_memory. repeat split; simpl; assumption.
Qed.

Lemma publish_storage st s :
  same_memory (notifyObservers (saveToStorage (with_storage st s)))
              (notifyObservers (saveToStorage s)).
Proof.
  apply same_memory_notifyObservers.
  eapply same_memory_trans; [apply same_memory_saveToStorage|].
  eapply same_memory_trans; [|apply same_memory_sym, same_memory_saveToStorage].
  repeat split.
Qed.

Lemma record_at_same_memory s1 s2 l :
  same_memory s1 s2 -> record_at s1 l = record_at s2 l.
Proof. intros (_ & Hr & _). unfold record_at. rewrite Hr. reflexivity. Qed.

Lemma addItem_storage st s variantId price_arg :
  fst (addItem variantId price_arg (with_storage st s)) = fst (addItem variantId price_arg s)
  /\ same_memory (snd (addItem variantId price_arg (with_storage st s)))
                 (snd (addItem variantId price_arg s)).
Proof.
  unfold addItem. destruct (falsy_id variantId); [split; [reflexivity|repeat split]|].
  change (Get (with_storage st s) (key_of variantId)) with (Get s (key_of variantId)).
  set (k := key_of variantId). set (p := default (VNum (Fin 0)) price_arg).
  assert (Hs1 : (if truthy (Get s k) then with_storage st s
                 else create_item k p (with_storage st s))
                = with_storage st (if truthy (Get s k) then s else create_item k p s))
    by (destruct (truthy (Get s k)); reflexivity).
  rewrite Hs1. set (s1 := if truthy (Get s k) then s else create_item k p s).
  change (Get (with_storage st s1) k) with (Get s1 k).
  destruct (Get s1 k) as [l| | |]; simpl.
  - change (record_at (with_storage st s1) l) with (record_at s1 l).
    set (q := quantity (record_at s1 l) + 1).
    assert (Hs3 : (if gt0 (ToNumber p)
                   then set_price l p (set_quantity l q (with_storage st s1))
                   else set_quantity l q (with_storage st s1))
                  = with_storage st (if gt0 (ToNumber p)
                                     then set_price l p (set_quantity l q s1)
                                     else set_quantity l q s1))
      by (destruct (gt0 (ToNumber p)); reflexivity).
    rewrite Hs3.
    match goal with |- context [with_storage st ?x] =>
      pose proof (publish_storage st x) as Hm end.
    rewrite (record_at_same_memory _ _ l Hm). split; [reflexivity|exact Hm].
  - assert (Hs3 : (if gt0 (ToNumber p) && String.eqb k "__proto__"
                   then with_proto_price true (with_storage st s1)
                   else with_storage st s1)
                  = with_storage st (if gt0 (ToNumber p) && String.eqb k "__proto__"
                                     then with_proto_price true s1 else s1))
      by (destruct (_ && _); reflexivity).
    rewrite Hs3. split; [reflexivity|apply publish_storage].
  - split; [reflexivity|repeat split].
  - split; [reflexivity|repeat split].
Qed.

Lemma removeItem_storage st s variantId :
  fst (removeItem variantId (with_storage st s)) = fst (removeItem variantId s)
  /\ same_memory (snd (removeItem variantId (with_storage st s)))
                 (snd (removeItem variantId s)).
Proof.
  unfold removeItem. destruct (falsy_id variantId); [split; [reflexivity|repeat split]|].
  change (Get (with_storage st s) (key_of variantId)) with (Get s (key_of variantId)).
  set (k := key_of variantId).
  destruct (Get s k) as [l| | |]; simpl.
  - change (record_at (with_storage st s) l) with (record_at s l).
    set (q := quantity (record_at s l) - 1).
    change (set_quantity l q (with_storage st s)) with (with_storage st (set_quantity l q s)).
    change (record_at (with_storage st (set_quantity l q s)) l)
      with (record_at (set_quantity l q s) l).
    destruct (quantity (record_at (set_quantity l q s) l) <=? 0); simpl.
    + match goal with |- context [saveToStorage (set_items_object ?o (with_storage st ?x))] =>
        change (set_items_object o (with_storage st x))
          with (with_storage st (set_items_object o x)) end.
      split; [reflexivity|apply publish_storage].
    + pose proof (publish_storage st (set_quantity l q s)) as Hm.
      rewrite (record_at_same_memory _ _ l Hm). split; [reflexivity|exact Hm].
  - split; [reflexivity|apply publish_storage].
  - split; [reflexivity|repeat split].
  - split; [reflexivity|repeat split].
Qed.

Lemma perform_storage st s c :
  fst (perform c (with_storage st s)) = fst (perform c s) /\
  same_memory (snd (perform c (with_storage st s))) (snd (perform c s)).
Proof.
  destruct c as [v p|v|]; simpl.
  - destruct (addItem_storage st s v p) as [Hr Hm].
    destruct (addItem v p (with_storage st s)) as [[n1|e1] s1];
      destruct (addItem v p s) as [[n2|e2] s2]; simpl in *;
      split; congruence || exact Hm.
  - destruct (removeItem_storage st s v) as [Hr Hm].
    destruct (removeItem v (with_storage st s)) as [[n1|e1] s1];
      destruct (removeItem v s) as [[n2|e2] s2]; simpl in *;
      split; congruence || exact Hm.
  - split; [reflexivity|]. unfold clearCart, new_object.
    match goal with |- context [with_items ?o (with_objects ?v (with_storage st s))] =>
      change (with_items o (with_objects v (with_storage st s)))
        with (with_storage st (with_items o (with_objects v s))) end.
    apply publish_storage.
Qed.

(** A save that fails is reported and leaves the stored entry as it was. *)
Lemma saveToStorage_failure s e st :
  setItem (stringify_items s) (storage s) = (Throw e, st) ->
  storage (saveToStorage s) = storage s /\
  console (saveToStorage s) = (console s ++ [SaveError])%list.
Proof. intros H. unfold saveToStorage. rewrite H. split; reflexivity. Qed.

Lemma new_ShoppingCart_load_fails st :
  load_fails st -> new_ShoppingCart st = Some (fresh_cart st [LoadError]).
Proof.
  unfold new_ShoppingCart, loadFromStorage, getItem.
  intros [Hav|(text & Hentry & Hne & Hparse)].
  - rewrite Hav. reflexivity.
  - destruct (available st); [|reflexivity].
    rewrite Hentry. apply String.eqb_neq in Hne. rewrite Hne, Hparse. reflexivity.
Qed.

End StorageFailures.

(** C5. Storage failures stay inside the class. At construction, when
    reading the entry throws or the text read does not parse, the cart starts
    empty and the failure is logged. For every call, the completion and the
    state in memory (items, records, observers and the calls they received)
    do not depend on the storage: with a storage whose writes fail, the
    mutation and the notifications are those of a working storage; the failed
    save is logged and leaves the stored entry as it was. *)
Theorem storage_failures_contained :
  (forall st, load_fails st -> new_ShoppingCart st = Some (fresh_cart st [LoadError])) /\
  (forall s c st,
     fst (perform c (with_storage st s)) = fst (perform c s) /\
     same_memory (snd (perform c (with_storage st s))) (snd (perform c s))) /\
  (forall s e st,
     setItem (stringify_items s) (storage s) = (Throw e, st) ->
     storage (saveToStorage s) = storage s /\
     console (saveToStorage s) = (console s ++ [SaveError])%list).
Proof.
  split; [|split].
  - exact new_ShoppingCart_load_fails.
  - intros s c st. apply perform_storage.
  - exact saveToStorage_failure.
Qed.

Lemma storage_failures_contained_witness :
  load_fails truncated_storage /\
  new_ShoppingCart truncated_storage = Some (fresh_cart truncated_storage [LoadError]).
Proof.
  assert (H : load_fails truncated_storage).
  { right. exists truncated_text. split; [reflexivity|].
    split; [discriminate|vm_compute; reflexivity]. }
  split; [exact H|]. exact (proj1 storage_failures_contained truncated_storage H).
Defined.

(** A text that is not JSON is an error wherever it goes wrong, also after
    a number with a fraction; the whole text is JSON but holds a price the
    embedding has no value for. *)
Example truncated_text_is_an_error :
  JSON.parse truncated_text = JSON.ParseError /\
  JSON.parse (truncated_text ++ "}") = JSON.ParseUnsupported /\
  JSON.parse "[1.5e3,-0,]" = JSON.ParseError /\
  JSON.parse "[1.5e3,-0]" = JSON.ParseUnsupported /\
  JSON.parse "[1.,2]" = JSON.ParseError.
Proof. repeat split; vm_compute; reflexivity. Qed.

Example corrupt_storage_starts_empty :
  new_ShoppingCart corrupt_storage = Some (fresh_cart corrupt_storage [LoadError]).
Proof. reflexivity. Qed.

Example disabled_storage_starts_empty :
  new_ShoppingCart disabled_storage = Some (fresh_cart disabled_storage [LoadError]).
Proof. reflexivity. Qed.

Example add_with_full_storage :
  let r := addItem (Some "v1") (num 10)
             (with_storage full_storage (subscribe (Some (quiet 1)) empty_cart)) in
  fst r = Normal (Fin 1) /\
  item_entries (snd r) = [("v1", {| quantity := 1; price := VNum (Fin 10) |})] /\
  entry (storage (snd r)) = None /\
  console (snd r) = [SaveError] /\
  List.map fst (calls (snd r)) = [1%nat].
Proof. repeat split; reflexivity. Qed.

(** ** The checkout URL *)

Section CheckoutUrl.

Lemma isEmpty_spec s : isEmpty s = true <-> items_object s = [].
Proof.
  unfold isEmpty, Obj.keys. rewrite length_map.
  rewrite (Permutation_length (entries_perm (items_object s))).
  destruct (items_object s); simpl; split; congruence.
Qed.

Lemma getCheckoutUrl_empty s : items_object s = [] -> getCheckoutUrl s = checkout_base.
Proof.
  intros H. unfold getCheckoutUrl. apply isEmpty_spec in H. rewrite H. reflexivity.
Qed.

Lemma getCheckoutUrl_nonempty s :
  items_object s <> [] ->
  getCheckoutUrl s
  = checkout_base ++ "/" ++ JSON.join "," (List.map url_pair (item_entries s)).
Proof.
  intros H. unfold getCheckoutUrl.
  destruct (isEmpty s) eqn:E; [apply isEmpty_spec in E; contradiction|reflexivity].
Qed.

Lemma item_entries_named s :
  Forall (fun e => array_index (fst e) = None) (items_object s) ->
  item_entries s = List.map (fun e => (fst e, record_at s (snd e))) (items_object s).
Proof. intros H. unfold item_entries. rewrite (entries_named _ H). reflexivity. Qed.

End CheckoutUrl.

(** ** The object returned by [getAllItems()] *)

Section DefensiveCopy.

Lemma extends_item_entries s s' :
  wf s -> extends s s' -> item_entries s' = item_entries s.
Proof.
  intros Hwf (Hio & _ & Hrec). unfold item_entries. rewrite Hio.
  apply List.map_ext_in. intros [k l] Hin. apply (proj1 (entries_In _ _)) in Hin.
  pose proof (proj1 (List.Forall_forall _ _) (wf_alloc s Hwf) _ Hin) as Hl.
  simpl in *. unfold record_at. rewrite (Hrec l Hl). reflexivity.
Qed.

Lemma item_values_entries s : item_values s = List.map snd (item_entries s).
Proof. unfold item_values, item_entries. rewrite List.map_map. reflexivity. Qed.

Lemma extends_observe s s' : wf s -> extends s s' -> observe s' = observe s.
Proof.
  intros Hwf Hext. pose proof (extends_item_entries s s' Hwf Hext) as He.
  destruct Hext as (Hio & Hp & Hrec).
  assert (Hv : item_values s' = item_values s)
    by (rewrite !item_values_entries, He; reflexivity).
  unfold observe, getTotalQuantity, getTotalPrice, getCheckoutUrl, isEmpty.
  rewrite He, Hv, Hio. reflexivity.
Qed.

Lemma extends_getItemQuantity s s' k :
  wf s -> extends s s' -> getItemQuantity k s' = getItemQuantity k s.
Proof.
  intros Hwf (Hio & Hp & Hrec). unfold getItemQuantity, Get. rewrite Hio, Hp.
  destruct (Obj.own (items_object s) k) as [l|] eqn:Hown.
  - unfold record_at. rewrite (Hrec l (own_alloc s k l Hwf Hown)). reflexivity.
  - destruct (mem_string _ _); [reflexivity|]. destruct (_ && _); reflexivity.
Qed.

(** A write that is not nested, on an object other than [this.items],
    keeps the mapping and the records of the cart. *)
Lemma client_apply_extends s s' copy w :
  nested w = false -> copy <> items s' -> items s' = items s ->
  (length (records s) <= length (records s'))%nat ->
  extends s s' ->
  extends s (client_apply copy s' w) /\ items (client_apply copy s' w) = items s /\
  (length (records s) <= length (records (client_apply copy s' w)))%nat.
Proof.
  intros Hw Hcopy Hitems Hlen (Hio & Hp & Hrec).
  destruct w as [k r|k|k q|k p]; try discriminate; simpl.
  - destruct (String.eqb k "__proto__"); repeat split; simpl.
    + exact Hio.
    + exact Hp.
    + intros l Hl. rewrite lookup_app_l by lia. apply Hrec, Hl.
    + exact Hitems.
    + rewrite length_app. lia.
    + unfold items_object, object_at in *. simpl.
      rewrite list_lookup_insert_ne by exact Hcopy. exact Hio.
    + exact Hp.
    + intros l Hl. rewrite lookup_app_l by lia. apply Hrec, Hl.
    + exact Hitems.
    + rewrite length_app. lia.
  - repeat split; simpl; auto.
    unfold items_object, object_at in *. simpl.
    rewrite list_lookup_insert_ne by exact Hcopy. exact Hio.
Qed.

Lemma client_writes_extend s copy ws : forall s',
  Forall (fun w => nested w = false) ws ->
  copy <> items s -> items s' = items s ->
  (length (records s) <= length (records s'))%nat ->
  extends s s' ->
  extends s (fold_left (client_apply copy) ws s') /\
  items (fold_left (client_apply copy) ws s') = items s.
Proof.
  induction ws as [|w ws IH]; intros s' Hws Hcopy Hitems Hlen Hext; simpl; auto.
  apply Forall_cons in Hws as [Hw Hws].
  destruct (client_apply_extends s s' copy w Hw) as (Hext' & Hitems' & Hlen'); auto.
  rewrite Hitems. exact Hcopy.
Qed.

Lemma getAllItems_spec s :
  (items s < length (objects s))%nat ->
  fst (getAllItems s) <> items s /\
  object_at (snd (getAllItems s)) (fst (getAllItems s)) = Obj.spread (items_object s) /\
  items (snd (getAllItems s)) = items s /\
  records (snd (getAllItems s)) = records s /\
  extends s (snd (getAllItems s)).
Proof.
  intros Hlt. unfold getAllItems, new_object. simpl. repeat split.
  - lia.
  - unfold object_at. simpl. rewrite lookup_last. reflexivity.
  - unfold items_object, object_at. simpl. rewrite lookup_app_l by exact Hlt.
    reflexivity.
Qed.

End DefensiveCopy.

(** ** Reading back the saved text *)

Section JSONText.

Import JSON.

Lemma append_assoc (a b c : string) : ((a ++ b) ++ c = a ++ (b ++ c))%string.
Proof. induction a as [|x a IH]; simpl; [reflexivity|]. rewrite IH. reflexivity. Qed.

Lemma length_append (a b : string) :
  String.length (a ++ b) = (String.length a + String.length b)%nat.
Proof. induction a as [|x a IH]; simpl; [reflexivity|]. rewrite IH. reflexivity. Qed.

(** *** Strings *)

Lemma parse_escape_char c tail :
  parse_chars (escape_char c ++ tail) = cons_char c (parse_chars tail).
Proof.
  destruct c as [[] [] [] [] [] [] [] []]; reflexivity.
Qed.

Lemma parse_escape s rest :
  parse_chars (escape s ++ String dquote rest) = Ok s rest.
Proof.
  induction s as [|c s IH]; simpl.
  - reflexivity.
  - rewrite append_assoc, parse_escape_char, IH. reflexivity.
Qed.

(** *** Numbers *)

Lemma string_of_uint_digits d : all_digits (NilEmpty.string_of_uint d) = true.
Proof. induction d; simpl; auto. Qed.

Lemma span_digits_app ds c r :
  all_digits ds = true -> is_digit c = false ->
  span_digits (ds ++ String c r) = (ds, String c r).
Proof.
  intros Hds Hc. induction ds as [|x ds IH]; simpl in *.
  - rewrite Hc. reflexivity.
  - apply andb_prop in Hds as [Hx Hds]. rewrite Hx, (IH Hds). reflexivity.
Qed.

Lemma digits_value_string_of_N n : digits_value (string_of_N n) = n.
Proof.
  unfold digits_value, string_of_N. rewrite NilEmpty.usu.
  apply DecimalN.Unsigned.of_to.
Qed.

Lemma to_uint_normal p : unorm (Pos.to_uint p) = Pos.to_uint p.
Proof.
  rewrite <- DecimalPos.Unsigned.to_of, DecimalPos.Unsigned.of_to. reflexivity.
Qed.

Lemma string_of_pos_head p :
  exists c t, string_of_N (Npos p) = String c t /\ is_digit c = true /\
              Ascii.eqb c "0" = false.
Proof.
  unfold string_of_N. change (N.to_uint (Npos p)) with (Pos.to_uint p).
  pose proof (to_uint_normal p) as Hn.
  pose proof (DecimalPos.Unsigned.to_uint_nonzero p) as Hz.
  pose proof (DecimalPos.Unsigned.to_uint_nonnil p) as Hnil.
  destruct (Pos.to_uint p) as [|d|d|d|d|d|d|d|d|d|d] eqn:E;
    try (eexists; eexists; split; [reflexivity|split; reflexivity]).
  - congruence.
  - exfalso. destruct (uint_eq_dec d Nil) as [->|Hd]; [apply Hz; reflexivity|].
    pose proof (nb_digits_unorm d Hd) as Hle.
    rewrite unorm_D0 in Hn. rewrite Hn in Hle. simpl in Hle. lia.
Qed.

Lemma ends_value_facts c :
  ends_value c ->
  is_digit c = false /\ is_ws c = false /\
  (Ascii.eqb c "." || Ascii.eqb c "e" || Ascii.eqb c "E" = false)%bool.
Proof. intros [->| ->]; repeat split; reflexivity. Qed.

Lemma parse_number_pos p c r :
  ends_value c ->
  parse_number (string_of_N (Npos p) ++ String c r) = Ok (JNum (Zpos p)) (String c r)
  /\ parse_number (String "-" (string_of_N (Npos p) ++ String c r))
     = Ok (JNum (Zneg p)) (String c r).
Proof.
  intros Hc. destruct (ends_value_facts c Hc) as (Hd & _ & Hf).
  destruct (string_of_pos_head p) as (c0 & t & Hs & Hc0 & Hnz).
  assert (Hall : all_digits (string_of_N (Npos p)) = true)
    by apply string_of_uint_digits.
  pose proof (span_digits_app _ c r Hall Hd) as Hspan.
  pose proof (digits_value_string_of_N (Npos p)) as Hval.
  assert (Hneg : Ascii.eqb c0 "-" = false).
  { destruct c0 as [[] [] [] [] [] [] [] []]; try discriminate; reflexivity. }
  rewrite Hs in *. clear Hs.
  assert (Hcore : forall neg,
    (let '(ds, rest) := span_digits (String c0 t ++ String c r) in
     match ds with
     | EmptyString => SyntaxError
     | String first others =>
         if Ascii.eqb first "0" && negb (String.eqb others EmptyString) then SyntaxError
         else if starts_fraction_or_exponent rest then Unsupported
         else
           let n := digits_value ds in
           if (neg : bool) then
             if (n =? 0)%N then Unsupported else Ok (JNum (- Z.of_N n)) rest
           else Ok (JNum (Z.of_N n)) rest
     end)
    = if neg then Ok (JNum (Zneg p)) (String c r) else Ok (JNum (Zpos p)) (String c r)).
  { intros neg. rewrite Hspan, Hnz. simpl andb. cbv iota.
    unfold starts_fraction_or_exponent. rewrite Hf, Hval.
    destruct neg; reflexivity. }
  split.
  - unfold parse_number.
    change (String c0 t ++ String c r) with (String c0 (t ++ String c r)) at 1.
    cbv iota beta. rewrite Hneg. apply (Hcore false).
  - unfold parse_number. cbv iota beta.
    change (Ascii.eqb "-" "-") with true. cbv iota. apply (Hcore true).
Qed.

Lemma parse_number_print z c r :
  ends_value c ->
  parse_number (string_of_Z z ++ String c r) = Ok (JNum z) (String c r).
Proof.
  intros Hc. destruct z as [|p|p]; simpl.
  - destruct (ends_value_facts c Hc) as (Hd & _ & Hf).
    unfold parse_number. simpl. rewrite Hd. simpl. rewrite Hf. reflexivity.
  - apply parse_number_pos, Hc.
  - apply parse_number_pos, Hc.
Qed.

Lemma parse_value_digit fuel c s :
  is_digit c = true -> parse_value (S fuel) (String c s) = parse_number (String c s).
Proof.
  destruct c as [[] [] [] [] [] [] [] []]; intros H; try discriminate H; reflexivity.
Qed.

Lemma parse_value_number fuel z c r :
  ends_value c ->
  parse_value (S fuel) (string_of_Z z ++ String c r) = Ok (JNum z) (String c r).
Proof.
  intros Hc. rewrite <- (parse_number_print z c r Hc).
  destruct z as [|p|p].
  - reflexivity.
  - simpl string_of_Z. destruct (string_of_pos_head p) as (c0 & t & Hs & Hc0 & _).
    rewrite Hs. simpl. apply parse_value_digit, Hc0.
  - reflexivity.
Qed.

(** *** Objects *)

Lemma print_object ms :
  print (JObj ms) = "{" ++ join "," (List.map member_text ms) ++ "}".
Proof. reflexivity. Qed.

Lemma skip_ws_not_ws c s : is_ws c = false -> skip_ws (String c s) = String c s.
Proof. intros H. simpl. rewrite H. reflexivity. Qed.

Lemma member_text_normal k v tail :
  member_text (k, v) ++ tail
  = String dquote (escape k ++ String dquote (String ":" (print v ++ tail))).
Proof.
  unfold member_text, quote. simpl. rewrite !append_assoc. reflexivity.
Qed.

Lemma parse_members_quoted f s1 :
  parse_members (S f) (String dquote s1)
  = bind (parse_chars s1) (fun key s2 =>
      match skip_ws s2 with
      | String c2 s3 =>
          if Ascii.eqb c2 ":" then
            bind (parse_value f s3) (fun v s4 =>
              match skip_ws s4 with
              | String c4 s5 =>
                  if Ascii.eqb c4 "," then
                    bind (parse_members f s5) (fun ms rest => Ok ((key, v) :: ms) rest)
                  else if Ascii.eqb c4 "}" then Ok [(key, v)] s5
                  else SyntaxError
              | EmptyString => SyntaxError
              end)
          else SyntaxError
      | EmptyString => SyntaxError
      end).
Proof. reflexivity. Qed.

Lemma parse_members_step f k v c s5 :
  parse_value f (print v ++ String c s5) = Ok v (String c s5) ->
  ends_value c ->
  parse_members (S f) (member_text (k, v) ++ String c s5)
  = if Ascii.eqb c ","
    then bind (parse_members f s5) (fun ms rest => Ok ((k, v) :: ms) rest)
    else Ok [(k, v)] s5.
Proof.
  intros Hv Hc. rewrite member_text_normal, parse_members_quoted, parse_escape.
  unfold bind at 1. rewrite skip_ws_not_ws by reflexivity.
  change (Ascii.eqb ":" ":") with true. cbv iota. rewrite Hv. unfold bind at 1.
  destruct Hc as [-> | ->]; reflexivity.
Qed.

(** The members of an object whose values read back, each followed by a
    comma or by the closing brace. *)
Lemma parse_members_print bound ms : forall fuel rest,
  ms <> [] ->
  (forall m f c r, In m ms -> (bound <= f)%nat -> ends_value c ->
     parse_value f (print (snd m) ++ String c r) = Ok (snd m) (String c r)) ->
  (bound + length ms <= fuel)%nat ->
  parse_members fuel (join "," (List.map member_text ms) ++ String "}" rest) = Ok ms rest.
Proof.
  induction ms as [|[k v] ms IH]; intros fuel rest Hne Hvals Hfuel; [congruence|].
  destruct fuel as [|f]; [simpl in Hfuel; lia|].
  assert (Hv : forall c r, ends_value c ->
             parse_value f (print v ++ String c r) = Ok v (String c r)).
  { intros c r Hc. apply (Hvals (k, v)); [left; reflexivity|simpl in Hfuel; lia|exact Hc]. }
  destruct ms as [|m' ms'].
  - simpl join. rewrite parse_members_step; [reflexivity|apply Hv; right; reflexivity|].
    right; reflexivity.
  - change (join "," (List.map member_text ((k, v) :: m' :: ms')))
      with (member_text (k, v) ++ "," ++ join "," (List.map member_text (m' :: ms'))).
    rewrite !append_assoc.
    change ("," ++ join "," (List.map member_text (m' :: ms')) ++ String "}" rest)
      with (String "," (join "," (List.map member_text (m' :: ms')) ++ String "}" rest)).
    rewrite parse_members_step; [|apply Hv; left; reflexivity|left; reflexivity].
    change (Ascii.eqb "," ",") with true. cbv iota.
    rewrite IH; [reflexivity|discriminate| |simpl in *; lia].
    intros m f0 c r Hin. apply Hvals. right. exact Hin.
Qed.

Lemma parse_value_object fuel ms rest :
  ms <> [] ->
  parse_members fuel (join "," (List.map member_text ms) ++ String "}" rest) = Ok ms rest ->
  parse_value (S fuel) (print (JObj ms) ++ rest) = Ok (JObj ms) rest.
Proof.
  intros Hne Hms. rewrite print_object.
  assert (Htext : (("{" ++ join "," (List.map member_text ms) ++ "}") ++ rest)
                  = String "{" (join "," (List.map member_text ms) ++ String "}" rest)).
  { simpl. rewrite append_assoc. reflexivity. }
  rewrite Htext.
  destruct ms as [|[k v] ms]; [congruence|].
  assert (Hhead : exists body,
            join "," (List.map member_text ((k, v) :: ms)) ++ String "}" rest
            = String dquote body).
  { destruct ms; simpl; eexists; reflexivity. }
  destruct Hhead as [body Hbody]. rewrite Hbody in *.
  change (parse_value (S fuel) (String "{" (String dquote body)))
    with (bind (parse_members fuel (String dquote body))
            (fun ms0 rest0 => Ok (JObj ms0) rest0)).
  rewrite Hms. reflexivity.
Qed.

(** *** The text of a cart *)

Lemma parse_value_price fuel v c r :
  ends_value c ->
  parse_value (S fuel) (print (json_of_value v) ++ String c r)
  = Ok (json_of_value v) (String c r).
Proof.
  intros Hc. destruct v as [|[z| | |]]; simpl json_of_value;
    try (destruct Hc as [-> | ->]; reflexivity).
  apply parse_value_number, Hc.
Qed.

Lemma parse_value_record fuel item c r :
  ends_value c ->
  parse_value (4 + fuel) (print (json_of_record item) ++ String c r)
  = Ok (json_of_record item) (String c r).
Proof.
  intros Hc. unfold json_of_record.
  apply parse_value_object; [discriminate|].
  apply (parse_members_print 1); [discriminate| |simpl; lia].
  intros m f c' r' [<-|[<-|[]]] Hf Hc'; (destruct f as [|f]; [lia|]); simpl snd.
  - apply (parse_value_number f (quantity item) c' r' Hc').
  - apply parse_value_price, Hc'.
Qed.

Lemma length_member_text m : (3 <= String.length (member_text m))%nat.
Proof.
  unfold member_text, quote. simpl. rewrite !length_append. simpl. lia.
Qed.

Lemma length_join_members ms :
  (3 * length ms <= String.length (join "," (List.map member_text ms)))%nat.
Proof.
  induction ms as [|m ms IH]; [simpl; lia|].
  destruct ms as [|m' ms'].
  - change (join "," (List.map member_text [m])) with (member_text m).
    pose proof (length_member_text m). simpl length. lia.
  - change (join "," (List.map member_text (m :: m' :: ms')))
      with (member_text m ++ "," ++ join "," (List.map member_text (m' :: ms'))).
    rewrite !length_append. pose proof (length_member_text m).
    simpl length in *. simpl String.length in *. lia.
Qed.

(** [JSON.parse(JSON.stringify(items))] gives back the value that was
    written. *)
Lemma parse_print_members es :
  parse (print (JObj (json_members es))) = Parsed (JObj (json_members es)).
Proof.
  destruct es as [|e es]; [reflexivity|].
  set (ms := json_members (e :: es)).
  assert (Hne : ms <> []) by discriminate.
  unfold parse.
  assert (Hlen : (4 + length ms <= String.length (print (JObj ms)))%nat).
  { rewrite print_object.
    change ("{" ++ join "," (List.map member_text ms) ++ "}")
      with (String "{" (join "," (List.map member_text ms) ++ "}")).
    change (String.length (String "{" (join "," (List.map member_text ms) ++ "}")))
      with (S (String.length (join "," (List.map member_text ms) ++ "}"))).
    rewrite length_append.
    pose proof (length_join_members ms) as Hj.
    change (String.length "}") with 1%nat.
    assert (1 <= length ms)%nat by (unfold ms; simpl; lia). lia. }
  assert (Hval : parse_value (S (String.length (print (JObj ms)))) (print (JObj ms) ++ "")
                 = Ok (JObj ms) "").
  { apply parse_value_object; [exact Hne|].
    apply (parse_members_print 4); [exact Hne| |lia].
    intros m f c r Hin Hf Hc. unfold ms, json_members in Hin.
    apply in_map_iff in Hin as [e' [<- _]]. simpl snd.
    replace f with (4 + (f - 4))%nat by lia. apply parse_value_record, Hc. }
  assert (Happ : forall a : string, (a ++ "")%string = a).
  { induction a as [|x a IH]; simpl; [reflexivity|]. rewrite IH. reflexivity. }
  rewrite Happ in Hval. rewrite Hval. reflexivity.
Qed.

Lemma record_of_json_of_record item :
  record_of_json (json_of_record item) = Some (read_back item).
Proof. destruct item as [q [|[z| | |]]]; reflexivity. Qed.

Lemma members_of_json_members es :
  members_of_json (json_members es)
  = Some (List.map (fun e => (fst e, read_back (snd e))) es).
Proof.
  induction es as [|[k item] es IH]; [reflexivity|].
  change (json_members ((k, item) :: es))
    with ((k, json_of_record item) :: json_members es).
  change (members_of_json ((k, json_of_record item) :: json_members es))
    with (match record_of_json (json_of_record item), members_of_json (json_members es) with
          | Some r, Some rest => Some ((k, r) :: rest)
          | _, _ => None
          end).
  rewrite record_of_json_of_record, IH. reflexivity.
Qed.

End JSONText.

(** C6, as stated, at [cart_2_then_1]: the URL lists the identifier "1"
    before "2", which was inserted first. *)
Lemma checkout_url_order_counterexample :
  List.map fst (items_object cart_2_then_1) = ["2"; "1"] /\
  getCheckoutUrl cart_2_then_1 = checkout_base ++ "/1:1,2:1" /\
  insertion_order_url cart_2_then_1 = checkout_base ++ "/2:1,1:1" /\
  getCheckoutUrl cart_2_then_1 <> insertion_order_url cart_2_then_1.
Proof. repeat split; try reflexivity. discriminate. Qed.

(** C6, amended. On an empty cart [getCheckoutUrl()] is the bare base URL.
    Otherwise it is the base URL, a slash, and the comma-joined
    [identifier:quantity] pairs of the entries in this order: first the
    identifiers that are array indices, each once, by ascending index ([I]
    lists them with their index); then the other identifiers in order of
    insertion. When no identifier is an array index this is the order of
    insertion. The quantities are integers within the exact range, which
    the URL shows digit by digit. *)
Theorem getCheckoutUrl_spec (s : State) :
  Forall (fun r => exact (quantity r)) (item_records s) ->
  (items_object s = [] -> getCheckoutUrl s = checkout_base) /\
  (items_object s <> [] ->
     getCheckoutUrl s
     = checkout_base ++ "/" ++ JSON.join "," (List.map url_pair (item_entries s))) /\
  (exists I : list (N * (string * nat)),
     item_entries s
     = List.map (fun e => (fst e, record_at s (snd e)))
         (List.map snd I ++ List.filter (fun e => negb (indexed e)) (items_object s)) /\
     Permutation (List.map snd I) (List.filter indexed (items_object s)) /\
     tagged I /\ ascending I) /\
  (Forall (fun e => array_index (fst e) = None) (items_object s) ->
     getCheckoutUrl s = insertion_order_url s).
Proof.
  intros _.
  split; [apply getCheckoutUrl_empty|]. split; [apply getCheckoutUrl_nonempty|].
  split.
  { exists (Obj.index_entries (items_object s)).
    split; [unfold item_entries, Obj.entries; rewrite named_entries_filter; reflexivity|].
    split; [apply index_entries_perm|].
    split; [apply index_entries_tagged|apply index_entries_ascending]. }
  intros Hnamed. unfold insertion_order_url.
  destruct (items_object s) as [|e o] eqn:Ho.
  - apply getCheckoutUrl_empty. exact Ho.
  - rewrite getCheckoutUrl_nonempty by (rewrite Ho; discriminate).
    rewrite item_entries_named by (rewrite Ho; exact Hnamed).
    rewrite Ho, List.map_map. reflexivity.
Qed.

Lemma getCheckoutUrl_spec_witness :
  Forall (fun r => exact (quantity r)) (item_records cart_v1_then_v2) /\
  items_object cart_v1_then_v2 <> [] /\
  Forall (fun e => array_index (fst e) = None) (items_object cart_v1_then_v2) /\
  getCheckoutUrl cart_v1_then_v2 = checkout_base ++ "/v1:1,v2:1" /\
  getCheckoutUrl cart_v1_then_v2 = insertion_order_url cart_v1_then_v2.
Proof.
  assert (Hexact : Forall (fun r => exact (quantity r)) (item_records cart_v1_then_v2)).
  { assert (E : item_records cart_v1_then_v2
                = [{| quantity := 1; price := VNum (Fin 0) |};
                   {| quantity := 1; price := VNum (Fin 0) |}]) by (vm_compute; reflexivity).
    rewrite E. repeat constructor; vm_compute; discriminate. }
  assert (Hne : items_object cart_v1_then_v2 <> []) by discriminate.
  assert (Hnamed : Forall (fun e => array_index (fst e) = None)
                     (items_object cart_v1_then_v2))
    by (repeat constructor).
  split; [exact Hexact|]. split; [exact Hne|]. split; [exact Hnamed|]. split.
  - exact (proj1 (proj2 (getCheckoutUrl_spec cart_v1_then_v2 Hexact)) Hne).
  - exact (proj2 (proj2 (proj2 (getCheckoutUrl_spec cart_v1_then_v2 Hexact))) Hnamed).
Defined.

Example getCheckoutUrl_empty_cart : getCheckoutUrl empty_cart = checkout_base.
Proof. reflexivity. Qed.


(** ** Round trip through the storage *)

Section RoundTrip.

Lemma own_notin {A} (o : list (string * A)) k :
  k ∉ List.map fst o -> Obj.own o k = None.
Proof.
  induction o as [|[k' l] o IH]; simpl; [reflexivity|].
  intros Hk. apply not_elem_of_cons in Hk as [Hne Hk].
  destruct (String.eqb_spec k' k); [congruence|]. apply IH, Hk.
Qed.

Lemma build_items_from (ms : list (string * LineItem)) : forall o0 rs0,
  NoDup (List.map fst o0 ++ List.map fst ms) ->
  fold_left
    (fun acc m =>
       (Obj.define (fst acc) (fst m) (length (snd acc)), (snd acc ++ [snd m])%list))
    ms (o0, rs0)
  = ((o0 ++ combine (List.map fst ms) (seq (length rs0) (length ms)))%list,
     (rs0 ++ List.map snd ms)%list).
Proof.
  induction ms as [|[k r] ms IH]; intros o0 rs0 Hnd; simpl.
  - rewrite !app_nil_r. reflexivity.
  - assert (Hk : k ∉ List.map fst o0).
    { apply NoDup_app in Hnd as (_ & Hdisj & _). intros Hin.
      apply (Hdisj k Hin). left. }
    rewrite (define_absent _ _ _ (own_notin o0 k Hk)).
    rewrite IH.
    + rewrite length_app, <- !app_assoc. simpl.
      replace (length rs0 + 1)%nat with (S (length rs0)) by lia. reflexivity.
    + rewrite List.map_app, <- app_assoc. simpl. exact Hnd.
Qed.

Lemma build_items_spec (ms : list (string * LineItem)) :
  NoDup (List.map fst ms) ->
  build_items ms = (combine (List.map fst ms) (seq 0 (length ms)), List.map snd ms).
Proof.
  intros Hnd. unfold build_items. rewrite (build_items_from ms [] []); [reflexivity|].
  exact Hnd.
Qed.

Lemma relabel_combine (d : LineItem) (ms : list (string * LineItem)) : forall pre,
  List.map (relabel (fun i => default d ((pre ++ List.map snd ms)%list !! i)))
    (combine (List.map fst ms) (seq (length pre) (length ms)))
  = ms.
Proof.
  induction ms as [|[k r] ms IH]; intros pre; simpl; [reflexivity|].
  unfold relabel at 1. simpl. rewrite lookup_app_r by lia.
  replace (length pre - length pre)%nat with 0%nat by lia. simpl. f_equal.
  specialize (IH (pre ++ [r])%list). rewrite length_app in IH. simpl in IH.
  replace (length pre + 1)%nat with (S (length pre)) in IH by lia.
  rewrite <- app_assoc in IH. exact IH.
Qed.

Lemma fst_combine_seq {A} (ks : list A) : forall a,
  List.map fst (combine ks (seq a (length ks))) = ks.
Proof. induction ks as [|k ks IH]; intros a; simpl; [reflexivity|]. rewrite IH. reflexivity. Qed.

Lemma snd_combine_seq {A} (ks : list A) : forall a,
  List.map snd (combine ks (seq a (length ks))) = seq a (length ks).
Proof. induction ks as [|k ks IH]; intros a; simpl; [reflexivity|]. rewrite IH. reflexivity. Qed.

Lemma item_entries_relabel s :
  item_entries s = Obj.entries (List.map (relabel (record_at s)) (items_object s)).
Proof. rewrite entries_relabel. reflexivity. Qed.

Lemma entries_keys_NoDup {A} (o : list (string * A)) :
  NoDup (List.map fst o) -> NoDup (List.map fst (Obj.entries o)).
Proof.
  intros Hnd.
  assert (Hp : Permutation (List.map fst (Obj.entries o)) (List.map fst o))
    by (apply Permutation_map, entries_perm).
  rewrite Hp. exact Hnd.
Qed.

(** The cart a new page constructs from the text saved by [s]: it holds
    the entries of [s] as [JSON.parse] reads them back. *)
Lemma reload_entries s :
  wf s ->
  exists s', reload s = Some s' /\ wf s' /\
    item_entries s' = List.map (relabel read_back) (item_entries s).
Proof.
  intros Hwf.
  set (ms := List.map (relabel read_back) (item_entries s)).
  assert (Hkeys : NoDup (List.map fst ms)).
  { unfold ms. rewrite List.map_map. simpl.
    unfold item_entries. rewrite List.map_map. simpl.
    apply entries_keys_NoDup, (wf_keys s Hwf). }
  assert (Hload : loadFromStorage (saved_storage s) = (Items ms, [])).
  { assert (Hparse : JSON.parse (stringify_items s)
                     = JSON.Parsed (JSON.JObj (json_members (item_entries s))))
      by apply parse_print_members.
    assert (Hne : String.eqb (stringify_items s) EmptyString = false) by reflexivity.
    unfold loadFromStorage, saved_storage, getItem.
    cbv beta iota delta [available entry]. rewrite Hne, Hparse.
    cbv beta iota delta [items_of_json]. rewrite members_of_json_members. reflexivity. }
  unfold reload, new_ShoppingCart. rewrite Hload, (build_items_spec ms Hkeys).
  eexists. split; [reflexivity|].
  replace (length ms) with (length (List.map fst ms)) by apply length_map.
  set (o' := combine (List.map fst ms) (seq 0 (length (List.map fst ms)))).
  match goal with |- wf ?x /\ _ => set (s' := x) end.
  assert (Hrel : List.map (relabel (record_at s')) (items_object s') = ms).
  { unfold record_at, items_object, object_at, s'. simpl.
    unfold o'. rewrite length_map. exact (relabel_combine _ ms []). }
  split.
  - constructor.
    + simpl. lia.
    + change (items_object s') with o'. unfold o'.
      rewrite fst_combine_seq. exact Hkeys.
    + change (items_object s') with o'. unfold o'.
      rewrite snd_combine_seq. apply NoDup_seq.
    + change (items_object s') with o'. unfold o', s'. simpl.
      apply List.Forall_forall. intros [k i] Hin. simpl.
      apply (in_map snd) in Hin. rewrite snd_combine_seq in Hin. simpl in Hin.
      apply in_seq in Hin. rewrite !length_map in *. lia.
  - rewrite item_entries_relabel, Hrel. unfold ms.
    rewrite item_entries_relabel, <- entries_relabel. apply entries_idempotent.
Qed.


(** What [getAllItems()] returns holds the entries of the cart. *)
Lemma getAllItems_entries s :
  (items s < length (objects s))%nat ->
  entries_of (snd (getAllItems s)) (fst (getAllItems s)) = item_entries s.
Proof.
  intros Hlt. destruct (getAllItems_spec s Hlt) as (_ & Hobj & _ & Hrec & _).
  unfold entries_of. rewrite Hobj. unfold Obj.spread. rewrite entries_idempotent.
  unfold item_entries, record_at. rewrite Hrec. reflexivity.
Qed.

End RoundTrip.

(** C7, as stated, at a write into a nested record: the object returned by
    [getAllItems()] refers to the very record the cart holds for "v1", so
    [copy["v1"].quantity = 99] changes what the cart reports. *)
Lemma getAllItems_nested_write_counterexample :
  getItemQuantity "v1" cart_v1 = Fin 1 /\
  getItemQuantity "v1"
    (client_apply (fst (getAllItems cart_v1)) (snd (getAllItems cart_v1))
       (SetQuantity "v1" 99)) = Fin 99 /\
  observe (client_apply (fst (getAllItems cart_v1)) (snd (getAllItems cart_v1))
             (SetQuantity "v1" 99))
  <> observe cart_v1.
Proof. repeat split; try reflexivity. discriminate. Qed.

(** C7, amended. [getAllItems()] returns a new object, distinct from
    [this.items], whose entries are the entries of the cart, in the same
    order. Adding, replacing and deleting properties of that object, in any
    number, leaves [this.items] and the result of every accessor unchanged.
    (The records the properties refer to are those of the cart.) *)
Theorem getAllItems_top_level_copy (s : State) (ws : list client_write) :
  wf s -> Forall (fun w => nested w = false) ws ->
  let copy := fst (getAllItems s) in
  let s' := fold_left (client_apply copy) ws (snd (getAllItems s)) in
  copy <> items s /\
  object_at (snd (getAllItems s)) copy = Obj.spread (items_object s) /\
  entries_of (snd (getAllItems s)) copy = item_entries s /\
  items s' = items s /\
  items_object s' = items_object s /\
  observe s' = observe s /\
  forall k, getItemQuantity k s' = getItemQuantity k s.
Proof.
  intros Hwf Hws copy s'.
  destruct (getAllItems_spec s (wf_items s Hwf)) as (Hne & Hobj & Hitems & Hrec & Hext).
  fold copy in Hne, Hobj.
  assert (Hext' : extends s s' /\ items s' = items s).
  { apply client_writes_extend; auto. }
  destruct Hext' as [Hext' Hitems'].
  split; [exact Hne|]. split; [exact Hobj|].
  split; [exact (getAllItems_entries s (wf_items s Hwf))|]. split; [exact Hitems'|].
  split; [exact (proj1 Hext')|]. split.
  - apply extends_observe; assumption.
  - intros k. apply extends_getItemQuantity; assumption.
Qed.

Lemma getAllItems_top_level_copy_witness :
  wf cart_v1 /\
  Forall (fun w => nested w = false)
    [SetProperty "v1" {| quantity := 99; price := VNull |}; DeleteProperty "v1";
     SetProperty "extra" {| quantity := 7; price := VNum (Fin 3) |}] /\
  entries_of (snd (getAllItems cart_v1)) (fst (getAllItems cart_v1))
  = item_entries cart_v1 /\
  observe (fold_left (client_apply (fst (getAllItems cart_v1)))
             [SetProperty "v1" {| quantity := 99; price := VNull |}; DeleteProperty "v1";
              SetProperty "extra" {| quantity := 7; price := VNum (Fin 3) |}]
             (snd (getAllItems cart_v1)))
  = observe cart_v1.
Proof.
  assert (Hwf : wf cart_v1) by (apply wf_run, wf_empty_cart).
  assert (Hws : Forall (fun w => nested w = false)
            [SetProperty "v1" {| quantity := 99; price := VNull |}; DeleteProperty "v1";
             SetProperty "extra" {| quantity := 7; price := VNum (Fin 3) |}])
    by (repeat constructor).
  split; [exact Hwf|]. split; [exact Hws|]. split.
  - exact (proj1 (proj2 (proj2 (getAllItems_top_level_copy cart_v1 _ Hwf Hws)))).
  - exact (proj1 (proj2 (proj2 (proj2 (proj2 (proj2
             (getAllItems_top_level_copy cart_v1 _ Hwf Hws))))))).
Defined.








Example reload_sample_cart :
  option_map item_entries (reload sample_cart)
  = Some [("v1", {| quantity := 2; price := VNum (Fin 10) |});
          ("v2", {| quantity := 1; price := VNum (Fin 0) |})].
Proof. vm_compute. reflexivity. Qed.

(** ** The observer set *)

Section Observers.

Lemma existsb_lid_false (fs : list Listener) n :
  existsb (fun g => Nat.eqb (lid g) n) fs = false -> n ∉ List.map lid fs.
Proof.
  induction fs as [|g fs IH]; simpl; intros H.
  - apply not_elem_of_nil.
  - apply orb_false_iff in H as [Hg Hfs]. apply Nat.eqb_neq in Hg.
    apply not_elem_of_cons. split; [congruence|apply IH, Hfs].
Qed.

(** [subscribe] keeps the observers distinct: a function already in the set
    is not added again, and what is not a function is ignored. *)
Lemma subscribe_distinct s observer :
  NoDup (List.map lid (observers s)) ->
  NoDup (List.map lid (observers (subscribe observer s))).
Proof.
  intros Hnd. destruct observer as [f|]; simpl; [|exact Hnd].
  destruct (existsb _ _) eqn:E; [exact Hnd|]. simpl.
  rewrite List.map_app. simpl. apply NoDup_app. split; [exact Hnd|]. split.
  - intros n Hn Hin. apply list_elem_of_In in Hin. destruct Hin as [<-|[]].
    exact (existsb_lid_false _ _ E Hn).
  - apply NoDup_singleton.
Qed.

Lemma subscribe_not_callable s : subscribe None s = s.
Proof. reflexivity. Qed.

Lemma unsubscribe_distinct s observer :
  NoDup (List.map lid (observers s)) ->
  NoDup (List.map lid (observers (unsubscribe observer s))).
Proof.
  simpl. generalize (observers s). intros fs Hnd.
  induction fs as [|g fs IH]; simpl; [constructor|].
  apply NoDup_cons in Hnd as [Hg Hfs].
  destruct (negb (Nat.eqb (lid g) (lid observer))); simpl; [|apply IH, Hfs].
  apply NoDup_cons. split; [|apply IH, Hfs].
  intros Hin. apply Hg. apply list_elem_of_In in Hin. apply list_elem_of_In.
  apply in_map_iff in Hin as [h [Hh Hin]]. apply filter_In in Hin as [Hin _].
  rewrite <- Hh. apply in_map. exact Hin.
Qed.

(** Removing an observer that is not subscribed changes nothing. *)
Lemma unsubscribe_absent s observer :
  lid observer ∉ List.map lid (observers s) -> unsubscribe observer s = with_observers (observers s) s.
Proof.
  intros Hn. unfold unsubscribe. f_equal.
  induction (observers s) as [|g fs IH]; simpl; [reflexivity|].
  simpl in Hn. apply not_elem_of_cons in Hn as [Hne Hn].
  destruct (Nat.eqb_spec (lid g) (lid observer)); [congruence|]. simpl.
  rewrite (IH Hn). reflexivity.
Qed.

End Observers.


(** * Further properties *)

(** ** One identifier at a time *)

Section OtherEntries.





End OtherEntries.


(** ** Quantities reported and returned *)

Section Quantities.




End Quantities.



(** ** Totals *)

Section Totals.

Lemma fold_left_sum (g : LineItem -> Z) rs : forall a,
  fold_left (fun total item => total + g item) rs a = a + sum_over g rs.
Proof.
  induction rs as [|r rs IH]; intros a; simpl; [lia|]. rewrite IH. lia.
Qed.


Lemma sum_over_perm g rs rs' : Permutation rs rs' -> sum_over g rs = sum_over g rs'.
Proof. induction 1; simpl; lia. Qed.

Lemma item_values_perm s : Permutation (item_values s) (item_records s).
Proof. unfold item_values, item_records. apply Permutation_map, entries_perm. Qed.

Lemma getTotalQuantity_sum s : getTotalQuantity s = sum_over quantity (item_records s).
Proof.
  unfold getTotalQuantity. rewrite fold_left_sum.
  rewrite (sum_over_perm _ _ _ (item_values_perm s)). lia.
Qed.







End Totals.


Section EmptyCart.

Lemma sum_quantities_lower_bound s :
  wf s -> quantities_positive s ->
  Z.of_nat (length (items_object s)) <= sum_over quantity (item_records s).
Proof.
  intros Hwf Hinv. unfold item_records.
  assert (Hall : forall e, In e (items_object s) -> 1 <= quantity (record_at s (snd e))).
  { intros [k l] Hin. apply (Hinv k l), In_own; [exact (wf_keys s Hwf)|exact Hin]. }
  induction (items_object s) as [|e o IH]; simpl; [lia|].
  pose proof (Hall e (or_introl eq_refl)) as He.
  assert (Ho : forall e', In e' o -> 1 <= quantity (record_at s (snd e')))
    by (intros e' He'; apply Hall; right; exact He').
  specialize (IH Ho). simpl in *. lia.
Qed.

Lemma quantity_of_nothing s k : items_object s = [] -> getItemQuantity k s = Fin 0.
Proof.
  intros Hio. unfold getItemQuantity, Get. rewrite Hio. cbn [Obj.own].
  destruct (mem_string _ _); [reflexivity|]. destruct (_ && _); reflexivity.
Qed.

End EmptyCart.

(** X5. In a well-formed state that satisfies the quantity invariant,
    [isEmpty()] is true exactly when [getTotalQuantity()] is 0, and exactly
    when [getItemQuantity] is 0 for every identifier; the total quantity is
    at least the number of identifiers present. *)
Theorem isEmpty_iff_total_quantity_zero (s : State) :
  wf s -> quantities_positive s ->
  (isEmpty s = true <-> getTotalQuantity s = 0) /\
  (isEmpty s = true <-> forall k, getItemQuantity k s = Fin 0) /\
  Z.of_nat (length (items_object s)) <= getTotalQuantity s.
Proof.
  intros Hwf Hinv. pose proof (sum_quantities_lower_bound s Hwf Hinv) as Hlow.
  rewrite getTotalQuantity_sum. split; [|split; [|exact Hlow]].
  - rewrite isEmpty_spec. split.
    + intros Hio. unfold item_records. rewrite Hio. reflexivity.
    + intros Hz. destruct (items_object s); [reflexivity|]. simpl in Hlow. lia.
  - rewrite isEmpty_spec. split.
    + intros Hio k. apply quantity_of_nothing, Hio.
    + intros Hall. destruct (items_object s) as [|[k l] o] eqn:Hio; [reflexivity|].
      assert (Hown : Obj.own (items_object s) k = Some l)
        by (rewrite Hio; simpl; rewrite String.eqb_refl; reflexivity).
      pose proof (Hinv k l Hown) as Hq. specialize (Hall k).
      unfold getItemQuantity in Hall. rewrite (Get_own s k l Hown) in Hall.
      injection Hall as Hall. lia.
Qed.

Section TotalPrice.

Lemma line_price r :
  storable (price r) = true ->
  mul (Fin (quantity r)) (or_zero (price r)) = Fin (line_total r).
Proof.
  destruct r as [q [|[z| | |]]]; simpl; intros H; try discriminate H;
    unfold or_zero, line_total; simpl.
  - f_equal; lia.
  - destruct (Z.eqb_spec z 0) as [->|Hz]; simpl; f_equal; lia.
Qed.

Lemma fold_left_prices rs : forall a,
  Forall (fun r => storable (price r) = true) rs ->
  fold_left
    (fun total item => add total (mul (Fin (quantity item)) (or_zero (price item))))
    rs (Fin a)
  = Fin (a + sum_over line_total rs).
Proof.
  induction rs as [|r rs IH]; intros a Hall; cbn [fold_left sum_over fold_right].
  - f_equal. lia.
  - apply Forall_cons in Hall as [Hr Hrs].
    rewrite (line_price r Hr). cbn [add]. rewrite (IH _ Hrs). f_equal.
    fold (sum_over line_total rs). lia.
Qed.

Lemma getTotalPrice_sum s :
  prices_storable s -> getTotalPrice s = Fin (sum_over line_total (item_records s)).
Proof.
  intros Hall. unfold getTotalPrice.
  assert (Hv : Forall (fun r => storable (price r) = true) (item_values s)).
  { apply List.Forall_forall. intros r Hr.
    apply (Permutation_in _ (item_values_perm s)) in Hr.
    exact (proj1 (List.Forall_forall _ _) Hall r Hr). }
  rewrite (fold_left_prices _ 0 Hv).
  rewrite (sum_over_perm _ _ _ (item_values_perm s)). reflexivity.
Qed.





End TotalPrice.

(** X6. When every price held by the cart is [null] or an integer and the
    quantities, the prices, the products and the partial sums are within the
    exact range, [getTotalPrice()] is the integer sum, over the entries, of
    the quantity times the price, a [null] price counting as 0. *)
Theorem getTotalPrice_is_sum (s : State) :
  prices_storable s -> exact_totals s ->
  getTotalPrice s = Fin (sum_over line_total (item_records s)).
Proof. intros Hall _. exact (getTotalPrice_sum s Hall). Qed.


(** ** Emptying the cart *)

Section Clearing.

Lemma items_object_cleared s : items_object (clearCart s) = [].
Proof.
  rewrite clearCart_spec. destruct (wf_cleared s) as [Hwf Hio].
  destruct (publish_spec _ (wf_items _ Hwf)) as (_ & _ & _ & _ & _ & _ & _ & Hio').
  rewrite Hio'. exact Hio.
Qed.

Lemma setItem_calls_cleared s :
  setItem_calls (clearCart s) = (setItem_calls s ++ ["{}"])%list.
Proof.
  rewrite clearCart_spec. destruct (wf_cleared s) as [Hwf Hio].
  destruct (publish_spec _ (wf_items _ Hwf)) as (_ & _ & _ & _ & _ & Hsc & _).
  rewrite Hsc. simpl. f_equal. f_equal.
  unfold stringify_items, json_of_items, item_entries. rewrite Hio. reflexivity.
Qed.

End Clearing.

(** X8. After [clearCart()], whatever the cart held: [isEmpty()] is true,
    there is no entry, the quantity of every identifier and both totals are
    0, the checkout URL is the bare base URL, and the text handed to the
    storage is that of the empty object. *)
Theorem clearCart_empties (s : State) :
  isEmpty (clearCart s) = true /\
  item_entries (clearCart s) = [] /\
  (forall k, getItemQuantity k (clearCart s) = Fin 0) /\
  getTotalQuantity (clearCart s) = 0 /\
  getTotalPrice (clearCart s) = Fin 0 /\
  getCheckoutUrl (clearCart s) = checkout_base /\
  setItem_calls (clearCart s) = (setItem_calls s ++ ["{}"])%list.
Proof.
  pose proof (items_object_cleared s) as Hio.
  split; [apply isEmpty_spec, Hio|].
  split; [unfold item_entries; rewrite Hio; reflexivity|].
  split; [intros k; apply quantity_of_nothing, Hio|].
  split; [unfold getTotalQuantity, item_values; rewrite Hio; reflexivity|].
  split; [unfold getTotalPrice, item_values; rewrite Hio; reflexivity|].
  split; [apply getCheckoutUrl_empty, Hio|apply setItem_calls_cleared].
Qed.

(** ** Adding, then removing *)

Section AddThenRemove.



End AddThenRemove.


(** ** The stored entry follows the cart *)

Section Synced.








End Synced.


(** ** Removing again and again *)

Section RepeatedRemoval.


End RepeatedRemoval.


(** ** Subscribing and unsubscribing *)

Section ObserverSet.

Lemma existsb_lid_true (fs : list Listener) n :
  existsb (fun g => Nat.eqb (lid g) n) fs = true <-> In n (List.map lid fs).
Proof.
  induction fs as [|g fs IH]; simpl; [split; [discriminate|tauto]|].
  rewrite orb_true_iff, IH, Nat.eqb_eq. reflexivity.
Qed.

Lemma subscribed s f : In (lid f) (List.map lid (observers (subscribe (Some f) s))).
Proof.
  simpl. destruct (existsb _ _) eqn:E.
  - apply existsb_lid_true, E.
  - simpl. rewrite List.map_app, in_app_iff. right. left. reflexivity.
Qed.

Lemma subscribe_twice s f : subscribe (Some f) (subscribe (Some f) s) = subscribe (Some f) s.
Proof.
  pose proof (subscribed s f) as Hin. apply existsb_lid_true in Hin.
  unfold subscribe at 1. rewrite Hin. reflexivity.
Qed.

Lemma filter_absent (fs : list Listener) n :
  ~ In n (List.map lid fs) ->
  List.filter (fun g => negb (Nat.eqb (lid g) n)) fs = fs.
Proof.
  induction fs as [|g fs IH]; simpl; [reflexivity|]. intros Hn.
  destruct (Nat.eqb_spec (lid g) n) as [Heq|Hne]; [tauto|]. simpl.
  rewrite IH by tauto. reflexivity.
Qed.

Lemma unsubscribe_subscribe s f :
  ~ In (lid f) (List.map lid (observers s)) ->
  unsubscribe f (subscribe (Some f) s) = s.
Proof.
  intros Hn. unfold subscribe.
  destruct (existsb _ _) eqn:E; [apply existsb_lid_true in E; tauto|].
  unfold unsubscribe. simpl. rewrite List.filter_app. simpl.
  rewrite Nat.eqb_refl. simpl. rewrite app_nil_r, (filter_absent _ _ Hn).
  destruct s; reflexivity.
Qed.

Lemma unsubscribed s f : ~ In (lid f) (List.map lid (observers (unsubscribe f s))).
Proof.
  simpl. intros Hin. apply in_map_iff in Hin as [g [Hg Hin]].
  apply filter_In in Hin as [_ Hne]. rewrite Hg, Nat.eqb_refl in Hne. discriminate.
Qed.

Lemma others_stay s f g :
  lid g <> lid f ->
  (In g (observers (unsubscribe f s)) <-> In g (observers s)) /\
  (In g (observers (subscribe (Some f) s)) <-> In g (observers s)).
Proof.
  intros Hne. split.
  - simpl. rewrite filter_In. apply Nat.eqb_neq in Hne. rewrite Hne. simpl. tauto.
  - simpl. destruct (existsb _ _); [tauto|]. simpl. rewrite in_app_iff. simpl.
    split; [|tauto]. intros [H|[H|[]]]; [exact H|]. subst g. congruence.
Qed.

End ObserverSet.

(** X12. The observers form a set. Subscribing a function twice is
    subscribing it once; after [subscribe] the function is a member and
    after [unsubscribe] it is not; unsubscribing a function just subscribed,
    which was not a member before, gives back the state before; neither
    call adds or drops any other function; and what is not a function is
    ignored. *)
Theorem observers_form_a_set (s : State) (f : Listener) :
  subscribe (Some f) (subscribe (Some f) s) = subscribe (Some f) s /\
  In (lid f) (List.map lid (observers (subscribe (Some f) s))) /\
  ~ In (lid f) (List.map lid (observers (unsubscribe f s))) /\
  (~ In (lid f) (List.map lid (observers s)) ->
   unsubscribe f (subscribe (Some f) s) = s) /\
  (forall g, lid g <> lid f ->
     (In g (observers (unsubscribe f s)) <-> In g (observers s)) /\
     (In g (observers (subscribe (Some f) s)) <-> In g (observers s))) /\
  subscribe None s = s.
Proof.
  split; [apply subscribe_twice|]. split; [apply subscribed|].
  split; [apply unsubscribed|]. split; [apply unsubscribe_subscribe|].
  split; [intros g; apply others_stay|reflexivity].
Qed.

(** ** Who is called *)

Section WhoIsCalled.

Lemma invocations_app n xs ys :
  invocations n (xs ++ ys) = (invocations n xs + invocations n ys)%nat.
Proof. unfold invocations. rewrite List.filter_app, length_app. reflexivity. Qed.

Lemma publish_calls s :
  (items s < length (objects s))%nat -> passive s ->
  observers (notifyObservers (saveToStorage s)) = observers s /\
  forall n, invocations n (calls (notifyObservers (saveToStorage s)))
            = (invocations n (calls s)
               + invocations n (List.map (fun f => (lid f, cartData_of s)) (observers s)))%nat.
Proof.
  intros Hlt Hpassive.
  destruct (publish_spec s Hlt) as (_ & _ & _ & Hob & _ & _ & Hc & _).
  split; [exact (Hob Hpassive)|]. intros n. rewrite (Hc Hpassive). apply invocations_app.
Qed.

(** A call invokes the observers subscribed and no other function. *)
Lemma step_calls s c n :
  wf s -> passive s -> ~ In n (List.map lid (observers s)) ->
  observers (step s c) = observers s /\
  invocations n (calls (step s c)) = invocations n (calls s).
Proof.
  intros Hwf Hpassive Hn. pose proof (wf_items s Hwf) as Hlt.
  assert (Hpub : forall s0, (items s0 < length (objects s0))%nat ->
            observers s0 = observers s -> calls s0 = calls s ->
            observers (notifyObservers (saveToStorage s0)) = observers s /\
            invocations n (calls (notifyObservers (saveToStorage s0)))
            = invocations n (calls s)).
  { intros s0 Hlt0 Hob Hc.
    assert (Hpassive0 : passive s0) by (unfold passive; rewrite Hob; exact Hpassive).
    destruct (publish_calls s0 Hlt0 Hpassive0) as [Hob' Hinv].
    rewrite Hob', Hinv, Hob, Hc. split; [reflexivity|].
    rewrite invocations_absent; [lia|].
    intros Hin. apply Hn. apply list_elem_of_In. exact Hin. }
  destruct c as [variantId price_arg|variantId|]; cbn [step].
  - destruct (falsy_id variantId) eqn:Hf.
    { unfold addItem. rewrite Hf. split; reflexivity. }
    destruct variantId as [k|]; [|discriminate].
    assert (Hk : k <> EmptyString) by (simpl in Hf; apply String.eqb_neq; exact Hf).
    destruct (Get s k) eqn:Hget.
    + apply Get_Own_inv in Hget. rewrite (addItem_present s k l _ Hwf Hk Hget).
      apply Hpub; [exact Hlt|reflexivity|reflexivity].
    + rewrite (addItem_inherited s k _ Hk Hget).
      destruct (_ && _); apply Hpub; auto.
    + unfold addItem. rewrite Hf. simpl key_of. rewrite Hget. simpl. rewrite Hget.
      split; reflexivity.
    + rewrite (addItem_absent s k _ Hwf Hk Hget).
      apply Hpub; [simpl; rewrite length_insert; exact Hlt|reflexivity|reflexivity].
  - destruct (falsy_id variantId) eqn:Hf.
    { unfold removeItem. rewrite Hf. split; reflexivity. }
    destruct variantId as [k|]; [|discriminate].
    assert (Hk : k <> EmptyString) by (simpl in Hf; apply String.eqb_neq; exact Hf).
    destruct (Get s k) eqn:Hget.
    + apply Get_Own_inv in Hget. rewrite (removeItem_present s k l Hwf Hk Hget).
      destruct (_ <=? 0); apply Hpub; try reflexivity;
        simpl; rewrite ?length_insert; exact Hlt.
    + rewrite (removeItem_inherited s k Hk Hget). apply Hpub; auto.
    + unfold removeItem. rewrite Hf. simpl key_of. rewrite Hget. split; reflexivity.
    + rewrite (removeItem_absent s k Hget). split; reflexivity.
  - rewrite clearCart_spec. destruct (wf_cleared s) as [Hwf' _].
    apply Hpub; [exact (wf_items _ Hwf')|reflexivity|reflexivity].
Qed.

Lemma run_calls cs n : forall s,
  wf s -> passive s -> ~ In n (List.map lid (observers s)) ->
  invocations n (calls (run cs s)) = invocations n (calls s).
Proof.
  induction cs as [|c cs IH]; intros s Hwf Hpassive Hn; [reflexivity|].
  destruct (step_calls s c n Hwf Hpassive Hn) as [Hob Hc].
  change (run (c :: cs) s) with (run cs (step s c)).
  rewrite IH; [exact Hc|apply wf_step, Hwf| |rewrite Hob; exact Hn].
  unfold passive. rewrite Hob. exact Hpassive.
Qed.

Lemma wf_unsubscribe s f : wf s -> wf (unsubscribe f s).
Proof. intros [H1 H2 H3 H4]. split; assumption. Qed.

Lemma passive_unsubscribe s f : passive s -> passive (unsubscribe f s).
Proof.
  unfold passive. simpl. intros H. apply List.Forall_forall. intros g Hg.
  apply filter_In in Hg as [Hg _]. exact (proj1 (List.Forall_forall _ _) H g Hg).
Qed.

End WhoIsCalled.

(** An observer that subscribes another function while it is notified gets
    that function invoked in the same round. *)
Example subscribing_observer_example :
  List.map fst
    (calls (snd (addItem (Some "v1") None
                   (subscribe
                      (Some {| lid := 1; throws := fun _ _ _ => false;
                               during := [Subscribes (quiet 2)] |})
                      empty_cart))))
  = [1; 2]%nat.
Proof. reflexivity. Qed.

(** X13. When no subscribed observer calls [subscribe] or [unsubscribe]
    while it is notified, only the subscribed functions are called: through
    any sequence of [addItem], [removeItem] and [clearCart], a function that
    is not subscribed is never invoked; in particular a function is not
    invoked any more once [unsubscribe] has removed it. *)
Theorem unsubscribed_observer_not_called (s : State) (f : Listener) (cs : list call) :
  wf s -> passive s ->
  (~ In (lid f) (List.map lid (observers s)) ->
   invocations (lid f) (calls (run cs s)) = invocations (lid f) (calls s)) /\
  invocations (lid f) (calls (run cs (unsubscribe f s))) = invocations (lid f) (calls s).
Proof.
  intros Hwf Hpassive. split.
  - apply run_calls; assumption.
  - rewrite (run_calls cs (lid f) (unsubscribe f s)
               (wf_unsubscribe s f Hwf) (passive_unsubscribe s f Hpassive)
               (unsubscribed s f)).
    reflexivity.
Qed.

(** ** Construction *)

Section Construction.

Lemma define_keys (o : list (string * nat)) k l :
  List.map fst (Obj.define o k l)
  = match Obj.own o k with
    | Some _ => List.map fst o
    | None => (List.map fst o ++ [k])%list
    end.
Proof.
  induction o as [|[k' l'] o IH]; simpl; [reflexivity|].
  destruct (String.eqb_spec k' k) as [->|Hne]; simpl; [reflexivity|].
  rewrite IH. destruct (Obj.own o k); reflexivity.
Qed.

Lemma define_In (o : list (string * nat)) k l e :
  In e (Obj.define o k l) -> e = (k, l) \/ In e o.
Proof.
  induction o as [|[k' l'] o IH]; simpl; [intuition congruence|].
  destruct (String.eqb k' k); simpl; [intuition congruence|].
  intros [H|H]; [tauto|]. destruct (IH H); tauto.
Qed.

Lemma define_locs_NoDup (o : list (string * nat)) k l :
  NoDup (List.map snd o) -> l ∉ List.map snd o ->
  NoDup (List.map snd (Obj.define o k l)).
Proof.
  induction o as [|[k' l'] o IH]; simpl; intros Hnd Hl.
  - apply NoDup_singleton.
  - apply NoDup_cons in Hnd as [Hl' Hnd]. apply not_elem_of_cons in Hl as [Hne Hl].
    destruct (String.eqb k' k); simpl; apply NoDup_cons.
    + split; [exact Hl|exact Hnd].
    + split; [|apply IH; assumption].
      intros Hin. apply list_elem_of_In, in_map_iff in Hin as [e [He Hin]].
      destruct (define_In _ _ _ _ Hin) as [->|Hin']; [simpl in He; congruence|].
      apply Hl'. apply list_elem_of_In, in_map_iff. exists e. split; assumption.
Qed.

Lemma define_keys_NoDup (o : list (string * nat)) k l :
  NoDup (List.map fst o) -> NoDup (List.map fst (Obj.define o k l)).
Proof.
  intros Hnd. rewrite define_keys.
  destruct (Obj.own o k) eqn:E; [exact Hnd|].
  apply NoDup_app. split; [exact Hnd|]. split; [|apply NoDup_singleton].
  intros k' Hk' Hin. apply list_elem_of_In in Hin. destruct Hin as [<-|[]].
  apply list_elem_of_In in Hk'. exact (own_None_notin _ _ E Hk').
Qed.

Lemma built_step pre acc m :
  built pre acc ->
  built (pre ++ [m])
    (Obj.define (fst acc) (fst m) (length (snd acc)), (snd acc ++ [snd m])%list).
Proof.
  destruct acc as [o rs]. destruct m as [k r]. simpl.
  intros (Hk & Hl & Ha & Hv). simpl in Hk, Hl, Ha, Hv. unfold built. simpl.
  assert (Hfresh : length rs ∉ List.map snd o).
  { intros Hin. apply list_elem_of_In, in_map_iff in Hin as [e [He Hin]].
    pose proof (proj1 (List.Forall_forall _ _) Ha e Hin) as Hlt.
    simpl in Hlt. lia. }
  split; [apply define_keys_NoDup, Hk|].
  split; [apply define_locs_NoDup; assumption|]. split.
  - apply List.Forall_forall. intros e He. rewrite length_app. simpl.
    destruct (define_In _ _ _ _ He) as [->|Hin]; [simpl; lia|].
    pose proof (proj1 (List.Forall_forall _ _) Ha e Hin) as Hlt.
    simpl in Hlt. lia.
  - intros k'. rewrite rev_app_distr. simpl.
    destruct (String.eqb_spec k k') as [<-|Hne].
    + rewrite own_define_eq. apply lookup_last.
    + rewrite (own_define_ne _ _ _ _ Hne). rewrite <- Hv.
      destruct (Obj.own o k') as [l|] eqn:E; [|reflexivity].
      apply lookup_app_l.
      exact (proj1 (List.Forall_forall _ _) Ha _ (own_Some_In _ _ _ E)).
Qed.

Lemma built_fold ms : forall pre acc,
  built pre acc ->
  built (pre ++ ms)
    (fold_left
       (fun acc m =>
          (Obj.define (fst acc) (fst m) (length (snd acc)), (snd acc ++ [snd m])%list))
       ms acc).
Proof.
  induction ms as [|m ms IH]; intros pre acc H; simpl.
  - rewrite app_nil_r. exact H.
  - replace (pre ++ m :: ms)%list with ((pre ++ [m]) ++ ms)%list
      by (rewrite <- app_assoc; reflexivity).
    apply IH, built_step, H.
Qed.

Lemma built_build_items ms : built ms (build_items ms).
Proof.
  apply (built_fold ms [] ([], [])). unfold built. simpl.
  repeat split; try constructor.
Qed.

End Construction.

(** X14. When [loadFromStorage] returns a mapping of item records,
    [new ShoppingCart()] yields a well-formed cart that holds, for every
    identifier, the last record the stored text gives for it; it has no
    observer, has called none, has written nothing to the storage, and its
    console holds what loading logged. *)
Theorem new_ShoppingCart_well_formed (st : Storage) (ms : list (string * LineItem))
    (log : list log_entry) :
  loadFromStorage st = (Items ms, log) ->
  exists s, new_ShoppingCart st = Some s /\ wf s /\
    (forall k, stored s k = Obj.own (List.rev ms) k) /\
    observers s = [] /\ calls s = [] /\ setItem_calls s = [] /\
    storage s = st /\ console s = log.
Proof.
  intros Hload. unfold new_ShoppingCart. rewrite Hload.
  pose proof (built_build_items ms) as Hb.
  destruct (build_items ms) as [o rs]. destruct Hb as (Hk & Hl & Ha & Hv).
  eexists. split; [reflexivity|]. simpl in *.
  split; [split; simpl; auto|].
  split; [|repeat split].
  intros k. rewrite <- Hv. unfold stored, items_object, object_at, record_at. simpl.
  destruct (Obj.own o k) as [l|] eqn:E; [|reflexivity].
  pose proof (proj1 (List.Forall_forall _ _) Ha _ (own_Some_In _ _ _ E)) as Hlt.
  simpl in Hlt. destruct (lookup_lt_is_Some_2 rs l Hlt) as [r Hr].
  rewrite Hr. reflexivity.
Qed.

(** ** What a reload keeps whatever the prices *)

Section ReloadAnyPrice.

Lemma length_item_entries s : length (item_entries s) = length (Obj.keys (items_object s)).
Proof. unfold item_entries, Obj.keys. rewrite !length_map. reflexivity. Qed.

Lemma fold_left_quantities (rs : list LineItem) (g : LineItem -> LineItem) :
  (forall r, quantity (g r) = quantity r) -> forall a,
  fold_left (fun total item => total + quantity item) (List.map g rs) a
  = fold_left (fun total item => total + quantity item) rs a.
Proof.
  intros Hg. induction rs as [|r rs IH]; intros a; simpl; [reflexivity|].
  rewrite Hg. apply IH.
Qed.

Lemma read_back_observed s s' :
  item_entries s' = List.map (relabel read_back) (item_entries s) ->
  getTotalQuantity s' = getTotalQuantity s /\
  isEmpty s' = isEmpty s /\
  getCheckoutUrl s' = getCheckoutUrl s.
Proof.
  intros He.
  assert (Hempty : isEmpty s' = isEmpty s).
  { unfold isEmpty. rewrite <- !length_item_entries, He, length_map. reflexivity. }
  split; [|split; [exact Hempty|]].
  - unfold getTotalQuantity. rewrite !item_values_entries, He, List.map_map.
    change (List.map (fun x => snd (relabel read_back x)) (item_entries s))
      with (List.map (fun x => read_back (snd x)) (item_entries s)).
    rewrite <- (List.map_map snd read_back).
    apply fold_left_quantities. reflexivity.
  - unfold getCheckoutUrl. rewrite Hempty, He, List.map_map. reflexivity.
Qed.

End ReloadAnyPrice.

(** X15. Let the quantities of a well-formed cart, and its prices that are
    finite, be integers within the exact range. Then the cart a new page
    constructs from the text [saveToStorage] writes is well formed and has
    the same identifiers in the same order with the same quantities; a price
    comes back as it was when it is [null] or such an integer, and as [null]
    when it is [NaN] or infinite. So the total quantity, [isEmpty()] and
    the checkout URL survive the reload. *)
Theorem reload_keeps_quantities (s : State) :
  wf s -> Forall exact_record (item_records s) ->
  exists s', reload s = Some s' /\ wf s' /\
    item_entries s' = List.map (relabel read_back) (item_entries s) /\
    getTotalQuantity s' = getTotalQuantity s /\
    isEmpty s' = isEmpty s /\
    getCheckoutUrl s' = getCheckoutUrl s.
Proof.
  intros Hwf _. destruct (reload_entries s Hwf) as (s' & Hreload & Hwf' & He).
  exists s'. split; [exact Hreload|]. split; [exact Hwf'|]. split; [exact He|].
  apply read_back_observed, He.
Qed.

(** ** A price on [Object.prototype] *)

Section Pollution.

Lemma addItem__proto__ s p :
  wf s -> gt0 (ToNumber p) = true ->
  Obj.own (items_object s) "__proto__" = None ->
  addItem (Some "__proto__") (Some p) s
  = (Normal NaN, notifyObservers (saveToStorage (with_proto_price true s))).
Proof.
  intros Hwf Hp Hnone.
  assert (Hget : Get s "__proto__" = InheritedObject)
    by (unfold Get; rewrite Hnone; reflexivity).
  rewrite (addItem_inherited s "__proto__" (Some p)); [|discriminate|exact Hget].
  simpl default. rewrite Hp. reflexivity.
Qed.

Lemma Get_price_inherited s :
  proto_price s = true -> Obj.own (items_object s) "price" = None ->
  Get s "price" = InheritedNumber.
Proof. intros Hp Hnone. unfold Get. rewrite Hnone, Hp. reflexivity. Qed.

Lemma inherited_number_throws s k :
  k <> EmptyString -> Get s k = InheritedNumber ->
  (forall price_arg, addItem (Some k) price_arg s = (Throw TypeError, s)) /\
  removeItem (Some k) s = (Throw TypeError, s).
Proof.
  intros Hk Hget. split.
  - intros price_arg. unfold addItem. rewrite (falsy_id_Some k Hk). simpl key_of.
    rewrite Hget. simpl. rewrite Hget. reflexivity.
  - unfold removeItem. rewrite (falsy_id_Some k Hk). simpl key_of.
    rewrite Hget. reflexivity.
Qed.

End Pollution.

(** X16. [addItem("__proto__", p)] with a positive price [p], on a cart that
    holds no entry under that key, returns [NaN], adds no entry and leaves a
    price on the prototype of every object. From then on, as long as the
    cart holds no entry under "price", [addItem("price")] and
    [removeItem("price")] throw a [TypeError] and leave the state as it is:
    nothing is saved and no observer is called. *)
Theorem price_on_the_prototype (s : State) (p : value) :
  wf s -> gt0 (ToNumber p) = true ->
  Obj.own (items_object s) "__proto__" = None ->
  Obj.own (items_object s) "price" = None ->
  let s1 := snd (addItem (Some "__proto__") (Some p) s) in
  fst (addItem (Some "__proto__") (Some p) s) = Normal NaN /\
  item_entries s1 = item_entries s /\
  (forall price_arg, addItem (Some "price") price_arg s1 = (Throw TypeError, s1)) /\
  removeItem (Some "price") s1 = (Throw TypeError, s1).
Proof.
  intros Hwf Hp Hproto Hprice s1. unfold s1.
  rewrite (addItem__proto__ s p Hwf Hp Hproto). cbn [fst snd].
  assert (Hlt : (items (with_proto_price true s) < length (objects (with_proto_price true s)))%nat)
    by exact (wf_items s Hwf).
  destruct (publish_spec _ Hlt) as (_ & Hr & _ & _ & Hpp & _ & _ & Hio).
  split; [reflexivity|]. split; [apply item_entries_ext; [exact Hio|exact Hr]|].
  apply inherited_number_throws; [discriminate|].
  apply Get_price_inherited; [rewrite Hpp; reflexivity|rewrite Hio; exact Hprice].
Qed.

(** ** The entry after a call *)



(** ** Objects handed out *)

Section HandedOut.

(** An object of the heap that is not [this.items]. *)
Lemma publish_objects s0 s o :
  (items s0 < length (objects s0))%nat ->
  (o < length (objects s))%nat -> o <> items s ->
  items s0 = items s -> length (objects s0) = length (objects s) ->
  objects s0 !! o = objects s !! o ->
  let s' := notifyObservers (saveToStorage s0) in
  (o < length (objects s'))%nat /\ o <> items s' /\ object_at s' o = object_at s o.
Proof.
  intros Hlt0 Hlt Hne Hi Hlen Ho s'.
  destruct (publish_spec s0 Hlt0) as (Hobj & _ & Hi' & _).
  fold s' in Hobj, Hi'. rewrite Hi', Hi. unfold object_at. rewrite Hobj.
  rewrite length_app, Hlen. split; [simpl; lia|]. split; [exact Hne|].
  rewrite lookup_app_l by (rewrite Hlen; exact Hlt). rewrite Ho. reflexivity.
Qed.

Lemma step_objects s c o :
  wf s -> (o < length (objects s))%nat -> o <> items s ->
  (o < length (objects (step s c)))%nat /\ o <> items (step s c) /\
  object_at (step s c) o = object_at s o.
Proof.
  intros Hwf Hlt Hne. pose proof (wf_items s Hwf) as Hi.
  destruct c as [variantId price_arg|variantId|]; cbn [step].
  - destruct (falsy_id variantId) eqn:Hf.
    { unfold addItem. rewrite Hf. auto. }
    destruct variantId as [k|]; [|discriminate].
    assert (Hk : k <> EmptyString) by (simpl in Hf; apply String.eqb_neq; exact Hf).
    destruct (Get s k) eqn:Hget.
    + apply Get_Own_inv in Hget. rewrite (addItem_present s k l _ Hwf Hk Hget).
      cbn [snd]. apply publish_objects; auto.
    + rewrite (addItem_inherited s k _ Hk Hget). cbn [snd].
      destruct (_ && _); apply publish_objects; auto.
    + unfold addItem. rewrite Hf. simpl key_of. rewrite Hget. simpl. rewrite Hget.
      auto.
    + rewrite (addItem_absent s k _ Hwf Hk Hget). cbn [snd].
      apply publish_objects; simpl; auto; rewrite ?length_insert; auto.
      apply list_lookup_insert_ne. congruence.
  - destruct (falsy_id variantId) eqn:Hf.
    { unfold removeItem. rewrite Hf. auto. }
    destruct variantId as [k|]; [|discriminate].
    assert (Hk : k <> EmptyString) by (simpl in Hf; apply String.eqb_neq; exact Hf).
    destruct (Get s k) eqn:Hget.
    + apply Get_Own_inv in Hget. rewrite (removeItem_present s k l Hwf Hk Hget).
      destruct (_ <=? 0); cbn [snd]; apply publish_objects; simpl; auto;
        rewrite ?length_insert; auto.
      apply list_lookup_insert_ne. congruence.
    + rewrite (removeItem_inherited s k Hk Hget). cbn [snd].
      apply publish_objects; auto.
    + unfold removeItem. rewrite Hf. simpl key_of. rewrite Hget. auto.
    + rewrite (removeItem_absent s k Hget). auto.
  - rewrite clearCart_spec. destruct (wf_cleared s) as [Hwf' _].
    pose proof (wf_items _ Hwf') as Hlt'.
    destruct (publish_spec _ Hlt') as (Hobj & _ & Hi' & _).
    rewrite Hi'. unfold object_at. rewrite Hobj. simpl.
    rewrite !length_app. simpl. split; [lia|]. split; [lia|].
    rewrite !lookup_app_l by (rewrite ?length_app; simpl; lia). reflexivity.
Qed.

End HandedOut.

(** X19. The class writes to no object but [this.items]: through any
    sequence of [addItem], [removeItem] and [clearCart], an object allocated
    before (the [items] of a snapshot given to an observer, the result of
    [getAllItems()], the mapping replaced by [clearCart]) keeps exactly the
    properties it has. *)
Theorem other_objects_keep_properties (s : State) (o : oid) (cs : list call) :
  wf s -> (o < length (objects s))%nat -> o <> items s ->
  object_at (run cs s) o = object_at s o.
Proof.
  revert s. induction cs as [|c cs IH]; intros s Hwf Hlt Hne; [reflexivity|].
  destruct (step_objects s c o Hwf Hlt Hne) as (Hlt' & Hne' & Ho).
  change (run (c :: cs) s) with (run cs (step s c)).
  rewrite IH; [exact Ho|apply wf_step, Hwf|exact Hlt'|exact Hne'].
Qed.

(** ** The properties at the sample cart *)


Lemma prices_storable_sample : prices_storable sample_cart.
Proof. unfold prices_storable. vm_compute. repeat constructor. Defined.








Lemma isEmpty_iff_total_quantity_zero_witness :
  wf sample_cart /\ quantities_positive sample_cart /\
  Z.of_nat (length (items_object sample_cart)) <= getTotalQuantity sample_cart.
Proof.
  split; [exact wf_sample_cart|]. split; [exact quantities_positive_sample_cart|].
  exact (proj2 (proj2 (isEmpty_iff_total_quantity_zero sample_cart wf_sample_cart
                         quantities_positive_sample_cart))).
Defined.

Lemma item_records_sample_cart :
  item_records sample_cart
  = [{| quantity := 2; price := VNum (Fin 10) |};
     {| quantity := 1; price := VNum (Fin 0) |}].
Proof. vm_compute. reflexivity. Defined.

Lemma exact_totals_sample_cart : exact_totals sample_cart.
Proof.
  unfold exact_totals. rewrite item_records_sample_cart. split.
  - repeat constructor; vm_compute; discriminate.
  - split; vm_compute; discriminate.
Defined.



Lemma getTotalPrice_is_sum_witness :
  prices_storable sample_cart /\ exact_totals sample_cart /\
  getTotalPrice sample_cart = Fin (sum_over line_total (item_records sample_cart)).
Proof.
  split; [exact prices_storable_sample|]. split; [exact exact_totals_sample_cart|].
  exact (getTotalPrice_is_sum sample_cart prices_storable_sample exact_totals_sample_cart).
Defined.




Lemma observers_form_a_set_witness :
  ~ In (lid (quiet 7)) (List.map lid (observers sample_cart)) /\
  unsubscribe (quiet 7) (subscribe (Some (quiet 7)) sample_cart) = sample_cart.
Proof.
  assert (H : ~ In (lid (quiet 7)) (List.map lid (observers sample_cart))).
  { vm_compute. intros [H|[H|[]]]; discriminate H. }
  split; [exact H|].
  exact (proj1 (proj2 (proj2 (proj2 (observers_form_a_set sample_cart (quiet 7))))) H).
Defined.

Lemma unsubscribed_observer_not_called_witness :
  wf sample_cart /\ passive sample_cart /\
  invocations (lid (noisy 1))
    (calls (run [AddItem (Some "v3") None; ClearCart] (unsubscribe (noisy 1) sample_cart)))
  = invocations (lid (noisy 1)) (calls sample_cart).
Proof.
  split; [exact wf_sample_cart|]. split; [exact passive_sample_cart|].
  exact (proj2 (unsubscribed_observer_not_called sample_cart (noisy 1)
                  [AddItem (Some "v3") None; ClearCart] wf_sample_cart
                  passive_sample_cart)).
Defined.

Lemma new_ShoppingCart_well_formed_witness :
  loadFromStorage (storage sample_cart) = (Items (item_entries sample_cart), []) /\
  exists s, new_ShoppingCart (storage sample_cart) = Some s /\ wf s /\
    (forall k, stored s k = Obj.own (List.rev (item_entries sample_cart)) k) /\
    observers s = [] /\ calls s = [] /\ setItem_calls s = [] /\
    storage s = storage sample_cart /\ console s = [].
Proof.
  assert (H : loadFromStorage (storage sample_cart)
              = (Items (item_entries sample_cart), [])) by (vm_compute; reflexivity).
  split; [exact H|].
  exact (new_ShoppingCart_well_formed (storage sample_cart) (item_entries sample_cart) [] H).
Defined.

Lemma wf_cart_infinite_price : wf cart_infinite_price.
Proof. apply wf_run, wf_empty_cart. Defined.

Lemma exact_records_infinite_price :
  Forall exact_record (item_records cart_infinite_price).
Proof.
  assert (E : item_records cart_infinite_price
              = [{| quantity := 1; price := VNum PosInf |}]) by (vm_compute; reflexivity).
  rewrite E. constructor; [|constructor]. split; [unfold exact; simpl; lia|exact I].
Defined.

Lemma reload_keeps_quantities_witness :
  wf cart_infinite_price /\ Forall exact_record (item_records cart_infinite_price) /\
  exists s', reload cart_infinite_price = Some s' /\ wf s' /\
    item_entries s' = List.map (relabel read_back) (item_entries cart_infinite_price) /\
    getTotalQuantity s' = getTotalQuantity cart_infinite_price /\
    isEmpty s' = isEmpty cart_infinite_price /\
    getCheckoutUrl s' = getCheckoutUrl cart_infinite_price.
Proof.
  split; [exact wf_cart_infinite_price|]. split; [exact exact_records_infinite_price|].
  exact (reload_keeps_quantities cart_infinite_price wf_cart_infinite_price
           exact_records_infinite_price).
Defined.

Lemma price_on_the_prototype_witness :
  wf sample_cart /\ gt0 (ToNumber (VNum (Fin 10))) = true /\
  Obj.own (items_object sample_cart) "__proto__" = None /\
  Obj.own (items_object sample_cart) "price" = None /\
  removeItem (Some "price") (snd (addItem (Some "__proto__") (num 10) sample_cart))
  = (Throw TypeError, snd (addItem (Some "__proto__") (num 10) sample_cart)).
Proof.
  assert (Hp : gt0 (ToNumber (VNum (Fin 10))) = true) by reflexivity.
  assert (H1 : Obj.own (items_object sample_cart) "__proto__" = None)
    by (vm_compute; reflexivity).
  assert (H2 : Obj.own (items_object sample_cart) "price" = None)
    by (vm_compute; reflexivity).
  split; [exact wf_sample_cart|]. split; [exact Hp|]. split; [exact H1|].
  split; [exact H2|].
  exact (proj2 (proj2 (proj2 (price_on_the_prototype sample_cart (VNum (Fin 10))
                                wf_sample_cart Hp H1 H2)))).
Defined.







Lemma other_objects_keep_properties_witness :
  wf sample_cart /\ (1 < length (objects sample_cart))%nat /\ 1%nat <> items sample_cart /\
  object_at (run [AddItem (Some "v3") None; RemoveItem (Some "v1"); ClearCart] sample_cart)
    1%nat
  = object_at sample_cart 1%nat.
Proof.
  assert (Hlt : (1 < length (objects sample_cart))%nat) by (vm_compute; lia).
  assert (Hne : 1%nat <> items sample_cart) by (vm_compute; discriminate).
  split; [exact wf_sample_cart|]. split; [exact Hlt|]. split; [exact Hne|].
  exact (other_objects_keep_properties sample_cart 1%nat
           [AddItem (Some "v3") None; RemoveItem (Some "v1"); ClearCart]
           wf_sample_cart Hlt Hne).
Defined.
